(** * Assembly of mutual-approximation observation partials

    A shallow embedding of
    [Tudat/SimulationSetup/EstimationSetup/createMutualApproximationPartials.h]:
    the single-link and the all-link-ends assembly function of the
    single-valued observable ([ObservationPartial< 1 >]), and the
    single-link assembly function of the two-valued observable
    ([ObservationPartial< 2 >]).

    Objects built with [std::make_shared] live in an explicit heap, so that
    two [std::shared_ptr]s are the same object exactly when their addresses
    are equal.  [throw std::runtime_error( ... )] is an exceptional result
    carrying the [what( )] string, and [std::cerr] is a list of lines. *)

From Stdlib Require Import ZArith String List Lia.
From stdpp Require Import base numbers option list gmap strings fin_maps pretty.

Local Open Scope Z_scope.
Local Open Scope string_scope.
Local Open Scope list_scope.

(** ** Machine integers *)

(** [int] is the 32-bit signed integer; an addition that leaves the range
    wraps around as on the two's-complement targets the library is built
    for (the C++ standard leaves that case undefined). *)
Definition INT_MAX : Z := 2147483647.

Definition int_wrap (z : Z) : Z := (z + 2 ^ 31) `mod` 2 ^ 32 - 2 ^ 31.

Definition int_add (a b : Z) : Z := int_wrap (a + b).

(** ** Link ends, parameter identifiers, observable types *)

(** Modelled from the spec: [linkTypeDefs.h] is not among the sources.  The
    three roles the assembly functions look for carry the names they have in
    the source; any further enumerator is [other_link_end_type n]. *)
Inductive LinkEndType : Type :=
| transmitter
| transmitter2
| receiver
| other_link_end_type (n : nat).

Global Instance LinkEndType_eq_dec : EqDecision LinkEndType.
Proof. solve_decision. Defined.

Definition LinkEndType_to_nat (t : LinkEndType) : nat :=
  match t with
  | transmitter => 0
  | transmitter2 => 1
  | receiver => 2
  | other_link_end_type n => 3 + n
  end%nat.

Definition LinkEndType_of_nat (n : nat) : LinkEndType :=
  match n with
  | O => transmitter
  | S O => transmitter2
  | S (S O) => receiver
  | S (S (S n')) => other_link_end_type n'
  end.

Global Instance LinkEndType_countable : Countable LinkEndType.
Proof.
  apply (inj_countable' LinkEndType_to_nat LinkEndType_of_nat).
  intros []; reflexivity.
Defined.

(** [typedef std::pair< std::string, std::string > LinkEndId;]
    [typedef std::map< LinkEndType, LinkEndId > LinkEnds;] *)
Abbreviation LinkEndId := (string * string)%type.
Abbreviation LinkEnds := (gmap LinkEndType LinkEndId).

(** Modelled from the spec: [estimatableParameter.h] is not among the
    sources.  The two categories the dynamical-parameter loop accepts carry
    their source names; every other enumerator is [other_parameter n]. *)
Inductive EstimatebleParametersEnum : Type :=
| arc_wise_initial_body_state
| initial_body_state
| other_parameter (n : nat).

Global Instance EstimatebleParametersEnum_eq_dec : EqDecision EstimatebleParametersEnum.
Proof. solve_decision. Defined.

(** [typedef std::pair< EstimatebleParametersEnum,
             std::pair< std::string, std::string > > EstimatebleParameterIdentifier;] *)
Abbreviation EstimatebleParameterIdentifier :=
  (EstimatebleParametersEnum * (string * string))%type.

(** The observable tags the assembly functions hand to the link-property
    constructor. *)
Inductive ObservableType : Type :=
| mutual_approximation
| mutual_approximation_with_impact_parameter
| impact_parameter_mutual_approx.

Global Instance ObservableType_eq_dec : EqDecision ObservableType.
Proof. solve_decision. Defined.

(** ** External collaborators

    The headers included by the file declare the classes and functions
    below; their bodies are outside the sources.  They are the interface
    the assembly code is written against: the types are abstract, the
    functions arbitrary, and everything proved holds whatever they are. *)
Record Externals : Type := {
  NamedBodyMap : Type;
  DependentVariablesInterface : Type;
  CartesianStatePartial : Type;
  LightTimeCorrection : Type;
  LightTimeCorrectionPartial : Type;
  (** [EstimatableParameter< T >]; the value type [T] of the parameter is
      not inspected by the assembly code. *)
  EstimatableParameter : Type;
  (** what a partial made by [createObservationPartialWrtLinkProperty] holds *)
  LinkPropertyPartial : Type;
  getParameterName : EstimatableParameter → EstimatebleParameterIdentifier;
  getParameterSize : EstimatableParameter → Z;
  createCartesianStatePartialsWrtBodyState :
    LinkEnds → NamedBodyMap → string → gmap LinkEndType CartesianStatePartial;
  createCartesianStatePartialsWrtParameter :
    LinkEnds → NamedBodyMap → EstimatableParameter →
    gmap LinkEndType CartesianStatePartial;
  createLightTimeCorrectionPartials :
    list LightTimeCorrection → list LightTimeCorrectionPartial;
  (** [getNumberOfLighTimeCorrectionPartialsFunctions( )] of a partial
      object: the number of light-time-correction partial functions the
      object has found, at its construction, for its parameter among the
      correction partials it was given *)
  getNumberOfLighTimeCorrectionPartialsFunctions :
    EstimatebleParameterIdentifier → list (list LightTimeCorrectionPartial) → nat;
  isParameterObservationLinkProperty : EstimatebleParametersEnum → bool;
  (** [createObservationPartialWrtLinkProperty< ObservationSize >]:
      [None] is the null pointer *)
  createObservationPartialWrtLinkProperty :
    nat → LinkEnds → ObservableType → EstimatableParameter →
    option LinkPropertyPartial
}.

(** ** Heap, exceptions, diagnostics *)

(** A [std::shared_ptr] is the address of an object of the heap; [None] is
    [nullptr]. *)
Abbreviation shared_ptr := (option nat) (only parsing).
Abbreviation nullptr := (@None nat) (only parsing).

Inductive ScalingClass : Type :=
| MutualApproximationScaling
| ModifiedMutualApproximationScaling
| MutualApproximationWithImpactParameterScaling.

Section WithExternals.
Context {E : Externals}.

(** The constructor arguments shared by [MutualApproximationPartial] and
    [MutualApproximationWithImpactParameterPartial]. *)
Record PartialMembers : Type := {
  positionPartialScaler : shared_ptr;
  positionPartialList : gmap LinkEndType (CartesianStatePartial E);
  parameterIdentifier : EstimatebleParameterIdentifier;
  lighTimeCorrectionPartials : list (list (LightTimeCorrectionPartial E))
}.

Inductive HeapObject : Type :=
| ScalingObject (c : ScalingClass)
                (dependentVariablesInterface : option (DependentVariablesInterface E))
| MutualApproximationPartial (m : PartialMembers)
| MutualApproximationWithImpactParameterPartial (m : PartialMembers)
| ObservationPartialWrtLinkProperty (observationSize : nat)
                                    (p : LinkPropertyPartial E).

(** [heap] logs every object constructed so far, the address of an object
    being its position; [cerr] holds the lines written to [std::cerr]. *)
Record State : Type := {
  heap : list HeapObject;
  cerr : list string
}.

Inductive Result (A : Type) : Type :=
| Normal (a : A)
| Thrown (what : string).
Global Arguments Normal {A} a.
Global Arguments Thrown {A} what.

Definition Exec (A : Type) : Type := State → Result A * State.

Definition Exec_ret {A} (a : A) : Exec A := λ s, (Normal a, s).

Definition Exec_bind {A B} (m : Exec A) (f : A → Exec B) : Exec B :=
  λ s, match m s with
       | (Normal a, s') => f a s'
       | (Thrown e, s') => (Thrown e, s')
       end.

Definition throw_runtime_error {A} (what : string) : Exec A :=
  λ s, (Thrown what, s).

(** The state once [o] has been constructed. *)
Definition allocated (s : State) (o : HeapObject) : State :=
  {| heap := heap s ++ [o]; cerr := cerr s |}.

(** [std::make_shared]: the new object gets the next address. *)
Definition make_shared (o : HeapObject) : Exec shared_ptr :=
  λ s, (Normal (Some (length (heap s))), allocated s o).

(** [std::cerr << ... << std::endl] *)
Definition cerr_endl (line : string) : Exec unit :=
  λ s, (Normal tt, {| heap := heap s; cerr := cerr s ++ [line] |}).

End WithExternals.

Global Arguments HeapObject : clear implicits.
Global Arguments PartialMembers : clear implicits.
Global Arguments State : clear implicits.
Global Arguments Exec : clear implicits.

Declare Scope exec_scope.
Delimit Scope exec_scope with exec.
Notation "'do' x <- m ; k" := (Exec_bind m (λ x, k))
  (at level 10, x name, m at level 100, k at level 200,
   format "'[v' 'do'  x  <-  m ; '/' k ']'") : exec_scope.
Notation "'do' ' p <- m ; k" := (Exec_bind m (λ p, k))
  (at level 10, p pattern, m at level 100, k at level 200,
   format "'[v' 'do'  ' p  <-  m ; '/' k ']'") : exec_scope.
Local Open Scope exec_scope.

(** A [for] loop over a container, [a] being the variables the body
    updates. *)
Fixpoint for_each {E : Externals} {A B : Type}
    (body : B → A → Exec E A) (l : list B) (a : A) : Exec E A :=
  match l with
  | [] => Exec_ret a
  | x :: l' => do a' <- body x a; for_each body l' a'
  end.

(** ** The assembly functions *)

(** [SingleLinkObservationPartialList] and
    [SingleLinkObservationTwoPartialList]:
    [std::map< std::pair< int, int >, std::shared_ptr< ObservationPartial< N > > >] *)
Abbreviation BlockMap := (gmap (Z * Z) (option nat)).

Section Assembly.
Context {E : Externals}.

(** [EstimatableParameterSet]: the three views the assembly code asks for.
    A [std::map< int, ... >] is given by its in-order traversal, the list of
    its (key, value) pairs by ascending key, which is the order in which the
    loops visit it. *)
Record EstimatableParameterSet : Type := {
  getEstimatedInitialStateParameters : list (EstimatableParameter E);
  getDoubleParameters : list (Z * EstimatableParameter E);
  getVectorParameters : list (Z * EstimatableParameter E)
}.

(** [std::to_string] of a container size *)
Definition to_string (n : nat) : string := pretty n.

(** The [what( )] of the leg-count error of the two single-link functions;
    the all-link-ends function writes the same text to [std::cerr]. *)
Definition lightTimeCorrectionsMessage (n : nat) : string :=
  "Error when making mutual approximation partials, light time corrections for "
  +:+ to_string n +:+ " links found, instead of 2.".

(** *** Single-valued observable *)

(** Modelled from the spec: [createMutualApproximationPartialWrtBodyPosition]
    is only declared in the header.  Per its documentation it returns the
    partial with respect to the position of a body, built on the scaler it is
    given, and [nullptr] if no dependency exists; per the spec the per-role
    position partials of the body are derived by the position-partial
    factory and absence is decided as for any other parameter. *)
Definition createMutualApproximationPartialWrtBodyPosition
    (mutualApproximationLinkEnds : LinkEnds) (bodyMap : NamedBodyMap E)
    (bodyToEstimate : string) (mutualApproximationScaler : shared_ptr)
    (lightTimeCorrectionPartialObjects : list (list (LightTimeCorrectionPartial E)))
  : Exec E shared_ptr :=
  let positionPartials :=
    createCartesianStatePartialsWrtBodyState E
      mutualApproximationLinkEnds bodyMap bodyToEstimate in
  let parameterName := (initial_body_state, (bodyToEstimate, "")) in
  do testMutualApproximationPartial <-
    make_shared (MutualApproximationPartial
      {| positionPartialScaler := mutualApproximationScaler;
         positionPartialList := positionPartials;
         parameterIdentifier := parameterName;
         lighTimeCorrectionPartials := lightTimeCorrectionPartialObjects |});
  if bool_decide (0 < size positionPartials)%nat
     || negb (getNumberOfLighTimeCorrectionPartialsFunctions E
                parameterName lightTimeCorrectionPartialObjects =? 0)%nat
  then Exec_ret testMutualApproximationPartial
  else Exec_ret nullptr.

Definition createMutualApproximationPartialWrtParameter
    (mutualApproximationLinkEnds : LinkEnds) (bodyMap : NamedBodyMap E)
    (parameterToEstimate : EstimatableParameter E)
    (mutualApproximationScaler : shared_ptr)
    (lightTimeCorrectionPartialObjects : list (list (LightTimeCorrectionPartial E)))
  : Exec E shared_ptr :=
  let positionPartials :=
    createCartesianStatePartialsWrtParameter E
      mutualApproximationLinkEnds bodyMap parameterToEstimate in
  do testMutualApproximationPartial <-
    make_shared (MutualApproximationPartial
      {| positionPartialScaler := mutualApproximationScaler;
         positionPartialList := positionPartials;
         parameterIdentifier := getParameterName E parameterToEstimate;
         lighTimeCorrectionPartials := lightTimeCorrectionPartialObjects |});
  if bool_decide (0 < size positionPartials)%nat
     || negb (getNumberOfLighTimeCorrectionPartialsFunctions E
                (getParameterName E parameterToEstimate)
                lightTimeCorrectionPartialObjects =? 0)%nat
  then Exec_ret testMutualApproximationPartial
  else Exec_ret nullptr.

(** [createObservationPartialWrtLinkProperty< ObservationSize >]: the
    external constructor decides whether there is a partial; the object it
    makes is a heap object like every other. *)
Definition createObservationPartialWrtLinkProperty_shared
    (observationSize : nat) (linkEnds : LinkEnds) (observableType : ObservableType)
    (parameterToEstimate : EstimatableParameter E) : Exec E shared_ptr :=
  match createObservationPartialWrtLinkProperty E
          observationSize linkEnds observableType parameterToEstimate with
  | Some p => make_shared (ObservationPartialWrtLinkProperty observationSize p)
  | None => Exec_ret nullptr
  end.

(** Body of the loop over [initialDynamicalParameters]; the loop updates the
    partial list and [currentIndex]. *)
Definition initialDynamicalParameterIteration
    (mutualApproximationLinkEnds : LinkEnds) (bodyMap : NamedBodyMap E)
    (mutualApproximationScaling : shared_ptr)
    (lightTimeCorrectionPartialObjects : list (list (LightTimeCorrectionPartial E)))
    (parameter : EstimatableParameter E)
    (loopState : BlockMap * Z) : Exec E (BlockMap * Z) :=
  let '(mutualApproximationPartials, currentIndex) := loopState in
  do acceleratedBody <-
    (if bool_decide ((getParameterName E parameter).1 = initial_body_state)
     then Exec_ret (getParameterName E parameter).2.1
     else if bool_decide ((getParameterName E parameter).1 = arc_wise_initial_body_state)
     then Exec_ret (getParameterName E parameter).2.1
     else throw_runtime_error
       "Error when making mutual approximation partials, could not identify parameter");
  do currentMutualApproximationPartial <-
    createMutualApproximationPartialWrtBodyPosition
      mutualApproximationLinkEnds bodyMap acceleratedBody
      mutualApproximationScaling lightTimeCorrectionPartialObjects;
  let mutualApproximationPartials' :=
    if bool_decide (currentMutualApproximationPartial ≠ nullptr)
    then <[(currentIndex, 6) := currentMutualApproximationPartial]>
           mutualApproximationPartials
    else mutualApproximationPartials in
  Exec_ret (mutualApproximationPartials', int_add currentIndex 6).

(** Body of the loop over [doubleParametersToEstimate]. *)
Definition doubleParameterIteration
    (mutualApproximationLinkEnds : LinkEnds) (bodyMap : NamedBodyMap E)
    (mutualApproximationScaling : shared_ptr)
    (lightTimeCorrectionPartialObjects : list (list (LightTimeCorrectionPartial E)))
    (parameterIterator : Z * EstimatableParameter E)
    (mutualApproximationPartials : BlockMap) : Exec E BlockMap :=
  do currentMutualApproximationPartial <-
    createMutualApproximationPartialWrtParameter
      mutualApproximationLinkEnds bodyMap parameterIterator.2
      mutualApproximationScaling lightTimeCorrectionPartialObjects;
  if bool_decide (currentMutualApproximationPartial ≠ nullptr)
  then Exec_ret (<[(parameterIterator.1, 1) := currentMutualApproximationPartial]>
                   mutualApproximationPartials)
  else Exec_ret mutualApproximationPartials.

(** Body of the loop over [vectorParametersToEstimate]. *)
Definition vectorParameterIteration
    (mutualApproximationLinkEnds : LinkEnds) (bodyMap : NamedBodyMap E)
    (mutualApproximationScaling : shared_ptr)
    (lightTimeCorrectionPartialObjects : list (list (LightTimeCorrectionPartial E)))
    (parameterIterator : Z * EstimatableParameter E)
    (mutualApproximationPartials : BlockMap) : Exec E BlockMap :=
  do currentMutualApproximationPartial <-
    (if negb (isParameterObservationLinkProperty E
                (getParameterName E parameterIterator.2).1)
     then createMutualApproximationPartialWrtParameter
            mutualApproximationLinkEnds bodyMap parameterIterator.2
            mutualApproximationScaling lightTimeCorrectionPartialObjects
     else createObservationPartialWrtLinkProperty_shared 1
            mutualApproximationLinkEnds mutual_approximation parameterIterator.2);
  if bool_decide (currentMutualApproximationPartial ≠ nullptr)
  then Exec_ret (<[(parameterIterator.1, getParameterSize E parameterIterator.2)
                   := currentMutualApproximationPartial]>
                   mutualApproximationPartials)
  else Exec_ret mutualApproximationPartials.

(** [createMutualApproximationPartials] for a single set of link ends. *)
Definition createMutualApproximationPartials
    (mutualApproximationLinkEnds : LinkEnds) (bodyMap : NamedBodyMap E)
    (parametersToEstimate : EstimatableParameterSet)
    (isCentralInstantUsedAsObservable : bool)
    (lightTimeCorrections : list (list (LightTimeCorrection E)))
    (dependentVariablesInterface : option (DependentVariablesInterface E))
  : Exec E (BlockMap * option nat) :=
  do lightTimeCorrectionPartialObjects <-
    (if bool_decide (0 < length lightTimeCorrections)%nat
     then
       if bool_decide (length lightTimeCorrections ≠ 2%nat)
       then throw_runtime_error
              (lightTimeCorrectionsMessage (length lightTimeCorrections))
       else Exec_ret
              [createLightTimeCorrectionPartials E (nth 0 lightTimeCorrections []);
               createLightTimeCorrectionPartials E (nth 1 lightTimeCorrections [])]
     else Exec_ret []);
  do mutualApproximationScaling <-
    (if isCentralInstantUsedAsObservable
     then make_shared (ScalingObject MutualApproximationScaling
                                     dependentVariablesInterface)
     else make_shared (ScalingObject ModifiedMutualApproximationScaling
                                     dependentVariablesInterface));
  do afterInitialStates <-
    for_each (initialDynamicalParameterIteration
                mutualApproximationLinkEnds bodyMap mutualApproximationScaling
                lightTimeCorrectionPartialObjects)
             (getEstimatedInitialStateParameters parametersToEstimate)
             (∅, 0);
  do afterDoubles <-
    for_each (doubleParameterIteration
                mutualApproximationLinkEnds bodyMap mutualApproximationScaling
                lightTimeCorrectionPartialObjects)
             (getDoubleParameters parametersToEstimate)
             afterInitialStates.1;
  do mutualApproximationPartials <-
    for_each (vectorParameterIteration
                mutualApproximationLinkEnds bodyMap mutualApproximationScaling
                lightTimeCorrectionPartialObjects)
             (getVectorParameters parametersToEstimate)
             afterDoubles;
  Exec_ret (mutualApproximationPartials, mutualApproximationScaling).

(** Body of the loop over [linkEnds] of the all-link-ends overload; the
    loop updates the returned map. *)
Definition linkEndsIteration
    (bodyMap : NamedBodyMap E)
    (parametersToEstimate : EstimatableParameterSet)
    (isCentralInstantUsedAsObservable : bool)
    (lightTimeCorrections : gmap LinkEnds (list (list (LightTimeCorrection E))))
    (dependentVariablesInterface : option (DependentVariablesInterface E))
    (linkEnds_i : LinkEnds)
    (mutualApproximationPartials : gmap LinkEnds (BlockMap * option nat))
  : Exec E (gmap LinkEnds (BlockMap * option nat)) :=
  do _ <-
    (if bool_decide (linkEnds_i !! receiver = None)
        || bool_decide (linkEnds_i !! transmitter = None)
        || bool_decide (linkEnds_i !! transmitter2 = None)
     then throw_runtime_error
       "Error when making mutual approximation partials, did not find both transmitter, transmitter2 and receiver in link ends"
     else Exec_ret tt);
  do currentLightTimeCorrections <-
    match lightTimeCorrections !! linkEnds_i with
    | Some corrections =>
        do _ <-
          (if bool_decide (length corrections ≠ 2%nat)
           then cerr_endl
                  ("Error when making mutual approximation partials, light time corrections for "
                   +:+ to_string (length corrections)
                   +:+ " links found, instead of 2.")
           else Exec_ret tt);
        Exec_ret corrections
    | None => Exec_ret []
    end;
  do partialsOfLink <-
    createMutualApproximationPartials
      linkEnds_i bodyMap parametersToEstimate isCentralInstantUsedAsObservable
      currentLightTimeCorrections dependentVariablesInterface;
  Exec_ret (<[linkEnds_i := partialsOfLink]> mutualApproximationPartials).

(** [createMutualApproximationPartials] for all sets of link ends. *)
Definition createMutualApproximationPartials_allLinkEnds
    (linkEnds : list LinkEnds) (bodyMap : NamedBodyMap E)
    (parametersToEstimate : EstimatableParameterSet)
    (isCentralInstantUsedAsObservable : bool)
    (lightTimeCorrections : gmap LinkEnds (list (list (LightTimeCorrection E))))
    (dependentVariablesInterface : option (DependentVariablesInterface E))
  : Exec E (gmap LinkEnds (BlockMap * option nat)) :=
  for_each (linkEndsIteration bodyMap parametersToEstimate
              isCentralInstantUsedAsObservable lightTimeCorrections
              dependentVariablesInterface)
           linkEnds ∅.

(** *** Two-valued observable (mutual approximation with impact parameter) *)

(** Modelled from the spec: as for the single-valued observable,
    [createMutualApproximationWithImpactParameterPartialWrtBodyPosition] is
    only declared in the header; it is modelled the same way, on the partial
    class of this observable. *)
Definition createMutualApproximationWithImpactParameterPartialWrtBodyPosition
    (mutualApproximationLinkEnds : LinkEnds) (bodyMap : NamedBodyMap E)
    (bodyToEstimate : string) (mutualApproximationScaler : shared_ptr)
    (lightTimeCorrectionPartialObjects : list (list (LightTimeCorrectionPartial E)))
  : Exec E shared_ptr :=
  let positionPartials :=
    createCartesianStatePartialsWrtBodyState E
      mutualApproximationLinkEnds bodyMap bodyToEstimate in
  let parameterName := (initial_body_state, (bodyToEstimate, "")) in
  do testMutualApproximationPartial <-
    make_shared (MutualApproximationWithImpactParameterPartial
      {| positionPartialScaler := mutualApproximationScaler;
         positionPartialList := positionPartials;
         parameterIdentifier := parameterName;
         lighTimeCorrectionPartials := lightTimeCorrectionPartialObjects |});
  if bool_decide (0 < size positionPartials)%nat
     || negb (getNumberOfLighTimeCorrectionPartialsFunctions E
                parameterName lightTimeCorrectionPartialObjects =? 0)%nat
  then Exec_ret testMutualApproximationPartial
  else Exec_ret nullptr.

Definition createMutualApproximationWithImpactParameterPartialWrtParameter
    (mutualApproximationLinkEnds : LinkEnds) (bodyMap : NamedBodyMap E)
    (parameterToEstimate : EstimatableParameter E)
    (mutualApproximationScaler : shared_ptr)
    (lightTimeCorrectionPartialObjects : list (list (LightTimeCorrectionPartial E)))
  : Exec E shared_ptr :=
  let positionPartials :=
    createCartesianStatePartialsWrtParameter E
      mutualApproximationLinkEnds bodyMap parameterToEstimate in
  do testMutualApproximationPartial <-
    make_shared (MutualApproximationWithImpactParameterPartial
      {| positionPartialScaler := mutualApproximationScaler;
         positionPartialList := positionPartials;
         parameterIdentifier := getParameterName E parameterToEstimate;
         lighTimeCorrectionPartials := lightTimeCorrectionPartialObjects |});
  if bool_decide (0 < size positionPartials)%nat
     || negb (getNumberOfLighTimeCorrectionPartialsFunctions E
                (getParameterName E parameterToEstimate)
                lightTimeCorrectionPartialObjects =? 0)%nat
  then Exec_ret testMutualApproximationPartial
  else Exec_ret nullptr.

Definition initialDynamicalParameterIterationWithImpactParameter
    (mutualApproximationLinkEnds : LinkEnds) (bodyMap : NamedBodyMap E)
    (mutualApproximationScaling : shared_ptr)
    (lightTimeCorrectionPartialObjects : list (list (LightTimeCorrectionPartial E)))
    (parameter : EstimatableParameter E)
    (loopState : BlockMap * Z) : Exec E (BlockMap * Z) :=
  let '(mutualApproximationPartials, currentIndex) := loopState in
  do acceleratedBody <-
    (if bool_decide ((getParameterName E parameter).1 = initial_body_state)
     then Exec_ret (getParameterName E parameter).2.1
     else if bool_decide ((getParameterName E parameter).1 = arc_wise_initial_body_state)
     then Exec_ret (getParameterName E parameter).2.1
     else throw_runtime_error
       "Error when making mutual approximation partials, could not identify parameter");
  do currentMutualApproximationPartial <-
    createMutualApproximationWithImpactParameterPartialWrtBodyPosition
      mutualApproximationLinkEnds bodyMap acceleratedBody
      mutualApproximationScaling lightTimeCorrectionPartialObjects;
  let mutualApproximationPartials' :=
    if bool_decide (currentMutualApproximationPartial ≠ nullptr)
    then <[(currentIndex, 6) := currentMutualApproximationPartial]>
           mutualApproximationPartials
    else mutualApproximationPartials in
  Exec_ret (mutualApproximationPartials', int_add currentIndex 6).

Definition doubleParameterIterationWithImpactParameter
    (mutualApproximationLinkEnds : LinkEnds) (bodyMap : NamedBodyMap E)
    (mutualApproximationScaling : shared_ptr)
    (lightTimeCorrectionPartialObjects : list (list (LightTimeCorrectionPartial E)))
    (parameterIterator : Z * EstimatableParameter E)
    (mutualApproximationPartials : BlockMap) : Exec E BlockMap :=
  do currentMutualApproximationPartial <-
    createMutualApproximationWithImpactParameterPartialWrtParameter
      mutualApproximationLinkEnds bodyMap parameterIterator.2
      mutualApproximationScaling lightTimeCorrectionPartialObjects;
  if bool_decide (currentMutualApproximationPartial ≠ nullptr)
  then Exec_ret (<[(parameterIterator.1, 1) := currentMutualApproximationPartial]>
                   mutualApproximationPartials)
  else Exec_ret mutualApproximationPartials.

Definition vectorParameterIterationWithImpactParameter
    (mutualApproximationLinkEnds : LinkEnds) (bodyMap : NamedBodyMap E)
    (mutualApproximationScaling : shared_ptr)
    (lightTimeCorrectionPartialObjects : list (list (LightTimeCorrectionPartial E)))
    (parameterIterator : Z * EstimatableParameter E)
    (mutualApproximationPartials : BlockMap) : Exec E BlockMap :=
  do currentMutualApproximationPartial <-
    (if negb (isParameterObservationLinkProperty E
                (getParameterName E parameterIterator.2).1)
     then createMutualApproximationWithImpactParameterPartialWrtParameter
            mutualApproximationLinkEnds bodyMap parameterIterator.2
            mutualApproximationScaling lightTimeCorrectionPartialObjects
     else createObservationPartialWrtLinkProperty_shared 2
            mutualApproximationLinkEnds mutual_approximation_with_impact_parameter
            parameterIterator.2);
  if bool_decide (currentMutualApproximationPartial ≠ nullptr)
  then Exec_ret (<[(parameterIterator.1, getParameterSize E parameterIterator.2)
                   := currentMutualApproximationPartial]>
                   mutualApproximationPartials)
  else Exec_ret mutualApproximationPartials.

(** [createMutualApproximationWithImpactParameterPartials] for a single set
    of link ends. *)
Definition createMutualApproximationWithImpactParameterPartials
    (mutualApproximationLinkEnds : LinkEnds) (bodyMap : NamedBodyMap E)
    (parametersToEstimate : EstimatableParameterSet)
    (lightTimeCorrections : list (list (LightTimeCorrection E)))
    (dependentVariablesInterface : option (DependentVariablesInterface E))
  : Exec E (BlockMap * option nat) :=
  do lightTimeCorrectionPartialObjects <-
    (if bool_decide (0 < length lightTimeCorrections)%nat
     then
       if bool_decide (length lightTimeCorrections ≠ 2%nat)
       then throw_runtime_error
              (lightTimeCorrectionsMessage (length lightTimeCorrections))
       else Exec_ret
              [createLightTimeCorrectionPartials E (nth 0 lightTimeCorrections []);
               createLightTimeCorrectionPartials E (nth 1 lightTimeCorrections [])]
     else Exec_ret []);
  do mutualApproximationScaling <-
    make_shared (ScalingObject MutualApproximationWithImpactParameterScaling
                               dependentVariablesInterface);
  do afterInitialStates <-
    for_each (initialDynamicalParameterIterationWithImpactParameter
                mutualApproximationLinkEnds bodyMap mutualApproximationScaling
                lightTimeCorrectionPartialObjects)
             (getEstimatedInitialStateParameters parametersToEstimate)
             (∅, 0);
  do afterDoubles <-
    for_each (doubleParameterIterationWithImpactParameter
                mutualApproximationLinkEnds bodyMap mutualApproximationScaling
                lightTimeCorrectionPartialObjects)
             (getDoubleParameters parametersToEstimate)
             afterInitialStates.1;
  do mutualApproximationPartials <-
    for_each (vectorParameterIterationWithImpactParameter
                mutualApproximationLinkEnds bodyMap mutualApproximationScaling
                lightTimeCorrectionPartialObjects)
             (getVectorParameters parametersToEstimate)
             afterDoubles;
  Exec_ret (mutualApproximationPartials, mutualApproximationScaling).

End Assembly.

Section AssemblyWithImpactParameterAllLinkEnds.
Context {E : Externals}.

(** Body of the loop over [linkEnds] of the all-link-ends overload of
    [createMutualApproximationWithImpactParameterPartials]. *)
Definition linkEndsIterationWithImpactParameter
    (bodyMap : NamedBodyMap E)
    (parametersToEstimate : EstimatableParameterSet)
    (lightTimeCorrections : gmap LinkEnds (list (list (LightTimeCorrection E))))
    (dependentVariablesInterface : option (DependentVariablesInterface E))
    (linkEnds_i : LinkEnds)
    (mutualApproximationPartials : gmap LinkEnds (BlockMap * option nat))
  : Exec E (gmap LinkEnds (BlockMap * option nat)) :=
  do _ <-
    (if bool_decide (linkEnds_i !! receiver = None)
        || bool_decide (linkEnds_i !! transmitter = None)
        || bool_decide (linkEnds_i !! transmitter2 = None)
     then throw_runtime_error
       "Error when making mutual approximation with impact parameter partials, did not find both transmitter, transmitter2 and receiver in link ends"
     else Exec_ret tt);
  do currentLightTimeCorrections <-
    match lightTimeCorrections !! linkEnds_i with
    | Some corrections =>
        do _ <-
          (if bool_decide (length corrections ≠ 2%nat)
           then cerr_endl
                  ("Error when making mutual approximation with impact parameter partials, light time corrections for "
                   +:+ to_string (length corrections)
                   +:+ " links found, instead of 2.")
           else Exec_ret tt);
        Exec_ret corrections
    | None => Exec_ret []
    end;
  do partialsOfLink <-
    createMutualApproximationWithImpactParameterPartials
      linkEnds_i bodyMap parametersToEstimate
      currentLightTimeCorrections dependentVariablesInterface;
  Exec_ret (<[linkEnds_i := partialsOfLink]> mutualApproximationPartials).

(** [createMutualApproximationWithImpactParameterPartials] for all sets of
    link ends. *)
Definition createMutualApproximationWithImpactParameterPartials_allLinkEnds
    (linkEnds : list LinkEnds) (bodyMap : NamedBodyMap E)
    (parametersToEstimate : EstimatableParameterSet)
    (lightTimeCorrections : gmap LinkEnds (list (list (LightTimeCorrection E))))
    (dependentVariablesInterface : option (DependentVariablesInterface E))
  : Exec E (gmap LinkEnds (BlockMap * option nat)) :=
  for_each (linkEndsIterationWithImpactParameter bodyMap parametersToEstimate
              lightTimeCorrections dependentVariablesInterface)
           linkEnds ∅.

End AssemblyWithImpactParameterAllLinkEnds.

(** ** The common shape of the two observables

    The two single-link functions are written out twice in the source.
    [assemblePartials] is the one algorithm both follow, over the class of
    the partial objects, the observation size and the observable tag handed
    to the link-property constructor, and the class of the scaling object.
    It is a device of the proofs: [createMutualApproximationPartials_shape]
    and [createMutualApproximationWithImpactParameterPartials_shape] show
    that each function translated from the source is an instance of it. *)

Section Shape.
Context {E : Externals}.

Record ObservableVariant : Type := {
  partialClass : PartialMembers E → HeapObject E;
  observationSize : nat;
  observableType : ObservableType
}.

Definition singleValued : ObservableVariant :=
  {| partialClass := MutualApproximationPartial;
     observationSize := 1;
     observableType := mutual_approximation |}.

Definition twoValued : ObservableVariant :=
  {| partialClass := MutualApproximationWithImpactParameterPartial;
     observationSize := 2;
     observableType := mutual_approximation_with_impact_parameter |}.

Variable V : ObservableVariant.
Variable linkEnds : LinkEnds.
Variable bodyMap : NamedBodyMap E.
Variable scaling : option nat.
Variable correctionPartials : list (list (LightTimeCorrectionPartial E)).

(** The test of the factories: some position partial was created, or some
    light-time-correction partial function contributes. *)
Definition dependencyExists
    (positionPartials : gmap LinkEndType (CartesianStatePartial E))
    (parameterName : EstimatebleParameterIdentifier) : bool :=
  bool_decide (0 < size positionPartials)%nat
  || negb (getNumberOfLighTimeCorrectionPartialsFunctions E
             parameterName correctionPartials =? 0)%nat.

Definition partialWrtBodyPosition (bodyToEstimate : string) : Exec E (option nat) :=
  let positionPartials :=
    createCartesianStatePartialsWrtBodyState E linkEnds bodyMap bodyToEstimate in
  let parameterName := (initial_body_state, (bodyToEstimate, "")) in
  do test <-
    make_shared (partialClass V
      {| positionPartialScaler := scaling;
         positionPartialList := positionPartials;
         parameterIdentifier := parameterName;
         lighTimeCorrectionPartials := correctionPartials |});
  if dependencyExists positionPartials parameterName
  then Exec_ret test else Exec_ret nullptr.

Definition partialWrtParameter (parameter : EstimatableParameter E)
  : Exec E (option nat) :=
  let positionPartials :=
    createCartesianStatePartialsWrtParameter E linkEnds bodyMap parameter in
  do test <-
    make_shared (partialClass V
      {| positionPartialScaler := scaling;
         positionPartialList := positionPartials;
         parameterIdentifier := getParameterName E parameter;
         lighTimeCorrectionPartials := correctionPartials |});
  if dependencyExists positionPartials (getParameterName E parameter)
  then Exec_ret test else Exec_ret nullptr.

Definition initialStateStep (parameter : EstimatableParameter E)
    (loopState : BlockMap * Z) : Exec E (BlockMap * Z) :=
  let '(partials, currentIndex) := loopState in
  do acceleratedBody <-
    (if bool_decide ((getParameterName E parameter).1 = initial_body_state)
     then Exec_ret (getParameterName E parameter).2.1
     else if bool_decide ((getParameterName E parameter).1 = arc_wise_initial_body_state)
     then Exec_ret (getParameterName E parameter).2.1
     else throw_runtime_error
       "Error when making mutual approximation partials, could not identify parameter");
  do current <- partialWrtBodyPosition acceleratedBody;
  let partials' :=
    if bool_decide (current ≠ nullptr)
    then <[(currentIndex, 6) := current]> partials
    else partials in
  Exec_ret (partials', int_add currentIndex 6).

Definition doubleStep (parameterIterator : Z * EstimatableParameter E)
    (partials : BlockMap) : Exec E BlockMap :=
  do current <- partialWrtParameter parameterIterator.2;
  if bool_decide (current ≠ nullptr)
  then Exec_ret (<[(parameterIterator.1, 1) := current]> partials)
  else Exec_ret partials.

Definition vectorStep (parameterIterator : Z * EstimatableParameter E)
    (partials : BlockMap) : Exec E BlockMap :=
  do current <-
    (if negb (isParameterObservationLinkProperty E
                (getParameterName E parameterIterator.2).1)
     then partialWrtParameter parameterIterator.2
     else createObservationPartialWrtLinkProperty_shared
            (observationSize V) linkEnds (observableType V) parameterIterator.2);
  if bool_decide (current ≠ nullptr)
  then Exec_ret (<[(parameterIterator.1, getParameterSize E parameterIterator.2)
                   := current]> partials)
  else Exec_ret partials.

End Shape.

Section ShapeTop.
Context {E : Externals}.

Definition correctionPartialObjects
    (lightTimeCorrections : list (list (LightTimeCorrection E)))
  : list (list (LightTimeCorrectionPartial E)) :=
  match lightTimeCorrections with
  | [] => []
  | _ => [createLightTimeCorrectionPartials E (nth 0 lightTimeCorrections []);
          createLightTimeCorrectionPartials E (nth 1 lightTimeCorrections [])]
  end.

Definition assemblePartials (V : ObservableVariant) (scalingClass : ScalingClass)
    (linkEnds : LinkEnds) (bodyMap : NamedBodyMap E)
    (parametersToEstimate : EstimatableParameterSet)
    (lightTimeCorrections : list (list (LightTimeCorrection E)))
    (dependentVariablesInterface : option (DependentVariablesInterface E))
  : Exec E (BlockMap * option nat) :=
  do _ <-
    (if bool_decide (length lightTimeCorrections = 0%nat
                     ∨ length lightTimeCorrections = 2%nat)
     then Exec_ret tt
     else throw_runtime_error
            (lightTimeCorrectionsMessage (length lightTimeCorrections)));
  do scaling <-
    make_shared (ScalingObject scalingClass dependentVariablesInterface);
  do afterInitialStates <-
    for_each (initialStateStep V linkEnds bodyMap scaling
                (correctionPartialObjects lightTimeCorrections))
             (getEstimatedInitialStateParameters parametersToEstimate) (∅, 0);
  do afterDoubles <-
    for_each (doubleStep V linkEnds bodyMap scaling
                (correctionPartialObjects lightTimeCorrections))
             (getDoubleParameters parametersToEstimate) afterInitialStates.1;
  do partials <-
    for_each (vectorStep V linkEnds bodyMap scaling
                (correctionPartialObjects lightTimeCorrections))
             (getVectorParameters parametersToEstimate) afterDoubles;
  Exec_ret (partials, scaling).

End ShapeTop.

(** The all-link-ends functions are written out per observable as well.
    [assembleLinkEnds] is their common loop body, over the text of the
    missing-role error, the text of the diagnostic, and the single-link
    function that is called. *)
Section ShapeAllLinkEnds.
Context {E : Externals}.
Variable missingRoles : string.
Variable diagnostic : nat → string.
Variable assembleLink :
  LinkEnds → list (list (LightTimeCorrection E)) → Exec E (BlockMap * option nat).
Variable lightTimeCorrections : gmap LinkEnds (list (list (LightTimeCorrection E))).

Definition assembleLinkEnds (linkEnds_i : LinkEnds)
    (assembled : gmap LinkEnds (BlockMap * option nat))
  : Exec E (gmap LinkEnds (BlockMap * option nat)) :=
  do _ <-
    (if bool_decide (linkEnds_i !! receiver = None)
        || bool_decide (linkEnds_i !! transmitter = None)
        || bool_decide (linkEnds_i !! transmitter2 = None)
     then throw_runtime_error missingRoles
     else Exec_ret tt);
  do currentLightTimeCorrections <-
    match lightTimeCorrections !! linkEnds_i with
    | Some corrections =>
        do _ <-
          (if bool_decide (length corrections ≠ 2%nat)
           then cerr_endl (diagnostic (length corrections))
           else Exec_ret tt);
        Exec_ret corrections
    | None => Exec_ret []
    end;
  do partialsOfLink <- assembleLink linkEnds_i currentLightTimeCorrections;
  Exec_ret (<[linkEnds_i := partialsOfLink]> assembled).

End ShapeAllLinkEnds.

(** The texts of the two all-link-ends functions. *)
Definition missingRolesMessage : string :=
  "Error when making mutual approximation partials, did not find both transmitter, transmitter2 and receiver in link ends".

Definition missingRolesMessageWithImpactParameter : string :=
  "Error when making mutual approximation with impact parameter partials, did not find both transmitter, transmitter2 and receiver in link ends".

Definition diagnosticWithImpactParameter (n : nat) : string :=
  "Error when making mutual approximation with impact parameter partials, light time corrections for "
  +:+ to_string n +:+ " links found, instead of 2.".

Definition couldNotIdentifyMessage : string :=
  "Error when making mutual approximation partials, could not identify parameter".

(** ** What each parameter contributes

    The index range at which a parameter's block goes, and whether the
    factories find a dependency, as functions of the parameter alone. *)

Section Blocks.
Context {E : Externals}.
Variable V : ObservableVariant (E:=E).
Variable linkEnds : LinkEnds.
Variable bodyMap : NamedBodyMap E.
Variable scaling : option nat.
Variable correctionPartials : list (list (LightTimeCorrectionPartial E)).

(** The category of an initial-state parameter names a body. *)
Definition acceptedCategory (parameter : EstimatableParameter E) : bool :=
  bool_decide ((getParameterName E parameter).1 = initial_body_state)
  || bool_decide ((getParameterName E parameter).1 = arc_wise_initial_body_state).

Definition bodyDependency (bodyToEstimate : string) : bool :=
  dependencyExists correctionPartials
    (createCartesianStatePartialsWrtBodyState E linkEnds bodyMap bodyToEstimate)
    (initial_body_state, (bodyToEstimate, "")).

Definition parameterDependency (parameter : EstimatableParameter E) : bool :=
  dependencyExists correctionPartials
    (createCartesianStatePartialsWrtParameter E linkEnds bodyMap parameter)
    (getParameterName E parameter).

Definition linkPropertyDependency (parameter : EstimatableParameter E) : bool :=
  bool_decide (is_Some (createObservationPartialWrtLinkProperty E
                          (observationSize V) linkEnds (observableType V) parameter)).

(** The partial object the position-coupled factories construct. *)
Definition bodyPartialObject (bodyToEstimate : string) : HeapObject E :=
  partialClass V
    {| positionPartialScaler := scaling;
       positionPartialList :=
         createCartesianStatePartialsWrtBodyState E linkEnds bodyMap bodyToEstimate;
       parameterIdentifier := (initial_body_state, (bodyToEstimate, ""));
       lighTimeCorrectionPartials := correctionPartials |}.

Definition parameterPartialObject (parameter : EstimatableParameter E) : HeapObject E :=
  partialClass V
    {| positionPartialScaler := scaling;
       positionPartialList :=
         createCartesianStatePartialsWrtParameter E linkEnds bodyMap parameter;
       parameterIdentifier := getParameterName E parameter;
       lighTimeCorrectionPartials := correctionPartials |}.

(** Index range and dependency, per parameter, in the order of the loops. *)
Fixpoint initialStateBlocks (parameters : list (EstimatableParameter E))
    (currentIndex : Z) : list ((Z * Z) * bool) :=
  match parameters with
  | [] => []
  | parameter :: rest =>
      ((currentIndex, 6), bodyDependency (getParameterName E parameter).2.1)
      :: initialStateBlocks rest (int_add currentIndex 6)
  end.

Definition doubleBlocks (parameters : list (Z * EstimatableParameter E))
  : list ((Z * Z) * bool) :=
  (λ it, ((it.1, 1), parameterDependency it.2)) <$> parameters.

Definition vectorBlocks (parameters : list (Z * EstimatableParameter E))
  : list ((Z * Z) * bool) :=
  (λ it, ((it.1, getParameterSize E it.2),
          if isParameterObservationLinkProperty E (getParameterName E it.2).1
          then linkPropertyDependency it.2
          else parameterDependency it.2)) <$> parameters.

Definition parameterBlocks (parametersToEstimate : EstimatableParameterSet)
  : list ((Z * Z) * bool) :=
  initialStateBlocks (getEstimatedInitialStateParameters parametersToEstimate) 0
  ++ doubleBlocks (getDoubleParameters parametersToEstimate)
  ++ vectorBlocks (getVectorParameters parametersToEstimate).

(** [currentIndex] after the loop over the initial-state parameters. *)
Definition indexAfter (parameters : list (EstimatableParameter E))
    (currentIndex : Z) : Z :=
  fold_left (λ index _, int_add index 6) parameters currentIndex.

End Blocks.

(** The index ranges among [blocks] for which a dependency was found. *)
Definition dependentKeys (blocks : list ((Z * Z) * bool)) : gset (Z * Z) :=
  list_to_set (fst <$> filter (λ b, b.2 = true) blocks).

(** An object built after the scaling object of a call: a position-coupled
    partial holding the scaling object [scaling], or a link-property partial,
    which has no scaling member. *)
Definition builtOn {E : Externals} (scaling : option nat) (o : HeapObject E) : Prop :=
  match o with
  | ScalingObject _ _ => False
  | MutualApproximationPartial m => positionPartialScaler m = scaling
  | MutualApproximationWithImpactParameterPartial m =>
      positionPartialScaler m = scaling
  | ObservationPartialWrtLinkProperty _ _ => True
  end.

(** A position-coupled partial on the scaling object [scaling]. *)
Definition scaledBy {E : Externals} (scaling : option nat) (o : HeapObject E) : Prop :=
  match o with
  | MutualApproximationPartial m => positionPartialScaler m = scaling
  | MutualApproximationWithImpactParameterPartial m =>
      positionPartialScaler m = scaling
  | _ => False
  end.

(** The partial class of the variant keeps the scaler it is constructed on. *)
Definition keepsScaler {E : Externals} (V : ObservableVariant (E:=E)) : Prop :=
  ∀ m, builtOn (positionPartialScaler m) (partialClass V m).

(** Since the heap was [base], only objects built on [scaling] were added,
    and every block of [partials] is one of them. *)
Definition blocksBuiltOn {E : Externals} (scaling : option nat)
    (base : list (HeapObject E)) (partials : BlockMap) (s : State E) : Prop :=
  (∃ new, heap s = base ++ new ∧ Forall (builtOn scaling) new)
  ∧ ∀ k ptr, partials !! k = Some ptr →
      ∃ a o, ptr = Some a ∧ heap s !! a = Some o ∧ builtOn scaling o.

(** For every parameter of the list that is a link property, the
    link-property constructor has a partial for the single-valued observable
    exactly if it has one for the two-valued observable. *)
Definition linkPropertyConstructorAgrees {E : Externals} (linkEnds : LinkEnds)
    (parameters : list (Z * EstimatableParameter E)) : bool :=
  forallb (λ it,
    implb (isParameterObservationLinkProperty E (getParameterName E it.2).1)
      (bool_decide
         (is_Some (createObservationPartialWrtLinkProperty E 1 linkEnds
                     mutual_approximation it.2)
          ↔ is_Some (createObservationPartialWrtLinkProperty E 2 linkEnds
                       mutual_approximation_with_impact_parameter it.2))))
    parameters.

(** ** Conditions on the links of a batch *)

(** The link has the three roles the all-link-ends functions ask for. *)
Definition linkEndsComplete (linkEnds : LinkEnds) : bool :=
  negb (bool_decide (linkEnds !! receiver = None)
        || bool_decide (linkEnds !! transmitter = None)
        || bool_decide (linkEnds !! transmitter2 = None)).

(** The correction groups the single-link function is called with. *)
Definition correctionsOf {E : Externals}
    (lightTimeCorrections : gmap LinkEnds (list (list (LightTimeCorrection E))))
    (linkEnds : LinkEnds) : list (list (LightTimeCorrection E)) :=
  default [] (lightTimeCorrections !! linkEnds).

(** The number of correction groups passes the check of the single-link
    functions. *)
Definition legCountFits {A : Type} (corrections : list A) : bool :=
  bool_decide (length corrections = 0%nat ∨ length corrections = 2%nat).

(** The link passes the role check, and its correction groups the
    leg-count check. *)
Definition linkAccepted {E : Externals}
    (lightTimeCorrections : gmap LinkEnds (list (list (LightTimeCorrection E))))
    (linkEnds : LinkEnds) : bool :=
  linkEndsComplete linkEnds
  && legCountFits (correctionsOf lightTimeCorrections linkEnds).

(** The state in which the single-link function is called: a diagnostic
    has been written if the link has an entry with a number of groups other
    than 2. *)
Definition diagnosedState {E : Externals} (diagnostic : nat → string)
    (lightTimeCorrections : gmap LinkEnds (list (list (LightTimeCorrection E))))
    (linkEnds : LinkEnds) (s : State E) : State E :=
  match lightTimeCorrections !! linkEnds with
  | Some corrections =>
      if bool_decide (length corrections ≠ 2%nat)
      then {| heap := heap s;
              cerr := cerr s ++ [diagnostic (length corrections)] |}
      else s
  | None => s
  end.

(** The diagnostics for the links that have an entry without correction
    groups, in the order of the links. *)
Definition emptyEntryDiagnostics {E : Externals} (diagnostic : nat → string)
    (lightTimeCorrections : gmap LinkEnds (list (list (LightTimeCorrection E))))
    (linkEnds : list LinkEnds) : list string :=
  flat_map (λ linkEnds_i,
              match lightTimeCorrections !! linkEnds_i with
              | Some [] => [diagnostic 0%nat]
              | _ => []
              end) linkEnds.

(** ** Dependence on the state *)

(** The next free address and the diagnostics written so far are the same. *)
Definition similar {E : Externals} (s1 s2 : State E) : Prop :=
  length (heap s1) = length (heap s2) ∧ cerr s1 = cerr s2.

(** The computation looks at the heap only for the next free address, and
    only adds objects to it: from similar states it has the same result,
    constructs the same objects and writes the same diagnostics. *)
Definition uniform {E : Externals} {A : Type} (m : Exec E A) : Prop :=
  ∀ s1 s2, similar s1 s2 →
    (m s1).1 = (m s2).1
    ∧ cerr (m s1).2 = cerr (m s2).2
    ∧ ∃ new, heap (m s1).2 = heap s1 ++ new ∧ heap (m s2).2 = heap s2 ++ new.

(** The state once the objects [new] have been constructed. *)
Definition grown {E : Externals} (s : State E) (new : list (HeapObject E))
  : State E :=
  {| heap := heap s ++ new; cerr := cerr s |}.

(** The objects the three loops construct, in order of construction: a
    partial for every initial-state parameter and for every scalar
    parameter, and for a vector parameter the partial of the path it
    takes, if the link-property constructor has one on that path. *)
Definition objectsOfInitialStates {E : Externals} (V : ObservableVariant (E:=E))
    (linkEnds : LinkEnds) (bodyMap : NamedBodyMap E) (scaling : option nat)
    (correctionPartials : list (list (LightTimeCorrectionPartial E)))
    (parameters : list (EstimatableParameter E)) : list (HeapObject E) :=
  (λ parameter,
     bodyPartialObject V linkEnds bodyMap scaling correctionPartials
       (getParameterName E parameter).2.1) <$> parameters.

Definition objectsOfDoubles {E : Externals} (V : ObservableVariant (E:=E))
    (linkEnds : LinkEnds) (bodyMap : NamedBodyMap E) (scaling : option nat)
    (correctionPartials : list (list (LightTimeCorrectionPartial E)))
    (parameters : list (Z * EstimatableParameter E)) : list (HeapObject E) :=
  (λ it, parameterPartialObject V linkEnds bodyMap scaling correctionPartials
           it.2) <$> parameters.

Definition objectsOfVectors {E : Externals} (V : ObservableVariant (E:=E))
    (linkEnds : LinkEnds) (bodyMap : NamedBodyMap E) (scaling : option nat)
    (correctionPartials : list (list (LightTimeCorrectionPartial E)))
    (parameters : list (Z * EstimatableParameter E)) : list (HeapObject E) :=
  flat_map
    (λ it,
       if isParameterObservationLinkProperty E (getParameterName E it.2).1
       then match createObservationPartialWrtLinkProperty E (observationSize V)
                    linkEnds (observableType V) it.2 with
            | Some p => [ObservationPartialWrtLinkProperty (observationSize V) p]
            | None => []
            end
       else [parameterPartialObject V linkEnds bodyMap scaling
               correctionPartials it.2])
    parameters.

(** The three loops of a single-link function, and its return value. *)
Definition parameterLoops {E : Externals} (V : ObservableVariant (E:=E))
    (linkEnds : LinkEnds) (bodyMap : NamedBodyMap E) (scaling : option nat)
    (correctionPartials : list (list (LightTimeCorrectionPartial E)))
    (parametersToEstimate : EstimatableParameterSet)
  : Exec E (BlockMap * option nat) :=
  do afterInitialStates <-
    for_each (initialStateStep V linkEnds bodyMap scaling correctionPartials)
             (getEstimatedInitialStateParameters parametersToEstimate) (∅, 0);
  do afterDoubles <-
    for_each (doubleStep V linkEnds bodyMap scaling correctionPartials)
             (getDoubleParameters parametersToEstimate) afterInitialStates.1;
  do partials <-
    for_each (vectorStep V linkEnds bodyMap scaling correctionPartials)
             (getVectorParameters parametersToEstimate) afterDoubles;
  Exec_ret (partials, scaling).

(** Every link assembled so far has its own scaling object, of the class of
    the function, and its blocks are built on that object. *)
Definition linksSeparate {E : Externals} (scalingClass : ScalingClass)
    (dependentVariablesInterface : option (DependentVariablesInterface E))
    (assembled : gmap LinkEnds (BlockMap * option nat))
    (s : State E) : Prop :=
  (∀ l partials scaling, assembled !! l = Some (partials, scaling) →
     (∃ a, scaling = Some a
           ∧ heap s !! a
             = Some (ScalingObject scalingClass dependentVariablesInterface))
     ∧ ∀ k ptr, partials !! k = Some ptr →
         ∃ a o, ptr = Some a ∧ heap s !! a = Some o ∧ builtOn scaling o)
  ∧ ∀ l1 l2 entry1 entry2,
      l1 ≠ l2 → assembled !! l1 = Some entry1 → assembled !! l2 = Some entry2 →
      entry1.2 ≠ entry2.2.

(** ** A concrete estimation problem

    Bodies A, B and C; the link of the spec's scenario has the three roles
    bound to A, B and A.  A position partial exists for a role when the
    body of the role is the one asked for; no parameter other than an
    initial state is coupled through a position.  Parameters of category
    [other_parameter 1] are observation biases, which are link properties:
    a bias marked "both" has a partial for every observable, a bias marked
    "single" only for the single-valued mutual approximation. *)

Module Scenario.

Definition world : Externals := {|
  NamedBodyMap := list string;
  DependentVariablesInterface := unit;
  CartesianStatePartial := string;
  LightTimeCorrection := nat;
  LightTimeCorrectionPartial := nat;
  EstimatableParameter := EstimatebleParameterIdentifier * Z;
  LinkPropertyPartial := ObservableType;
  getParameterName := fst;
  getParameterSize := snd;
  createCartesianStatePartialsWrtBodyState := λ linkEnds _ body,
    (λ _, body) <$> filter (λ role, role.2.1 = body) linkEnds;
  createCartesianStatePartialsWrtParameter := λ _ _ _, ∅;
  createLightTimeCorrectionPartials := λ corrections, corrections;
  getNumberOfLighTimeCorrectionPartialsFunctions := λ _ _, 0%nat;
  isParameterObservationLinkProperty := λ category,
    bool_decide (category = other_parameter 1);
  createObservationPartialWrtLinkProperty := λ _ _ observable parameter,
    if bool_decide (parameter.1.2.2 = "both") then Some observable
    else if bool_decide (parameter.1.2.2 = "single")
              && bool_decide (observable = mutual_approximation)
    then Some observable
    else None
|}.

Definition bodies : NamedBodyMap world := ["A"; "B"; "C"].

Definition completeLink : LinkEnds :=
  <[transmitter := ("A", "")]>
    (<[transmitter2 := ("B", "")]> (<[receiver := ("A", "")]> ∅)).

Definition otherCompleteLink : LinkEnds :=
  <[transmitter := ("A", "")]>
    (<[transmitter2 := ("C", "")]> (<[receiver := ("B", "")]> ∅)).

(** no [transmitter2] *)
Definition incompleteLink : LinkEnds :=
  <[transmitter := ("A", "")]> (<[receiver := ("C", "")]> ∅).

Definition stateOfA : EstimatableParameter world := ((initial_body_state, ("A", "")), 6).
Definition stateOfB : EstimatableParameter world :=
  ((arc_wise_initial_body_state, ("B", "")), 6).
Definition rotationOfA : EstimatableParameter world := ((other_parameter 7, ("A", "")), 7).
Definition scalarP : EstimatableParameter world := ((other_parameter 0, ("A", "")), 1).
Definition scalarBias : EstimatableParameter world :=
  ((other_parameter 1, ("A", "both")), 1).
Definition biasOfSingle : EstimatableParameter world :=
  ((other_parameter 1, ("A", "single")), 3).
Definition biasOfBoth : EstimatableParameter world :=
  ((other_parameter 1, ("A", "both")), 3).

Definition noParameters : EstimatableParameterSet (E:=world) :=
  @Build_EstimatableParameterSet world [] [] [].

(** the parameter set of the spec's scenario *)
Definition scenarioParameters : EstimatableParameterSet (E:=world) :=
  @Build_EstimatableParameterSet world [stateOfA; stateOfB] [(20, scalarP)] [].

Definition withBiasOfSingle : EstimatableParameterSet (E:=world) :=
  @Build_EstimatableParameterSet world
    [stateOfA; stateOfB] [(20, scalarP)] [(21, biasOfSingle)].

Definition withBiasOfBoth : EstimatableParameterSet (E:=world) :=
  @Build_EstimatableParameterSet world
    [stateOfA; stateOfB] [(20, scalarP)] [(21, biasOfBoth)].

Definition withScalarBias : EstimatableParameterSet (E:=world) :=
  @Build_EstimatableParameterSet world
    [stateOfA; stateOfB] [(20, scalarP); (24, scalarBias)] [].

Definition withRotation : EstimatableParameterSet (E:=world) :=
  @Build_EstimatableParameterSet world [stateOfA; rotationOfA] [(20, scalarP)] [].

Definition start : State world := {| heap := []; cerr := [] |}.

(** a correction map with a single group for [completeLink] *)
Definition oneGroupForCompleteLink
  : gmap LinkEnds (list (list (LightTimeCorrection world))) :=
  {[ completeLink := [[1%nat]] ]}.

(** a correction map with an entry without groups for [completeLink] *)
Definition emptyEntryForCompleteLink
  : gmap LinkEnds (list (list (LightTimeCorrection world))) :=
  {[ completeLink := [] ]}.

End Scenario.

(** ** Reasoning about executions *)

Section ExecFacts.
Context {E : Externals}.

Lemma Exec_bind_Normal {A B} (m : Exec E A) (f : A → Exec E B) s a s' :
  m s = (Normal a, s') → Exec_bind m f s = f a s'.
Proof. intros Hm. unfold Exec_bind. by rewrite Hm. Qed.

Lemma Exec_bind_Thrown {A B} (m : Exec E A) (f : A → Exec E B) s e s' :
  m s = (Thrown e, s') → Exec_bind m f s = (Thrown e, s').
Proof. intros Hm. unfold Exec_bind. by rewrite Hm. Qed.

Lemma for_each_app {A B} (body : B → A → Exec E A) l1 l2 a s :
  for_each body (l1 ++ l2) a s =
  Exec_bind (for_each body l1 a) (for_each body l2) s.
Proof.
  revert a s. induction l1 as [|x l1 IH]; intros a s; simpl.
  - reflexivity.
  - unfold Exec_bind in *. destruct (body x a s) as [[a'|e] s1]; [|reflexivity].
    apply IH.
Qed.

(** A loop keeps what each of its iterations keeps; an exception leaves
    the loop in the iteration that throws it. *)
Lemma for_each_invariant {A B} (I : A → State E → Prop)
    (X : string → State E → Prop) (body : B → A → Exec E A) l :
  (∀ x a s, x ∈ l → I a s →
     match body x a s with
     | (Normal a', s') => I a' s'
     | (Thrown e, s') => X e s'
     end) →
  ∀ a s, I a s →
    match for_each body l a s with
    | (Normal a', s') => I a' s'
    | (Thrown e, s') => X e s'
    end.
Proof.
  induction l as [|x l IH]; intros Hbody a s HI; simpl.
  - exact HI.
  - unfold Exec_bind.
    pose proof (Hbody x a s ltac:(left) HI) as Hx.
    destruct (body x a s) as [[a'|e] s1]; [|exact Hx].
    apply IH; [|exact Hx].
    intros y b t Hy. apply Hbody. by right.
Qed.

(** Two loops whose bodies agree on the elements visited agree. *)
Lemma for_each_ext {A B} (body1 body2 : B → A → Exec E A) l :
  (∀ x a s, x ∈ l → body1 x a s = body2 x a s) →
  ∀ a s, for_each body1 l a s = for_each body2 l a s.
Proof.
  induction l as [|x l IH]; intros Hb a s; simpl; [reflexivity|].
  unfold Exec_bind. rewrite (Hb x a s) by left.
  destruct (body2 x a s) as [[a'|e] s1]; [|reflexivity].
  apply IH. intros y b t Hy. apply Hb. by right.
Qed.

Lemma make_shared_eq (o : HeapObject E) s :
  make_shared o s = (Normal (Some (length (heap s))), allocated s o).
Proof. reflexivity. Qed.

End ExecFacts.

(** ** The source functions are instances of the common shape *)

Section ShapeFacts.
Context {E : Externals}.

Lemma correction_check_shape {A} (lightTimeCorrections : list (list (LightTimeCorrection E)))
    (k : list (list (LightTimeCorrectionPartial E)) → Exec E A) s :
  Exec_bind
    (if bool_decide (0 < length lightTimeCorrections)%nat
     then
       if bool_decide (length lightTimeCorrections ≠ 2%nat)
       then throw_runtime_error
              (lightTimeCorrectionsMessage (length lightTimeCorrections))
       else Exec_ret
              [createLightTimeCorrectionPartials E (nth 0 lightTimeCorrections []);
               createLightTimeCorrectionPartials E (nth 1 lightTimeCorrections [])]
     else Exec_ret []) k s =
  Exec_bind
    (if bool_decide (length lightTimeCorrections = 0%nat
                     ∨ length lightTimeCorrections = 2%nat)
     then Exec_ret tt
     else throw_runtime_error
            (lightTimeCorrectionsMessage (length lightTimeCorrections)))
    (λ _, k (correctionPartialObjects lightTimeCorrections)) s.
Proof.
  destruct lightTimeCorrections as [|c0 [|c1 [|c2 l]]]; reflexivity.
Qed.

Lemma createMutualApproximationPartials_shape
    (linkEnds : LinkEnds) (bodyMap : NamedBodyMap E) parametersToEstimate
    isCentralInstantUsedAsObservable
    lightTimeCorrections dependentVariablesInterface s :
  createMutualApproximationPartials linkEnds bodyMap parametersToEstimate
    isCentralInstantUsedAsObservable lightTimeCorrections
    dependentVariablesInterface s =
  assemblePartials singleValued
    (if isCentralInstantUsedAsObservable
     then MutualApproximationScaling else ModifiedMutualApproximationScaling)
    linkEnds bodyMap parametersToEstimate lightTimeCorrections
    dependentVariablesInterface s.
Proof.
  unfold createMutualApproximationPartials, assemblePartials.
  rewrite correction_check_shape.
  destruct isCentralInstantUsedAsObservable; reflexivity.
Qed.

Lemma createMutualApproximationWithImpactParameterPartials_shape
    (linkEnds : LinkEnds) (bodyMap : NamedBodyMap E) parametersToEstimate
    lightTimeCorrections dependentVariablesInterface s :
  createMutualApproximationWithImpactParameterPartials linkEnds bodyMap
    parametersToEstimate lightTimeCorrections dependentVariablesInterface s =
  assemblePartials twoValued MutualApproximationWithImpactParameterScaling
    linkEnds bodyMap parametersToEstimate lightTimeCorrections
    dependentVariablesInterface s.
Proof.
  unfold createMutualApproximationWithImpactParameterPartials, assemblePartials.
  rewrite correction_check_shape. reflexivity.
Qed.

End ShapeFacts.

(** ** The iterations in closed form *)

Section StepFacts.
Context {E : Externals}.
Variable V : ObservableVariant (E:=E).
Variable linkEnds : LinkEnds.
Variable bodyMap : NamedBodyMap E.
Variable scaling : option nat.
Variable correctionPartials : list (list (LightTimeCorrectionPartial E)).

Local Abbreviation couldNotIdentify :=
  "Error when making mutual approximation partials, could not identify parameter".

Lemma partialWrtBodyPosition_eq bodyToEstimate s :
  partialWrtBodyPosition V linkEnds bodyMap scaling correctionPartials
    bodyToEstimate s =
  (Normal (if bodyDependency linkEnds bodyMap correctionPartials bodyToEstimate
           then Some (length (heap s)) else None),
   allocated s (bodyPartialObject V linkEnds bodyMap scaling correctionPartials
                  bodyToEstimate)).
Proof.
  unfold partialWrtBodyPosition, bodyDependency, Exec_bind.
  rewrite make_shared_eq.
  by destruct (dependencyExists _ _ _).
Qed.

Lemma partialWrtParameter_eq parameter s :
  partialWrtParameter V linkEnds bodyMap scaling correctionPartials parameter s =
  (Normal (if parameterDependency linkEnds bodyMap correctionPartials parameter
           then Some (length (heap s)) else None),
   allocated s (parameterPartialObject V linkEnds bodyMap scaling
                  correctionPartials parameter)).
Proof.
  unfold partialWrtParameter, parameterDependency, Exec_bind.
  rewrite make_shared_eq.
  by destruct (dependencyExists _ _ _).
Qed.

Lemma initialStateStep_eq parameter partials currentIndex s :
  initialStateStep V linkEnds bodyMap scaling correctionPartials parameter
    (partials, currentIndex) s =
  if acceptedCategory parameter
  then (Normal
          (if bodyDependency linkEnds bodyMap correctionPartials
                (getParameterName E parameter).2.1
           then <[(currentIndex, 6) := Some (length (heap s))]> partials
           else partials,
           int_add currentIndex 6),
        allocated s (bodyPartialObject V linkEnds bodyMap scaling
                       correctionPartials (getParameterName E parameter).2.1))
  else (Thrown couldNotIdentify, s).
Proof.
  unfold initialStateStep, acceptedCategory.
  destruct (bool_decide (_ = initial_body_state)); simpl.
  - unfold Exec_bind at 1. simpl. unfold Exec_bind.
    rewrite partialWrtBodyPosition_eq.
    by destruct (bodyDependency _ _ _ _).
  - destruct (bool_decide (_ = arc_wise_initial_body_state)); simpl.
    + unfold Exec_bind at 1. simpl. unfold Exec_bind.
      rewrite partialWrtBodyPosition_eq.
      by destruct (bodyDependency _ _ _ _).
    + reflexivity.
Qed.

Lemma doubleStep_eq it partials s :
  doubleStep V linkEnds bodyMap scaling correctionPartials it partials s =
  (Normal (if parameterDependency linkEnds bodyMap correctionPartials it.2
           then <[(it.1, 1) := Some (length (heap s))]> partials
           else partials),
   allocated s (parameterPartialObject V linkEnds bodyMap scaling
                  correctionPartials it.2)).
Proof.
  unfold doubleStep, Exec_bind. rewrite partialWrtParameter_eq.
  by destruct (parameterDependency _ _ _ _).
Qed.

Lemma vectorStep_eq it partials s :
  vectorStep V linkEnds bodyMap scaling correctionPartials it partials s =
  if isParameterObservationLinkProperty E (getParameterName E it.2).1
  then match createObservationPartialWrtLinkProperty E
               (observationSize V) linkEnds (observableType V) it.2 with
       | Some p =>
           (Normal (<[(it.1, getParameterSize E it.2) := Some (length (heap s))]>
                      partials),
            allocated s (ObservationPartialWrtLinkProperty (observationSize V) p))
       | None => (Normal partials, s)
       end
  else (Normal (if parameterDependency linkEnds bodyMap correctionPartials it.2
                then <[(it.1, getParameterSize E it.2) := Some (length (heap s))]>
                       partials
                else partials),
        allocated s (parameterPartialObject V linkEnds bodyMap scaling
                       correctionPartials it.2)).
Proof.
  unfold vectorStep, Exec_bind.
  destruct (isParameterObservationLinkProperty E _); simpl.
  - unfold createObservationPartialWrtLinkProperty_shared.
    by destruct (createObservationPartialWrtLinkProperty E _ _ _ _).
  - rewrite partialWrtParameter_eq.
    by destruct (parameterDependency _ _ _ _).
Qed.

End StepFacts.

(** ** The loops *)

Lemma dependentKeys_nil : dependentKeys [] = ∅.
Proof. reflexivity. Qed.

Lemma dependentKeys_cons k (d : bool) blocks :
  dependentKeys ((k, d) :: blocks) =
  (if d then {[k]} else ∅) ∪ dependentKeys blocks.
Proof.
  unfold dependentKeys. rewrite filter_cons. simpl.
  destruct d; simpl; [reflexivity|set_solver].
Qed.

Lemma dependentKeys_app blocks1 blocks2 :
  dependentKeys (blocks1 ++ blocks2) =
  dependentKeys blocks1 ∪ dependentKeys blocks2.
Proof.
  unfold dependentKeys. rewrite filter_app, fmap_app, list_to_set_app_L.
  reflexivity.
Qed.

Lemma elem_of_dependentKeys k blocks :
  k ∈ dependentKeys blocks ↔ (k, true) ∈ blocks.
Proof.
  unfold dependentKeys. rewrite elem_of_list_to_set, list_elem_of_fmap.
  split.
  - intros [[k' d] [-> Hin]]. apply list_elem_of_filter in Hin as [Hd Hin].
    simpl in *. by subst.
  - intros Hin. exists (k, true). split; [done|].
    apply list_elem_of_filter. by split.
Qed.

(** With distinct index ranges, a range is among the dependent ones exactly
    when its own parameter has a dependency. *)
Lemma dependentKeys_NoDup k (d : bool) blocks :
  NoDup (fst <$> blocks) → (k, d) ∈ blocks →
  k ∈ dependentKeys blocks ↔ d = true.
Proof.
  intros Hnd Hin. rewrite elem_of_dependentKeys. split.
  - intros Hin'. 
    destruct d; [done|]. exfalso.
    apply list_elem_of_lookup in Hin as [i Hi].
    apply list_elem_of_lookup in Hin' as [j Hj].
    assert (i = j).
    { eapply (NoDup_lookup _ i j k); [exact Hnd| |].
      - by rewrite list_lookup_fmap, Hi.
      - by rewrite list_lookup_fmap, Hj. }
    subst j. congruence.
  - by intros ->.
Qed.

Section LoopFacts.
Context {E : Externals}.
Variable V : ObservableVariant (E:=E).
Variable linkEnds : LinkEnds.
Variable bodyMap : NamedBodyMap E.
Variable scaling : option nat.
Variable correctionPartials : list (list (LightTimeCorrectionPartial E)).

Local Abbreviation couldNotIdentify :=
  "Error when making mutual approximation partials, could not identify parameter".

Lemma dom_insert_if (d : bool) (k : Z * Z) (ptr : option nat) (partials : BlockMap) :
  dom (if d then <[k := ptr]> partials else partials) =
  dom partials ∪ (if d then {[k]} else ∅).
Proof. destruct d; [rewrite dom_insert_L|]; set_solver. Qed.

(** The loop over the initial-state parameters: it throws exactly when some
    category is not accepted; otherwise every parameter moves the index on
    and the dependent ones get their block. *)
Lemma initialState_loop parameters : ∀ partials currentIndex s,
  match for_each (initialStateStep V linkEnds bodyMap scaling correctionPartials)
          parameters (partials, currentIndex) s with
  | (Normal (partials', currentIndex'), s') =>
      forallb acceptedCategory parameters = true
      ∧ currentIndex' = indexAfter parameters currentIndex
      ∧ dom partials' =
        dom partials
        ∪ dependentKeys (initialStateBlocks linkEnds bodyMap correctionPartials
                           parameters currentIndex)
  | (Thrown what, s') =>
      forallb acceptedCategory parameters = false ∧ what = couldNotIdentify
  end.
Proof.
  induction parameters as [|p ps IH]; intros partials currentIndex s.
  - simpl. split_and!; [done..|]. rewrite dependentKeys_nil. set_solver.
  - cbn [for_each forallb initialStateBlocks]. unfold indexAfter.
    cbn [fold_left]. fold (indexAfter ps (int_add currentIndex 6)).
    unfold Exec_bind. rewrite initialStateStep_eq.
    destruct (acceptedCategory p); cbn [andb]; [|done].
    match goal with |- context [for_each _ ps (?a, ?i) ?t] =>
      specialize (IH a i t); destruct (for_each _ ps (a, i) t) as [[[m' i']|e] s']
    end.
    + destruct IH as (Hacc & Hidx & Hdom). split_and!; [done..|].
      rewrite Hdom, dom_insert_if, dependentKeys_cons. set_solver.
    + exact IH.
Qed.

Lemma double_loop parameters : ∀ partials s,
  ∃ partials' s',
    for_each (doubleStep V linkEnds bodyMap scaling correctionPartials)
      parameters partials s = (Normal partials', s')
    ∧ dom partials' =
      dom partials
      ∪ dependentKeys (doubleBlocks linkEnds bodyMap correctionPartials parameters).
Proof.
  induction parameters as [|it ps IH]; intros partials s.
  - eexists _, _. split; [reflexivity|]. simpl. rewrite dependentKeys_nil.
    set_solver.
  - cbn [for_each]. unfold doubleBlocks. rewrite fmap_cons.
    fold (doubleBlocks linkEnds bodyMap correctionPartials ps).
    unfold Exec_bind. rewrite doubleStep_eq.
    match goal with |- context [for_each _ ps ?a ?t] =>
      destruct (IH a t) as (m' & s' & -> & Hdom)
    end.
    eexists _, _. split; [reflexivity|].
    rewrite Hdom, dom_insert_if, dependentKeys_cons. set_solver.
Qed.

Lemma vector_loop parameters : ∀ partials s,
  ∃ partials' s',
    for_each (vectorStep V linkEnds bodyMap scaling correctionPartials)
      parameters partials s = (Normal partials', s')
    ∧ dom partials' =
      dom partials
      ∪ dependentKeys (vectorBlocks V linkEnds bodyMap correctionPartials parameters).
Proof.
  induction parameters as [|it ps IH]; intros partials s.
  - eexists _, _. split; [reflexivity|]. simpl. rewrite dependentKeys_nil.
    set_solver.
  - cbn [for_each]. unfold vectorBlocks. rewrite fmap_cons.
    fold (vectorBlocks V linkEnds bodyMap correctionPartials ps).
    unfold Exec_bind. rewrite vectorStep_eq.
    rewrite dependentKeys_cons. unfold linkPropertyDependency.
    destruct (isParameterObservationLinkProperty E _).
    + destruct (createObservationPartialWrtLinkProperty E _ _ _ _) as [lp|].
      * match goal with |- context [for_each _ ps ?a ?t] =>
          destruct (IH a t) as (m' & s' & -> & Hdom)
        end.
        eexists _, _. split; [reflexivity|].
        rewrite Hdom, dom_insert_L, bool_decide_true by eauto. set_solver.
      * destruct (IH partials s) as (m' & s' & -> & Hdom).
        eexists _, _. split; [reflexivity|].
        rewrite Hdom, bool_decide_false by (by intros [? ?]). set_solver.
    + match goal with |- context [for_each _ ps ?a ?t] =>
        destruct (IH a t) as (m' & s' & -> & Hdom)
      end.
      eexists _, _. split; [reflexivity|].
      rewrite Hdom, dom_insert_if. set_solver.
Qed.

End LoopFacts.

(** ** Objects built by the loops *)

Section HeapFacts.
Context {E : Externals}.
Variable V : ObservableVariant (E:=E).
Variable linkEnds : LinkEnds.
Variable bodyMap : NamedBodyMap E.
Variable scaling : option nat.
Variable correctionPartials : list (list (LightTimeCorrectionPartial E)).

Lemma blocksBuiltOn_allocated base partials (s : State E) (o : HeapObject E)
    (d : bool) k :
  builtOn scaling o → blocksBuiltOn scaling base partials s →
  blocksBuiltOn scaling base
    (if d then <[k := Some (length (heap s))]> partials else partials)
    (allocated s o).
Proof.
  intros Ho [(new & Hheap & Hnew) Hblocks]. split.
  - exists (new ++ [o]). simpl. rewrite Hheap, app_assoc. split; [done|].
    apply Forall_app. split; [done|]. by constructor.
  - intros k' ptr Hk'.
    assert (Hold : ∀ ptr', partials !! k' = Some ptr' →
              ∃ a o', ptr' = Some a ∧ heap (allocated s o) !! a = Some o'
                      ∧ builtOn scaling o').
    { intros ptr' Hptr'. destruct (Hblocks _ _ Hptr') as (a & o' & -> & Ha & Hb).
      exists a, o'. split_and!; [done| |done].
      simpl. rewrite lookup_app_l; [done|]. by eapply lookup_lt_Some. }
    destruct d; [|by apply Hold].
    destruct (decide (k = k')) as [->|Hne].
    + rewrite lookup_insert_eq in Hk'. injection Hk' as <-.
      exists (length (heap s)), o. split_and!; [done| |done].
      simpl. rewrite lookup_app_r by lia. by rewrite Nat.sub_diag.
    + rewrite lookup_insert_ne in Hk' by done. by apply Hold.
Qed.

Hypothesis HV : keepsScaler V.

Lemma bodyPartialObject_builtOn body :
  builtOn scaling
    (bodyPartialObject V linkEnds bodyMap scaling correctionPartials body).
Proof. apply (HV (Build_PartialMembers _ _ _ _)). Qed.

Lemma parameterPartialObject_builtOn parameter :
  builtOn scaling
    (parameterPartialObject V linkEnds bodyMap scaling correctionPartials parameter).
Proof. apply (HV (Build_PartialMembers _ _ _ _)). Qed.

Lemma initialState_loop_heap base parameters partials currentIndex s :
  blocksBuiltOn scaling base partials s →
  match for_each (initialStateStep V linkEnds bodyMap scaling correctionPartials)
          parameters (partials, currentIndex) s with
  | (Normal loopState, s') => blocksBuiltOn scaling base loopState.1 s' ∧ cerr s' = cerr s
  | (Thrown _, _) => True
  end.
Proof.
  intros Hinv.
  apply (for_each_invariant
           (λ loopState t, blocksBuiltOn scaling base loopState.1 t ∧ cerr t = cerr s)
           (λ _ _, True)); [|done].
  intros p [m i] t _ [Hm Hc]. rewrite initialStateStep_eq.
  destruct (acceptedCategory p); [|done]. simpl. split; [|done].
  apply blocksBuiltOn_allocated; [apply bodyPartialObject_builtOn|done].
Qed.

Lemma double_loop_heap base parameters partials s :
  blocksBuiltOn scaling base partials s →
  match for_each (doubleStep V linkEnds bodyMap scaling correctionPartials)
          parameters partials s with
  | (Normal partials', s') => blocksBuiltOn scaling base partials' s' ∧ cerr s' = cerr s
  | (Thrown _, _) => True
  end.
Proof.
  intros Hinv.
  apply (for_each_invariant
           (λ m t, blocksBuiltOn scaling base m t ∧ cerr t = cerr s) (λ _ _, True));
    [|done].
  intros it m t _ [Hm Hc]. rewrite doubleStep_eq. split; [|done].
  apply blocksBuiltOn_allocated; [apply parameterPartialObject_builtOn|done].
Qed.

Lemma vector_loop_heap base parameters partials s :
  blocksBuiltOn scaling base partials s →
  match for_each (vectorStep V linkEnds bodyMap scaling correctionPartials)
          parameters partials s with
  | (Normal partials', s') => blocksBuiltOn scaling base partials' s' ∧ cerr s' = cerr s
  | (Thrown _, _) => True
  end.
Proof.
  intros Hinv.
  apply (for_each_invariant
           (λ m t, blocksBuiltOn scaling base m t ∧ cerr t = cerr s) (λ _ _, True));
    [|done].
  intros it m t _ [Hm Hc]. rewrite vectorStep_eq.
  destruct (isParameterObservationLinkProperty E _).
  - destruct (createObservationPartialWrtLinkProperty E _ _ _ _) as [lp|];
      [|done].
    split; [|done].
    by apply (blocksBuiltOn_allocated base m t _ true).
  - split; [|done].
    apply blocksBuiltOn_allocated; [apply parameterPartialObject_builtOn|done].
Qed.

End HeapFacts.

Lemma singleValued_keepsScaler {E : Externals} : keepsScaler (singleValued (E:=E)).
Proof. intros m. reflexivity. Qed.

Lemma twoValued_keepsScaler {E : Externals} : keepsScaler (twoValued (E:=E)).
Proof. intros m. reflexivity. Qed.

(** ** The single-link algorithm as a whole *)

Section AssembleFacts.
Context {E : Externals}.
Variable V : ObservableVariant (E:=E).
Variable scalingClass : ScalingClass.
Variable linkEnds : LinkEnds.
Variable bodyMap : NamedBodyMap E.
Variable parametersToEstimate : EstimatableParameterSet (E:=E).
Variable lightTimeCorrections : list (list (LightTimeCorrection E)).
Variable dependentVariablesInterface : option (DependentVariablesInterface E).

Local Abbreviation couldNotIdentify :=
  "Error when making mutual approximation partials, could not identify parameter".
Local Abbreviation run :=
  (assemblePartials V scalingClass linkEnds bodyMap parametersToEstimate
     lightTimeCorrections dependentVariablesInterface).
Local Abbreviation legCountFits :=
  (length lightTimeCorrections = 0%nat ∨ length lightTimeCorrections = 2%nat).

Lemma assemblePartials_legCount s :
  ¬ legCountFits →
  run s = (Thrown (lightTimeCorrectionsMessage (length lightTimeCorrections)), s).
Proof.
  intros Hlen. unfold assemblePartials, Exec_bind.
  by rewrite bool_decide_false.
Qed.

Lemma assemblePartials_couldNotIdentify s :
  legCountFits →
  forallb acceptedCategory
    (getEstimatedInitialStateParameters parametersToEstimate) = false →
  ∃ s', run s = (Thrown couldNotIdentify, s').
Proof.
  intros Hlen Hacc. unfold assemblePartials, Exec_bind.
  rewrite bool_decide_true by done. cbn [Exec_ret]. rewrite make_shared_eq.
  match goal with |- context [for_each ?f ?l (?m, ?i) ?t] =>
    pose proof (initialState_loop V linkEnds bodyMap (Some (length (heap s)))
                  (correctionPartialObjects lightTimeCorrections) l m i t) as Hloop;
    destruct (for_each f l (m, i) t) as [[[m' i']|e] s']
  end.
  - destruct Hloop as (Hacc' & _). congruence.
  - destruct Hloop as (_ & ->). by eexists.
Qed.

Lemma assemblePartials_Normal s :
  legCountFits →
  forallb acceptedCategory
    (getEstimatedInitialStateParameters parametersToEstimate) = true →
  ∃ partials s',
    run s = (Normal (partials, Some (length (heap s))), s')
    ∧ dom partials =
      dependentKeys (parameterBlocks V linkEnds bodyMap
                       (correctionPartialObjects lightTimeCorrections)
                       parametersToEstimate).
Proof.
  intros Hlen Hacc. unfold assemblePartials, Exec_bind.
  rewrite bool_decide_true by done. cbn [Exec_ret]. rewrite make_shared_eq.
  match goal with |- context [for_each ?f ?l (?m, ?i) ?t] =>
    pose proof (initialState_loop V linkEnds bodyMap (Some (length (heap s)))
                  (correctionPartialObjects lightTimeCorrections) l m i t) as Hloop;
    destruct (for_each f l (m, i) t) as [[[m1 i1]|e] s1]
  end; [|destruct Hloop; congruence].
  destruct Hloop as (_ & _ & Hdom1). simpl.
  match goal with |- context [for_each ?f ?l m1 s1] =>
    destruct (double_loop V linkEnds bodyMap (Some (length (heap s)))
                (correctionPartialObjects lightTimeCorrections) l m1 s1)
      as (m2 & s2 & -> & Hdom2)
  end.
  match goal with |- context [for_each ?f ?l m2 s2] =>
    destruct (vector_loop V linkEnds bodyMap (Some (length (heap s)))
                (correctionPartialObjects lightTimeCorrections) l m2 s2)
      as (m3 & s3 & -> & Hdom3)
  end.
  eexists _, _. split; [reflexivity|].
  rewrite Hdom3, Hdom2, Hdom1. unfold parameterBlocks.
  rewrite !dependentKeys_app, dom_empty_L. set_solver.
Qed.

(** Whatever the parameters, the call builds its scaling object first and
    then only objects on that scaling object; the blocks are among them, and
    nothing is written to [std::cerr]. *)
Lemma assemblePartials_heap s :
  keepsScaler V →
  match run s with
  | (Normal (partials, scaling), s') =>
      scaling = Some (length (heap s))
      ∧ cerr s' = cerr s
      ∧ (∃ new,
           heap s' = heap s
                     ++ ScalingObject scalingClass dependentVariablesInterface
                     :: new
           ∧ Forall (builtOn scaling) new)
      ∧ ∀ k ptr, partials !! k = Some ptr →
          ∃ a o, ptr = Some a ∧ heap s' !! a = Some o ∧ builtOn scaling o
  | (Thrown _, _) => True
  end.
Proof.
  intros HV. unfold assemblePartials, Exec_bind.
  destruct (bool_decide _); [|done]. cbn [Exec_ret]. rewrite make_shared_eq.
  set (scaling := Some (length (heap s))).
  set (base := heap s ++ [ScalingObject scalingClass dependentVariablesInterface]).
  set (s0 := allocated s _).
  assert (H0 : blocksBuiltOn scaling base ∅ s0).
  { split; [exists []; by rewrite app_nil_r|]. intros k ptr Hk.
    by rewrite lookup_empty in Hk. }
  match goal with |- context [for_each ?f ?l (?m, ?i) s0] =>
    pose proof (initialState_loop_heap V linkEnds bodyMap scaling
                  (correctionPartialObjects lightTimeCorrections) HV
                  base l m i s0 H0) as H1;
    destruct (for_each f l (m, i) s0) as [[[m1 i1]|e] s1]
  end; [|done].
  destruct H1 as [H1 Hc1]. simpl in H1 |- *.
  match goal with |- context [for_each ?f ?l m1 s1] =>
    pose proof (double_loop_heap V linkEnds bodyMap scaling
                  (correctionPartialObjects lightTimeCorrections) HV
                  base l m1 s1 H1) as H2;
    destruct (for_each f l m1 s1) as [[m2|e] s2]
  end; [|done].
  destruct H2 as [H2 Hc2].
  match goal with |- context [for_each ?f ?l m2 s2] =>
    pose proof (vector_loop_heap V linkEnds bodyMap scaling
                  (correctionPartialObjects lightTimeCorrections) HV
                  base l m2 s2 H2) as H3;
    destruct (for_each f l m2 s2) as [[m3|e] s3]
  end; [|done].
  destruct H3 as [[(new & Hheap & Hnew) Hblocks] Hc3].
  split_and!; [done|by rewrite Hc3, Hc2, Hc1| |done].
  exists new. split; [|done]. rewrite Hheap. unfold base.
  by rewrite <- app_assoc.
Qed.

End AssembleFacts.

(** ** Auxiliary facts for the claims *)

Lemma int_wrap_small (z : Z) : (- 2 ^ 31 ≤ z ≤ INT_MAX)%Z → int_wrap z = z.
Proof.
  unfold int_wrap, INT_MAX. intros Hz.
  rewrite Z.mod_small by lia. lia.
Qed.

Lemma indexAfter_in_range {E : Externals} (parameters : list (EstimatableParameter E))
    (currentIndex : Z) :
  (0 ≤ currentIndex)%Z →
  (currentIndex + 6 * Z.of_nat (length parameters) ≤ INT_MAX)%Z →
  indexAfter parameters currentIndex
  = currentIndex + 6 * Z.of_nat (length parameters).
Proof.
  revert currentIndex. unfold indexAfter.
  induction parameters as [|p ps IH]; intros currentIndex Hlo Hhi; simpl.
  - lia.
  - simpl length in Hhi. unfold int_add at 2.
    rewrite int_wrap_small by (unfold INT_MAX in *; lia).
    rewrite IH by lia. lia.
Qed.

Lemma forallb_false_Exists {A} (f : A → bool) (l : list A) :
  forallb f l = false → Exists (λ x, f x = false) l.
Proof.
  induction l as [|x l IH]; simpl; [done|].
  destruct (f x) eqn:Hx; simpl.
  - intros Hl. right. by apply IH.
  - intros _. by left.
Qed.

Section BatchFacts.
Context {E : Externals}.
Variable bodyMap : NamedBodyMap E.
Variable parametersToEstimate : EstimatableParameterSet (E:=E).
Variable isCentralInstantUsedAsObservable : bool.
Variable lightTimeCorrections : gmap LinkEnds (list (list (LightTimeCorrection E))).
Variable dependentVariablesInterface : option (DependentVariablesInterface E).

(** Once the links before it have been assembled, the loop is at the
    iteration of the next link. *)
Lemma allLinkEnds_reaches before linkEnds_i after assembled s0 s1 :
  for_each (linkEndsIteration bodyMap parametersToEstimate
              isCentralInstantUsedAsObservable lightTimeCorrections
              dependentVariablesInterface) before ∅ s0
  = (Normal assembled, s1) →
  createMutualApproximationPartials_allLinkEnds (before ++ linkEnds_i :: after)
    bodyMap parametersToEstimate isCentralInstantUsedAsObservable
    lightTimeCorrections dependentVariablesInterface s0
  = Exec_bind
      (linkEndsIteration bodyMap parametersToEstimate
         isCentralInstantUsedAsObservable lightTimeCorrections
         dependentVariablesInterface linkEnds_i assembled)
      (for_each (linkEndsIteration bodyMap parametersToEstimate
                   isCentralInstantUsedAsObservable lightTimeCorrections
                   dependentVariablesInterface) after) s1.
Proof.
  intros Hbefore. unfold createMutualApproximationPartials_allLinkEnds.
  rewrite for_each_app. by rewrite (Exec_bind_Normal _ _ _ _ _ Hbefore).
Qed.

End BatchFacts.

Lemma dependencyExists_true {E : Externals}
    (correctionPartials : list (list (LightTimeCorrectionPartial E)))
    positionPartials parameterName :
  dependencyExists correctionPartials positionPartials parameterName = true
  ↔ (0 < size positionPartials)%nat
    ∨ getNumberOfLighTimeCorrectionPartialsFunctions E parameterName
        correctionPartials ≠ 0%nat.
Proof.
  unfold dependencyExists.
  by rewrite orb_true_iff, bool_decide_eq_true, negb_true_iff, Nat.eqb_neq.
Qed.

(** The block of the [i]-th initial-state parameter is at the index the
    loop has reached after the [i] parameters before it. *)
Lemma initialStateBlocks_lookup {E : Externals} linkEnds (bodyMap : NamedBodyMap E)
    correctionPartials parameters : ∀ (i : nat) parameter currentIndex,
  parameters !! i = Some parameter →
  initialStateBlocks linkEnds bodyMap correctionPartials parameters currentIndex
    !! i
  = Some ((indexAfter (take i parameters) currentIndex, 6),
          bodyDependency linkEnds bodyMap correctionPartials
            (getParameterName E parameter).2.1).
Proof.
  induction parameters as [|p ps IH]; intros i parameter currentIndex Hi;
    [done|].
  destruct i as [|i]; simpl in *.
  - by injection Hi as ->.
  - rewrite (IH i parameter _ Hi). reflexivity.
Qed.

Lemma vectorBlocks_agree {E : Externals} linkEnds (bodyMap : NamedBodyMap E)
    correctionPartials parameters :
  linkPropertyConstructorAgrees linkEnds parameters = true →
  vectorBlocks singleValued linkEnds bodyMap correctionPartials parameters
  = vectorBlocks twoValued linkEnds bodyMap correctionPartials parameters.
Proof.
  unfold linkPropertyConstructorAgrees, vectorBlocks.
  induction parameters as [|it ps IH]; intros Hagree; [reflexivity|].
  cbn [forallb] in Hagree. apply andb_true_iff in Hagree as [Hit Hps].
  rewrite !fmap_cons, (IH Hps). f_equal. f_equal.
  destruct (isParameterObservationLinkProperty E _); [|reflexivity].
  simpl in Hit. apply bool_decide_eq_true in Hit.
  unfold linkPropertyDependency. simpl. by apply bool_decide_ext.
Qed.

(** ** The claims *)

Section Claims.
Context {E : Externals}.

(** C1 (as amended).  In the all-link-ends function, once the links before
    it have been assembled, a link that has the roles receiver, transmitter
    and transmitter2 and whose entry in the correction map has a number of
    groups other than 2 gets the diagnostic on [std::cerr], and the entry is
    handed on unchanged to the single-link function.  With 0 groups the link
    is assembled with empty corrections and the loop goes on; with any other
    number the single-link function throws its leg-count error, which ends
    the whole call: no mapping is returned, for this link or any other. *)
Theorem allLinkEnds_leg_count_mismatch
    (bodyMap : NamedBodyMap E) parametersToEstimate
    isCentralInstantUsedAsObservable lightTimeCorrections
    dependentVariablesInterface
    (before : list LinkEnds) (linkEnds_i : LinkEnds) (after : list LinkEnds)
    corrections assembled s0 s1 :
  for_each (linkEndsIteration bodyMap parametersToEstimate
              isCentralInstantUsedAsObservable lightTimeCorrections
              dependentVariablesInterface) before ∅ s0
  = (Normal assembled, s1) →
  linkEnds_i !! receiver ≠ None ∧ linkEnds_i !! transmitter ≠ None
  ∧ linkEnds_i !! transmitter2 ≠ None →
  lightTimeCorrections !! linkEnds_i = Some corrections →
  length corrections ≠ 2%nat →
  let diagnosed :=
    {| heap := heap s1;
       cerr := cerr s1 ++ [lightTimeCorrectionsMessage (length corrections)] |} in
  createMutualApproximationPartials_allLinkEnds (before ++ linkEnds_i :: after)
    bodyMap parametersToEstimate isCentralInstantUsedAsObservable
    lightTimeCorrections dependentVariablesInterface s0
  = if decide (length corrections = 0%nat)
    then Exec_bind
           (createMutualApproximationPartials linkEnds_i bodyMap
              parametersToEstimate isCentralInstantUsedAsObservable []
              dependentVariablesInterface)
           (λ partialsOfLink,
              for_each (linkEndsIteration bodyMap parametersToEstimate
                          isCentralInstantUsedAsObservable lightTimeCorrections
                          dependentVariablesInterface)
                       after (<[linkEnds_i := partialsOfLink]> assembled))
           diagnosed
    else (Thrown (lightTimeCorrectionsMessage (length corrections)), diagnosed).
Proof.
  intros Hbefore (Hr & Ht & Ht2) Hentry Hlen diagnosed.
  rewrite (allLinkEnds_reaches _ _ _ _ _ _ _ _ _ _ _ Hbefore).
  unfold linkEndsIteration.
  rewrite !bool_decide_false by done. cbn [orb].
  rewrite Hentry. unfold Exec_bind at 1 2. cbn [Exec_ret].
  unfold Exec_bind at 1 2. rewrite bool_decide_true by done.
  unfold cerr_endl. cbn [Exec_ret].
  fold (lightTimeCorrectionsMessage (length corrections)). fold diagnosed.
  destruct (decide (length corrections = 0%nat)) as [Hzero|Hnonzero].
  - destruct corrections; [|done]. unfold Exec_bind, Exec_ret.
    by destruct (createMutualApproximationPartials _ _ _ _ _ _ _) as [[r|e] s'].
  - unfold Exec_bind. rewrite createMutualApproximationPartials_shape.
    rewrite assemblePartials_legCount; [reflexivity|]. intros [?|?]; done.
Qed.

(** C4 (as amended).  The all-link-ends function throws its configuration
    error at a link that misses one of the roles receiver, transmitter and
    transmitter2, in the state the links before it have left: nothing, not
    even the scaling object, is constructed for the link, and no mapping is
    returned.  (The single-link function checks no role.) *)
Theorem allLinkEnds_missing_role
    (bodyMap : NamedBodyMap E) parametersToEstimate
    isCentralInstantUsedAsObservable lightTimeCorrections
    dependentVariablesInterface
    (before : list LinkEnds) (linkEnds_i : LinkEnds) (after : list LinkEnds)
    assembled s0 s1 :
  for_each (linkEndsIteration bodyMap parametersToEstimate
              isCentralInstantUsedAsObservable lightTimeCorrections
              dependentVariablesInterface) before ∅ s0
  = (Normal assembled, s1) →
  linkEnds_i !! receiver = None ∨ linkEnds_i !! transmitter = None
  ∨ linkEnds_i !! transmitter2 = None →
  createMutualApproximationPartials_allLinkEnds (before ++ linkEnds_i :: after)
    bodyMap parametersToEstimate isCentralInstantUsedAsObservable
    lightTimeCorrections dependentVariablesInterface s0
  = (Thrown
       "Error when making mutual approximation partials, did not find both transmitter, transmitter2 and receiver in link ends",
     s1).
Proof.
  intros Hbefore Hrole.
  rewrite (allLinkEnds_reaches _ _ _ _ _ _ _ _ _ _ _ Hbefore).
  unfold linkEndsIteration.
  assert (bool_decide (linkEnds_i !! receiver = None)
          || bool_decide (linkEnds_i !! transmitter = None)
          || bool_decide (linkEnds_i !! transmitter2 = None) = true) as ->.
  { destruct Hrole as [H|[H|H]]; rewrite (bool_decide_true _ H);
      rewrite ?orb_true_r; reflexivity. }
  reflexivity.
Qed.

(** C5 (as amended).  For every list of correction groups whose size is
    neither 0 nor 2 the single-link function throws the leg-count error at
    once, with nothing constructed; an empty list is accepted. *)
Theorem single_link_leg_count
    (linkEnds : LinkEnds) (bodyMap : NamedBodyMap E) parametersToEstimate
    isCentralInstantUsedAsObservable lightTimeCorrections
    dependentVariablesInterface s :
  length lightTimeCorrections ≠ 0%nat →
  length lightTimeCorrections ≠ 2%nat →
  createMutualApproximationPartials linkEnds bodyMap parametersToEstimate
    isCentralInstantUsedAsObservable lightTimeCorrections
    dependentVariablesInterface s
  = (Thrown (lightTimeCorrectionsMessage (length lightTimeCorrections)), s).
Proof.
  intros H0 H2. rewrite createMutualApproximationPartials_shape.
  apply assemblePartials_legCount. intros [?|?]; done.
Qed.

(** C10 (as amended).  With no parameter to estimate and a list of
    correction groups that passes the leg-count check (0 or 2 groups) the
    single-link function returns the
    empty partial list and the scaling object it has just constructed: the
    pointer is not null, its address was unused before the call, and the
    object is the only one the call adds. *)
Theorem single_link_no_parameters
    (linkEnds : LinkEnds) (bodyMap : NamedBodyMap E)
    (isCentralInstantUsedAsObservable : bool)
    (lightTimeCorrections : list (list (LightTimeCorrection E)))
    dependentVariablesInterface (s : State E) :
  length lightTimeCorrections = 0%nat ∨ length lightTimeCorrections = 2%nat →
  let scalingObject :=
    ScalingObject
      (if isCentralInstantUsedAsObservable
       then MutualApproximationScaling else ModifiedMutualApproximationScaling)
      dependentVariablesInterface in
  createMutualApproximationPartials linkEnds bodyMap
    {| getEstimatedInitialStateParameters := [];
       getDoubleParameters := [];
       getVectorParameters := [] |}
    isCentralInstantUsedAsObservable lightTimeCorrections
    dependentVariablesInterface s
  = (Normal (∅, Some (length (heap s))),
     {| heap := heap s ++ [scalingObject]; cerr := cerr s |})
  ∧ heap s !! length (heap s) = None
  ∧ (heap s ++ [scalingObject]) !! length (heap s) = Some scalingObject.
Proof.
  intros Hlen scalingObject. split_and!.
  - rewrite createMutualApproximationPartials_shape.
    unfold assemblePartials, Exec_bind.
    rewrite bool_decide_true by done. reflexivity.
  - apply lookup_ge_None. lia.
  - rewrite lookup_app_r by lia. by rewrite Nat.sub_diag.
Qed.

(** C2.  The loop over the initial-state parameters moves [currentIndex] on
    by 6 for each parameter, whether or not a block was inserted for it:
    started at 0 it ends at 6 times the number of parameters, whatever the
    factories find (as long as that number fits an [int]).  The loop ends
    normally exactly when every category is accepted. *)
Theorem initial_state_loop_index
    (linkEnds : LinkEnds) (bodyMap : NamedBodyMap E) (mutualApproximationScaling : option nat)
    (lightTimeCorrectionPartialObjects : list (list (LightTimeCorrectionPartial E)))
    (initialDynamicalParameters : list (EstimatableParameter E))
    (mutualApproximationPartials : BlockMap) (s : State E) :
  (6 * Z.of_nat (length initialDynamicalParameters) ≤ INT_MAX)%Z →
  match for_each (initialDynamicalParameterIteration linkEnds bodyMap
                    mutualApproximationScaling lightTimeCorrectionPartialObjects)
          initialDynamicalParameters (mutualApproximationPartials, 0) s with
  | (Normal (_, currentIndex), _) =>
      forallb acceptedCategory initialDynamicalParameters = true
      ∧ currentIndex = 6 * Z.of_nat (length initialDynamicalParameters)
  | (Thrown _, _) =>
      forallb acceptedCategory initialDynamicalParameters = false
  end.
Proof.
  intros Hrange.
  pose proof (initialState_loop singleValued linkEnds bodyMap
                mutualApproximationScaling lightTimeCorrectionPartialObjects
                initialDynamicalParameters mutualApproximationPartials 0 s)
    as Hloop.
  change (initialStateStep singleValued linkEnds bodyMap
            mutualApproximationScaling lightTimeCorrectionPartialObjects)
    with (initialDynamicalParameterIteration linkEnds bodyMap
            mutualApproximationScaling lightTimeCorrectionPartialObjects)
    in Hloop.
  destruct (for_each _ _ _ s) as [[[m i]|e] s'].
  - destruct Hloop as (Hacc & -> & _). split; [done|].
    rewrite indexAfter_in_range; lia.
  - by destruct Hloop.
Qed.

(** C7 (as amended).  The loop over the scalar parameters makes no
    distinction by parameter kind: for every scalar parameter, link property
    or not, it calls the position-coupled factory (a
    [MutualApproximationPartial] on the position partials of the parameter
    is constructed), and inserts a block of size 1 at the parameter's index
    when the factory finds a dependency.  The link-property constructor is
    used by the loop over the vector parameters only. *)
Theorem double_parameter_iteration
    (linkEnds : LinkEnds) (bodyMap : NamedBodyMap E) (mutualApproximationScaling : option nat)
    (lightTimeCorrectionPartialObjects : list (list (LightTimeCorrectionPartial E)))
    (parameterIterator : Z * EstimatableParameter E)
    (mutualApproximationPartials : BlockMap) (s : State E) :
  doubleParameterIteration linkEnds bodyMap mutualApproximationScaling
    lightTimeCorrectionPartialObjects parameterIterator
    mutualApproximationPartials s
  = (Normal
       (if bool_decide
             (0 < size (createCartesianStatePartialsWrtParameter E linkEnds
                          bodyMap parameterIterator.2))%nat
           || negb (getNumberOfLighTimeCorrectionPartialsFunctions E
                      (getParameterName E parameterIterator.2)
                      lightTimeCorrectionPartialObjects =? 0)%nat
        then <[(parameterIterator.1, 1) := Some (length (heap s))]>
               mutualApproximationPartials
        else mutualApproximationPartials),
     {| heap :=
          heap s
          ++ [MutualApproximationPartial
                {| positionPartialScaler := mutualApproximationScaling;
                   positionPartialList :=
                     createCartesianStatePartialsWrtParameter E linkEnds
                       bodyMap parameterIterator.2;
                   parameterIdentifier := getParameterName E parameterIterator.2;
                   lighTimeCorrectionPartials :=
                     lightTimeCorrectionPartialObjects |}];
        cerr := cerr s |}).
Proof.
  change (doubleParameterIteration linkEnds bodyMap mutualApproximationScaling
            lightTimeCorrectionPartialObjects)
    with (doubleStep singleValued linkEnds bodyMap mutualApproximationScaling
            lightTimeCorrectionPartialObjects).
  apply doubleStep_eq.
Qed.

(** C8 (as amended).  Once the leg-count check is passed (0 or 2
    correction groups), the single-link function throws "could not
    identify parameter" exactly when some initial-state
    parameter has a category other than [initial_body_state] and
    [arc_wise_initial_body_state], and returns otherwise; and an iteration
    on a parameter of an accepted category takes the body name from the
    parameter identifier and goes on to the body-position factory. *)
Theorem initial_state_category
    (linkEnds : LinkEnds) (bodyMap : NamedBodyMap E)
    (parametersToEstimate : EstimatableParameterSet)
    (isCentralInstantUsedAsObservable : bool)
    (lightTimeCorrections : list (list (LightTimeCorrection E)))
    dependentVariablesInterface (s : State E) :
  length lightTimeCorrections = 0%nat ∨ length lightTimeCorrections = 2%nat →
  let outcome :=
    createMutualApproximationPartials linkEnds bodyMap parametersToEstimate
      isCentralInstantUsedAsObservable lightTimeCorrections
      dependentVariablesInterface s in
  let accepted parameter :=
    (getParameterName E parameter).1 = initial_body_state
    ∨ (getParameterName E parameter).1 = arc_wise_initial_body_state in
  ((Forall accepted (getEstimatedInitialStateParameters parametersToEstimate)
    ∧ ∃ partials scaling s', outcome = (Normal (partials, scaling), s'))
   ∨ (Exists (λ parameter, ¬ accepted parameter)
        (getEstimatedInitialStateParameters parametersToEstimate)
      ∧ ∃ s',
          outcome
          = (Thrown
               "Error when making mutual approximation partials, could not identify parameter",
             s')))
  ∧ ∀ parameter scaling corrections partials currentIndex t,
      initialDynamicalParameterIteration linkEnds bodyMap scaling corrections
        parameter (partials, currentIndex) t
      = if bool_decide (accepted parameter)
        then Exec_bind
               (createMutualApproximationPartialWrtBodyPosition linkEnds bodyMap
                  (getParameterName E parameter).2.1 scaling corrections)
               (λ current,
                  Exec_ret
                    (if bool_decide (current ≠ None)
                     then <[(currentIndex, 6) := current]> partials
                     else partials,
                     int_add currentIndex 6)) t
        else (Thrown
                "Error when making mutual approximation partials, could not identify parameter",
              t).
Proof.
  intros Hlen outcome accepted.
  assert (Hacc : ∀ parameter, acceptedCategory parameter = true ↔ accepted parameter).
  { intros p. unfold acceptedCategory, accepted.
    rewrite orb_true_iff, !bool_decide_eq_true. done. }
  split.
  - unfold outcome. rewrite createMutualApproximationPartials_shape.
    destruct (forallb acceptedCategory
                (getEstimatedInitialStateParameters parametersToEstimate))
      eqn:Hall.
    + left. split.
      * apply Forall_forall. intros p Hp. apply Hacc.
        rewrite forallb_forall in Hall. apply Hall. by apply list_elem_of_In.
      * destruct (assemblePartials_Normal singleValued
                    (if isCentralInstantUsedAsObservable
                     then MutualApproximationScaling
                     else ModifiedMutualApproximationScaling)
                    linkEnds bodyMap parametersToEstimate lightTimeCorrections
                    dependentVariablesInterface s Hlen Hall)
          as (partials & s' & Hrun & _).
        by eexists _, _, _.
    + right. split.
      * eapply Exists_impl; [by apply forallb_false_Exists|].
        intros p Hp Hp'. apply Hacc in Hp'. congruence.
      * by apply assemblePartials_couldNotIdentify.
  - intros p scaling corrections partials currentIndex t.
    unfold initialDynamicalParameterIteration, accepted.
    destruct (decide ((getParameterName E p).1 = initial_body_state)) as [H1|H1].
    + rewrite (bool_decide_true _ H1), bool_decide_true by (by left).
      reflexivity.
    + rewrite (bool_decide_false _ H1).
      destruct (decide ((getParameterName E p).1 = arc_wise_initial_body_state))
        as [H2|H2].
      * rewrite (bool_decide_true _ H2), bool_decide_true by (by right).
        reflexivity.
      * rewrite (bool_decide_false _ H2), bool_decide_false by (by intros [?|?]).
        reflexivity.
Qed.

(** C3 (as amended).  Take a call that passes its checks, on parameters
    whose index ranges are distinct.  For an initial-state parameter, a
    scalar parameter and a vector parameter that is no link property, the
    returned partial list has an entry at the parameter's index range
    exactly when some role-to-position partial was produced for it or some
    light-time-correction partial function contributes; otherwise nothing
    is inserted.  For a vector parameter that is a link property the entry
    is there exactly when the link-property constructor returns a partial,
    whatever the position partials and the corrections. *)
Theorem block_present_iff_dependency
    (linkEnds : LinkEnds) (bodyMap : NamedBodyMap E)
    (parametersToEstimate : EstimatableParameterSet)
    (isCentralInstantUsedAsObservable : bool)
    (lightTimeCorrections : list (list (LightTimeCorrection E)))
    dependentVariablesInterface (s : State E) :
  length lightTimeCorrections = 0%nat ∨ length lightTimeCorrections = 2%nat →
  forallb acceptedCategory
    (getEstimatedInitialStateParameters parametersToEstimate) = true →
  (6 * Z.of_nat (length (getEstimatedInitialStateParameters parametersToEstimate))
   ≤ INT_MAX)%Z →
  NoDup (fst <$> parameterBlocks singleValued linkEnds bodyMap
                   (correctionPartialObjects lightTimeCorrections)
                   parametersToEstimate) →
  let dependency (positionPartials : gmap LinkEndType (CartesianStatePartial E))
                 (parameterName : EstimatebleParameterIdentifier) : Prop :=
    (0 < size positionPartials)%nat
    ∨ getNumberOfLighTimeCorrectionPartialsFunctions E parameterName
        (correctionPartialObjects lightTimeCorrections) ≠ 0%nat in
  ∃ partials scaling s',
    createMutualApproximationPartials linkEnds bodyMap parametersToEstimate
      isCentralInstantUsedAsObservable lightTimeCorrections
      dependentVariablesInterface s
    = (Normal (partials, scaling), s')
    ∧ (∀ (i : nat) parameter,
         getEstimatedInitialStateParameters parametersToEstimate !! i
         = Some parameter →
         is_Some (partials !! (6 * Z.of_nat i, 6))
         ↔ dependency
             (createCartesianStatePartialsWrtBodyState E linkEnds bodyMap
                (getParameterName E parameter).2.1)
             (initial_body_state, ((getParameterName E parameter).2.1, "")))
    ∧ (∀ index parameter,
         (index, parameter) ∈ getDoubleParameters parametersToEstimate →
         is_Some (partials !! (index, 1))
         ↔ dependency
             (createCartesianStatePartialsWrtParameter E linkEnds bodyMap parameter)
             (getParameterName E parameter))
    ∧ (∀ index parameter,
         (index, parameter) ∈ getVectorParameters parametersToEstimate →
         is_Some (partials !! (index, getParameterSize E parameter))
         ↔ if isParameterObservationLinkProperty E (getParameterName E parameter).1
           then is_Some (createObservationPartialWrtLinkProperty E 1 linkEnds
                           mutual_approximation parameter)
           else dependency
                  (createCartesianStatePartialsWrtParameter E linkEnds bodyMap
                     parameter)
                  (getParameterName E parameter)).
Proof.
  intros Hlen Hacc Hrange Hnd dependency.
  destruct (assemblePartials_Normal singleValued
              (if isCentralInstantUsedAsObservable
               then MutualApproximationScaling
               else ModifiedMutualApproximationScaling)
              linkEnds bodyMap parametersToEstimate lightTimeCorrections
              dependentVariablesInterface s Hlen Hacc)
    as (partials & s' & Hrun & Hdom).
  exists partials, (Some (length (heap s))), s'.
  split; [by rewrite createMutualApproximationPartials_shape|].
  assert (Hblock : ∀ range (d : bool),
            (range, d) ∈ parameterBlocks singleValued linkEnds bodyMap
                           (correctionPartialObjects lightTimeCorrections)
                           parametersToEstimate →
            is_Some (partials !! range) ↔ d = true).
  { intros range d Hin. rewrite <- elem_of_dom, Hdom.
    by apply dependentKeys_NoDup. }
  assert (Hdep : ∀ positionPartials parameterName,
            dependencyExists (correctionPartialObjects lightTimeCorrections)
              positionPartials parameterName = true
            ↔ dependency positionPartials parameterName)
    by (intros; apply dependencyExists_true).
  split_and!.
  - intros i parameter Hi.
    pose proof (initialStateBlocks_lookup linkEnds bodyMap
                  (correctionPartialObjects lightTimeCorrections)
                  _ i parameter 0 Hi) as Hlookup.
    rewrite indexAfter_in_range in Hlookup.
    + rewrite length_take_le in Hlookup by (apply lookup_lt_Some in Hi; lia).
      rewrite Z.add_0_l in Hlookup.
      rewrite (Hblock _ _ (proj2 (list_elem_of_lookup _ _)
                             (ex_intro _ i (lookup_app_l_Some _ _ _ _ Hlookup)))).
      apply Hdep.
    + lia.
    + rewrite length_take. lia.
  - intros index parameter Hin.
    rewrite (Hblock (index, 1)
               (parameterDependency linkEnds bodyMap
                  (correctionPartialObjects lightTimeCorrections) parameter)).
    + apply Hdep.
    + unfold parameterBlocks. rewrite !elem_of_app. right. left.
      apply list_elem_of_fmap. by exists (index, parameter).
  - intros index parameter Hin.
    rewrite (Hblock (index, getParameterSize E parameter)
               (if isParameterObservationLinkProperty E (getParameterName E parameter).1
                then linkPropertyDependency singleValued linkEnds parameter
                else parameterDependency linkEnds bodyMap
                       (correctionPartialObjects lightTimeCorrections) parameter)).
    + destruct (isParameterObservationLinkProperty E _); [|apply Hdep].
      unfold linkPropertyDependency. apply bool_decide_eq_true.
    + unfold parameterBlocks. rewrite !elem_of_app. right. right.
      apply list_elem_of_fmap. by exists (index, parameter).
Qed.

(** C6 (as amended).  A single-link call that returns has constructed
    exactly one scaling object, before anything else, of class
    [MutualApproximationScaling] if [isCentralInstantUsedAsObservable] and
    [ModifiedMutualApproximationScaling] otherwise, and returns the pointer
    to it.  Every object constructed after it, and so every block of the
    returned partial list, is a position-coupled partial whose scaler is
    that very pointer, or a link-property partial, which is constructed
    without the scaling object.  A call that throws has failed the
    leg-count check or met a category that is not accepted. *)
Theorem scaling_object_shared
    (linkEnds : LinkEnds) (bodyMap : NamedBodyMap E)
    (parametersToEstimate : EstimatableParameterSet)
    (isCentralInstantUsedAsObservable : bool)
    (lightTimeCorrections : list (list (LightTimeCorrection E)))
    dependentVariablesInterface (s : State E) :
  match createMutualApproximationPartials linkEnds bodyMap parametersToEstimate
          isCentralInstantUsedAsObservable lightTimeCorrections
          dependentVariablesInterface s with
  | (Normal (partials, scaling), s') =>
      scaling = Some (length (heap s))
      ∧ (∃ new,
           heap s' =
             heap s
             ++ ScalingObject
                  (if isCentralInstantUsedAsObservable
                   then MutualApproximationScaling
                   else ModifiedMutualApproximationScaling)
                  dependentVariablesInterface
             :: new
           ∧ Forall (builtOn scaling) new)
      ∧ ∀ range block, partials !! range = Some block →
          ∃ a o, block = Some a ∧ heap s' !! a = Some o ∧ builtOn scaling o
  | (Thrown _, _) =>
      ¬ (length lightTimeCorrections = 0%nat
         ∨ length lightTimeCorrections = 2%nat)
      ∨ forallb acceptedCategory
          (getEstimatedInitialStateParameters parametersToEstimate) = false
  end.
Proof.
  rewrite createMutualApproximationPartials_shape.
  pose proof (assemblePartials_heap singleValued
                (if isCentralInstantUsedAsObservable
                 then MutualApproximationScaling
                 else ModifiedMutualApproximationScaling)
                linkEnds bodyMap parametersToEstimate lightTimeCorrections
                dependentVariablesInterface s singleValued_keepsScaler) as Hheap.
  destruct (assemblePartials _ _ _ _ _ _ _ s) as [[[partials scaling]|e] s']
    eqn:Hrun.
  - destruct Hheap as (Hsc & _ & Hnew & Hblocks). done.
  - destruct (decide (length lightTimeCorrections = 0%nat
                      ∨ length lightTimeCorrections = 2%nat)) as [Hlen|Hlen];
      [|by left].
    right.
    destruct (forallb acceptedCategory _) eqn:Hacc; [|done].
    destruct (assemblePartials_Normal singleValued
                (if isCentralInstantUsedAsObservable
                 then MutualApproximationScaling
                 else ModifiedMutualApproximationScaling)
                linkEnds bodyMap parametersToEstimate lightTimeCorrections
                dependentVariablesInterface s Hlen Hacc)
      as (partials & s'' & Hrun' & _).
    congruence.
Qed.

(** C9 (as amended).  On the same link ends, parameters and correction
    groups, and from the same state, the single-valued and the two-valued
    single-link function make the same checks: either both throw, the same
    error, or both return, each the pointer to the scaling object it has
    constructed first.  When, for every vector parameter that is a link
    property, the link-property constructor has a partial for the one
    observable exactly if it has one for the other, the two partial lists
    have the same index ranges.  The functions differ in the class of the
    partials, in the observation size and observable tag given to the
    link-property constructor, and in the scaling class, which only the
    single-valued function selects by a flag. *)
Theorem observables_in_lock_step
    (linkEnds : LinkEnds) (bodyMap : NamedBodyMap E)
    (parametersToEstimate : EstimatableParameterSet)
    (isCentralInstantUsedAsObservable : bool)
    (lightTimeCorrections : list (list (LightTimeCorrection E)))
    dependentVariablesInterface (s : State E) :
  match createMutualApproximationPartials linkEnds bodyMap parametersToEstimate
          isCentralInstantUsedAsObservable lightTimeCorrections
          dependentVariablesInterface s,
        createMutualApproximationWithImpactParameterPartials linkEnds bodyMap
          parametersToEstimate lightTimeCorrections
          dependentVariablesInterface s with
  | (Normal (partials1, scaling1), _), (Normal (partials2, scaling2), _) =>
      scaling1 = scaling2
      ∧ (linkPropertyConstructorAgrees linkEnds
           (getVectorParameters parametersToEstimate) = true →
         dom partials1 = dom partials2)
  | (Thrown what1, _), (Thrown what2, _) => what1 = what2
  | _, _ => False
  end.
Proof.
  rewrite createMutualApproximationPartials_shape,
    createMutualApproximationWithImpactParameterPartials_shape.
  destruct (decide (length lightTimeCorrections = 0%nat
                    ∨ length lightTimeCorrections = 2%nat)) as [Hlen|Hlen].
  - destruct (forallb acceptedCategory
                (getEstimatedInitialStateParameters parametersToEstimate))
      eqn:Hacc.
    + destruct (assemblePartials_Normal singleValued
                  (if isCentralInstantUsedAsObservable
                   then MutualApproximationScaling
                   else ModifiedMutualApproximationScaling)
                  linkEnds bodyMap parametersToEstimate lightTimeCorrections
                  dependentVariablesInterface s Hlen Hacc)
        as (partials1 & s1 & -> & Hdom1).
      destruct (assemblePartials_Normal twoValued
                  MutualApproximationWithImpactParameterScaling
                  linkEnds bodyMap parametersToEstimate lightTimeCorrections
                  dependentVariablesInterface s Hlen Hacc)
        as (partials2 & s2 & -> & Hdom2).
      split; [done|]. intros Hagree. rewrite Hdom1, Hdom2.
      unfold parameterBlocks.
      by rewrite (vectorBlocks_agree _ _ _ _ Hagree).
    + destruct (assemblePartials_couldNotIdentify singleValued
                  (if isCentralInstantUsedAsObservable
                   then MutualApproximationScaling
                   else ModifiedMutualApproximationScaling)
                  linkEnds bodyMap parametersToEstimate lightTimeCorrections
                  dependentVariablesInterface s Hlen Hacc) as (s1 & ->).
      destruct (assemblePartials_couldNotIdentify twoValued
                  MutualApproximationWithImpactParameterScaling
                  linkEnds bodyMap parametersToEstimate lightTimeCorrections
                  dependentVariablesInterface s Hlen Hacc) as (s2 & ->).
      reflexivity.
  - rewrite !assemblePartials_legCount by done. reflexivity.
Qed.

End Claims.

(** ** The claims on the concrete problem *)

Import Scenario.

Local Abbreviation oneGroup :=
  ([[1%nat]] : list (list (LightTimeCorrection world))).
Local Abbreviation twoGroups :=
  ([[1%nat]; [2%nat]] : list (list (LightTimeCorrection world))).

(** The scenario of the spec: initial states of A (index 0) and B
    (index 6) and a scalar parameter at index 20 without coupling, on a link
    with the roles bound to A, B and A.  The index ranges (0, 6) and (6, 6)
    have a block, (20, 1) has none. *)
Example scenario_index_ranges :
  ∃ partials scaling s',
    createMutualApproximationPartials (E:=world) completeLink bodies
      scenarioParameters true [] None start
    = (Normal (partials, scaling), s')
    ∧ dom partials = {[ (0, 6); (6, 6) ]}.
Proof.
  eexists _, _, _. split; [reflexivity|].
  refine (bool_decide_unpack _ _). vm_compute. exact I.
Qed.

(** The same with two correction groups of one correction each, and with a
    single group. *)
Example scenario_correction_groups :
  (∃ partials scaling s',
     createMutualApproximationPartials (E:=world) completeLink bodies
       scenarioParameters true [[1%nat]; [2%nat]] None start
     = (Normal (partials, scaling), s'))
  ∧ createMutualApproximationPartials (E:=world) completeLink bodies
      scenarioParameters true [[1%nat]] None start
    = (Thrown
         "Error when making mutual approximation partials, light time corrections for 1 links found, instead of 2.",
       start).
Proof.
  split; [|reflexivity]. eexists _, _, _. reflexivity.
Qed.

(** C1, witness: the first of two links has an entry of one correction
    group; the diagnostic is written and the call throws. *)
Lemma allLinkEnds_leg_count_mismatch_witness :
  (for_each (linkEndsIteration (E:=world) bodies scenarioParameters true
               oneGroupForCompleteLink None) [] ∅ start
   = (Normal ∅, start)
   ∧ (completeLink !! receiver ≠ None ∧ completeLink !! transmitter ≠ None
      ∧ completeLink !! transmitter2 ≠ None)
   ∧ oneGroupForCompleteLink !! completeLink = Some oneGroup
   ∧ length oneGroup ≠ 2%nat)
  ∧ createMutualApproximationPartials_allLinkEnds (E:=world)
      ([] ++ completeLink :: [otherCompleteLink])
      bodies scenarioParameters true oneGroupForCompleteLink None start
    = (Thrown (lightTimeCorrectionsMessage 1),
       {| heap := []; cerr := [lightTimeCorrectionsMessage 1] |}).
Proof.
  assert (H1 : for_each (linkEndsIteration (E:=world) bodies scenarioParameters
                          true oneGroupForCompleteLink None) [] ∅ start
               = (Normal ∅, start)) by reflexivity.
  assert (H2 : completeLink !! receiver ≠ None
               ∧ completeLink !! transmitter ≠ None
               ∧ completeLink !! transmitter2 ≠ None)
    by (vm_compute; repeat split; discriminate).
  assert (H3 : oneGroupForCompleteLink !! completeLink = Some oneGroup)
    by (vm_compute; reflexivity).
  assert (H4 : length oneGroup ≠ 2%nat) by (simpl; lia).
  split; [by repeat split|].
  exact (allLinkEnds_leg_count_mismatch (E:=world) bodies scenarioParameters true
           oneGroupForCompleteLink None [] completeLink [otherCompleteLink]
           oneGroup ∅ start start H1 H2 H3 H4).
Defined.

(** C1, counterexample: a batch of two complete links, the second with an
    entry of one correction group.  The diagnostic is written, but the
    second link is not assembled with empty corrections, and no mapping
    comes back for the first: the call throws. *)
Lemma allLinkEnds_leg_count_mismatch_is_fatal :
  oneGroupForCompleteLink !! otherCompleteLink = None
  ∧ oneGroupForCompleteLink !! completeLink = Some oneGroup
  ∧ (createMutualApproximationPartials_allLinkEnds (E:=world)
       [otherCompleteLink; completeLink]
       bodies scenarioParameters true oneGroupForCompleteLink None start).1
    = Thrown
        "Error when making mutual approximation partials, light time corrections for 1 links found, instead of 2."
  ∧ cerr (createMutualApproximationPartials_allLinkEnds (E:=world)
            [otherCompleteLink; completeLink]
            bodies scenarioParameters true oneGroupForCompleteLink None start).2
    = ["Error when making mutual approximation partials, light time corrections for 1 links found, instead of 2."]
  ∧ ¬ ∃ partials s',
        createMutualApproximationPartials_allLinkEnds (E:=world)
          [otherCompleteLink; completeLink]
          bodies scenarioParameters true oneGroupForCompleteLink None start
        = (Normal partials, s').
Proof.
  set (outcome := createMutualApproximationPartials_allLinkEnds _ _ _ _ _ _ _).
  assert (Hthrown : outcome.1 = Thrown
    "Error when making mutual approximation partials, light time corrections for 1 links found, instead of 2.")
    by (vm_compute; reflexivity).
  split_and!; [vm_compute; reflexivity..|exact Hthrown|vm_compute; reflexivity|].
  intros (partials & s' & Hout). rewrite Hout in Hthrown. discriminate.
Qed.

(** C2, witness: two initial states, the second of which gets no block on
    a link that does not involve its body. *)
Lemma initial_state_loop_index_witness :
  (6 * Z.of_nat (length [stateOfA; stateOfB]) ≤ INT_MAX)%Z
  ∧ match for_each (initialDynamicalParameterIteration (E:=world) incompleteLink
                      bodies (Some 0%nat) [])
            [stateOfA; stateOfB] (∅, 0) start with
    | (Normal (_, currentIndex), _) =>
        forallb (acceptedCategory (E:=world)) [stateOfA; stateOfB] = true
        ∧ currentIndex = 6 * Z.of_nat (length [stateOfA; stateOfB])
    | (Thrown _, _) =>
        forallb (acceptedCategory (E:=world)) [stateOfA; stateOfB] = false
    end.
Proof.
  assert (H : (6 * Z.of_nat (length [stateOfA; stateOfB]) ≤ INT_MAX)%Z)
    by (vm_compute; discriminate).
  split; [exact H|].
  exact (initial_state_loop_index (E:=world) incompleteLink bodies (Some 0%nat) []
           [stateOfA; stateOfB] ∅ start H).
Defined.

(** C3, witness: the scenario of the spec with a bias of the single-valued
    observable added.  The ranges of the two initial states and of the bias
    have an entry, the range of the scalar parameter has none. *)
Lemma block_present_iff_dependency_witness :
  ((length (@nil (list (LightTimeCorrection world))) = 0%nat
    ∨ length (@nil (list (LightTimeCorrection world))) = 2%nat)
   ∧ forallb (acceptedCategory (E:=world))
       (getEstimatedInitialStateParameters withBiasOfSingle) = true
   ∧ (6 * Z.of_nat (length (getEstimatedInitialStateParameters withBiasOfSingle))
      ≤ INT_MAX)%Z
   ∧ NoDup (fst <$> parameterBlocks (E:=world) singleValued completeLink bodies
                      (correctionPartialObjects []) withBiasOfSingle))
  ∧ ∃ partials scaling s',
      createMutualApproximationPartials (E:=world) completeLink bodies
        withBiasOfSingle true [] None start
      = (Normal (partials, scaling), s')
      ∧ is_Some (partials !! (0, 6))
      ∧ is_Some (partials !! (6, 6))
      ∧ ¬ is_Some (partials !! (20, 1))
      ∧ is_Some (partials !! (21, 3)).
Proof.
  assert (H1 : length (@nil (list (LightTimeCorrection world))) = 0%nat
               ∨ length (@nil (list (LightTimeCorrection world))) = 2%nat)
    by (left; reflexivity).
  assert (H2 : forallb (acceptedCategory (E:=world))
                 (getEstimatedInitialStateParameters withBiasOfSingle) = true)
    by reflexivity.
  assert (H3 : (6 * Z.of_nat (length (getEstimatedInitialStateParameters
                                         withBiasOfSingle))
                ≤ INT_MAX)%Z)
    by (vm_compute; discriminate).
  assert (H4 : NoDup (fst <$> parameterBlocks (E:=world) singleValued completeLink
                                bodies (correctionPartialObjects [])
                                withBiasOfSingle)).
  { refine (bool_decide_unpack _ _). vm_compute. exact I. }
  split; [by split_and!|].
  destruct (block_present_iff_dependency (E:=world) completeLink bodies
              withBiasOfSingle true [] None start H1 H2 H3 H4)
    as (partials & scaling & s' & Hrun & Hstates & Hdoubles & Hvectors).
  exists partials, scaling, s'. split; [exact Hrun|]. split_and!.
  - apply (Hstates 0%nat stateOfA eq_refl). left. vm_compute. lia.
  - apply (Hstates 1%nat stateOfB eq_refl). left. vm_compute. lia.
  - intros Hblock.
    apply (Hdoubles 20 scalarP) in Hblock as [Hposition|Hcorrection].
    + vm_compute in Hposition. lia.
    + by apply Hcorrection.
    + by left.
  - apply (Hvectors 21 biasOfSingle); [by left|]. by eexists.
Defined.

(** C3, counterexample: for the bias no role-to-position partial is
    produced and no light-time correction contributes, and yet its index
    range has an entry in the partial list. *)
Lemma block_present_without_position_partial :
  createCartesianStatePartialsWrtParameter world completeLink bodies biasOfSingle
  = ∅
  ∧ getNumberOfLighTimeCorrectionPartialsFunctions world
      (getParameterName world biasOfSingle) (correctionPartialObjects [])
    = 0%nat
  ∧ ∃ partials scaling s',
      createMutualApproximationPartials (E:=world) completeLink bodies
        withBiasOfSingle true [] None start
      = (Normal (partials, scaling), s')
      ∧ partials !! (21, getParameterSize world biasOfSingle) = Some (Some 4%nat).
Proof.
  split_and!; [reflexivity..|].
  eexists _, _, _. split; [reflexivity|]. vm_compute. reflexivity.
Qed.

(** C4, witness: the first link has no [transmitter2]. *)
Lemma allLinkEnds_missing_role_witness :
  (for_each (linkEndsIteration (E:=world) bodies scenarioParameters true ∅ None)
     [] ∅ start
   = (Normal ∅, start)
   ∧ (incompleteLink !! receiver = None ∨ incompleteLink !! transmitter = None
      ∨ incompleteLink !! transmitter2 = None))
  ∧ createMutualApproximationPartials_allLinkEnds (E:=world)
      ([] ++ incompleteLink :: [completeLink])
      bodies scenarioParameters true ∅ None start
    = (Thrown
         "Error when making mutual approximation partials, did not find both transmitter, transmitter2 and receiver in link ends",
       start).
Proof.
  assert (H1 : for_each (linkEndsIteration (E:=world) bodies scenarioParameters
                          true ∅ None) [] ∅ start
               = (Normal ∅, start)) by reflexivity.
  assert (H2 : incompleteLink !! receiver = None
               ∨ incompleteLink !! transmitter = None
               ∨ incompleteLink !! transmitter2 = None)
    by (right; right; vm_compute; reflexivity).
  split; [by split|].
  exact (allLinkEnds_missing_role (E:=world) bodies scenarioParameters true ∅ None
           [] incompleteLink [completeLink] ∅ start start H1 H2).
Defined.

(** C4, counterexample: the single-link function, called on a link without
    [transmitter2], returns: with no parameter to estimate, the empty
    partial list and a scaling object; with the parameters of the scenario,
    a partial list with a block for the state of A. *)
Lemma single_link_checks_no_role :
  incompleteLink !! transmitter2 = None
  ∧ createMutualApproximationPartials (E:=world) incompleteLink bodies
      noParameters true [] None start
    = (Normal (∅, Some 0%nat),
       {| heap := [ScalingObject (E:=world) MutualApproximationScaling None];
          cerr := [] |})
  ∧ ∃ partials s',
      createMutualApproximationPartials (E:=world) incompleteLink bodies
        scenarioParameters true [] None start
      = (Normal (partials, Some 0%nat), s')
      ∧ is_Some (partials !! (0, 6)).
Proof.
  split; [vm_compute; reflexivity|]. split; [reflexivity|].
  eexists _, _. split; [reflexivity|].
  refine (bool_decide_unpack _ _). vm_compute. exact I.
Qed.

(** C5, witness: one correction group. *)
Lemma single_link_leg_count_witness :
  (length oneGroup ≠ 0%nat ∧ length oneGroup ≠ 2%nat)
  ∧ createMutualApproximationPartials (E:=world) completeLink bodies
      scenarioParameters true oneGroup None start
    = (Thrown (lightTimeCorrectionsMessage (length oneGroup)), start).
Proof.
  assert (H0 : length oneGroup ≠ 0%nat) by (simpl; lia).
  assert (H2 : length oneGroup ≠ 2%nat) by (simpl; lia).
  split; [by split|].
  exact (single_link_leg_count (E:=world) completeLink bodies scenarioParameters
           true oneGroup None start H0 H2).
Defined.

(** C5, counterexample: the empty list of correction groups has a size
    other than 2, and the single-link function returns. *)
Lemma single_link_accepts_no_corrections :
  length (@nil (list (LightTimeCorrection world))) ≠ 2%nat
  ∧ ∃ partials scaling s',
      createMutualApproximationPartials (E:=world) completeLink bodies
        scenarioParameters true [] None start
      = (Normal (partials, scaling), s').
Proof.
  split; [simpl; lia|]. eexists _, _, _. reflexivity.
Qed.

(** C6, counterexample: the block of the bias is a link-property partial;
    it holds no scaling object, the one of the call included. *)
Lemma link_property_block_has_no_scaling :
  ∃ partials scaling s' a (o : HeapObject world),
    createMutualApproximationPartials (E:=world) completeLink bodies
      withBiasOfSingle true [] None start
    = (Normal (partials, scaling), s')
    ∧ partials !! (21, 3) = Some (Some a)
    ∧ heap s' !! a = Some o
    ∧ o = ObservationPartialWrtLinkProperty (E:=world) 1 mutual_approximation
    ∧ ¬ scaledBy scaling o.
Proof.
  eexists _, _, _, 4%nat, _. split; [reflexivity|].
  split; [vm_compute; reflexivity|].
  split; [vm_compute; reflexivity|].
  split; [reflexivity|]. intros [].
Qed.

(** C7, counterexample: a scalar parameter that is a link property, and for
    which the link-property constructor has a partial, gets no block: the
    loop over the scalar parameters has taken the position-coupled path, on
    which the parameter has no dependency. *)
Lemma scalar_link_property_not_dispatched :
  isParameterObservationLinkProperty world (getParameterName world scalarBias).1
  = true
  ∧ is_Some (createObservationPartialWrtLinkProperty world 1 completeLink
               mutual_approximation scalarBias)
  ∧ ∃ partials scaling s',
      createMutualApproximationPartials (E:=world) completeLink bodies
        withScalarBias true [] None start
      = (Normal (partials, scaling), s')
      ∧ partials !! (24, 1) = None
      ∧ ∀ p, ObservationPartialWrtLinkProperty (E:=world) 1 p ∉ heap s'.
Proof.
  split; [reflexivity|]. split; [by eexists|].
  eexists _, _, _. split; [reflexivity|]. split; [vm_compute; reflexivity|].
  intros p Hin. vm_compute in Hin.
  repeat (apply elem_of_cons in Hin as [Hin|Hin]; [discriminate|]).
  by apply elem_of_nil in Hin.
Qed.

(** C8, witness: the second initial-state parameter is a rotational state;
    the call throws. *)
Lemma initial_state_category_witness :
  (length (@nil (list (LightTimeCorrection world))) = 0%nat
   ∨ length (@nil (list (LightTimeCorrection world))) = 2%nat)
  ∧ ∃ s',
      createMutualApproximationPartials (E:=world) completeLink bodies
        withRotation true [] None start
      = (Thrown
           "Error when making mutual approximation partials, could not identify parameter",
         s').
Proof.
  assert (H : length (@nil (list (LightTimeCorrection world))) = 0%nat
              ∨ length (@nil (list (LightTimeCorrection world))) = 2%nat)
    by (left; reflexivity).
  split; [exact H|].
  destruct (initial_state_category (E:=world) completeLink bodies withRotation
              true [] None start H) as [[[Hall _]|[_ Hthrown]] _].
  - exfalso. apply Forall_cons in Hall as [_ Hall].
    apply Forall_cons in Hall as [[Hrot|Hrot] _]; discriminate Hrot.
  - exact Hthrown.
Defined.

(** C8, counterexample: the second initial-state parameter is a rotational
    state, and there are three correction groups.  The call throws the
    leg-count error, made before the loop, and not "could not identify
    parameter". *)
Lemma unidentified_parameter_after_leg_count :
  rotationOfA ∈ getEstimatedInitialStateParameters withRotation
  ∧ (getParameterName world rotationOfA).1 ≠ initial_body_state
  ∧ (getParameterName world rotationOfA).1 ≠ arc_wise_initial_body_state
  ∧ createMutualApproximationPartials (E:=world) completeLink bodies
      withRotation true [[1%nat]; [2%nat]; [3%nat]] None start
    = (Thrown
         "Error when making mutual approximation partials, light time corrections for 3 links found, instead of 2.",
       start)
  ∧ ¬ ∃ s',
        createMutualApproximationPartials (E:=world) completeLink bodies
          withRotation true [[1%nat]; [2%nat]; [3%nat]] None start
        = (Thrown
             "Error when making mutual approximation partials, could not identify parameter",
           s').
Proof.
  assert (Hthrown :
    createMutualApproximationPartials (E:=world) completeLink bodies
      withRotation true [[1%nat]; [2%nat]; [3%nat]] None start
    = (Thrown
         "Error when making mutual approximation partials, light time corrections for 3 links found, instead of 2.",
       start)) by reflexivity.
  split_and!; [|discriminate|discriminate|exact Hthrown|].
  - unfold withRotation. cbn [getEstimatedInitialStateParameters].
    apply elem_of_cons. right. apply elem_of_cons. by left.
  - intros (s' & Hother). rewrite Hthrown in Hother. discriminate Hother.
Qed.

(** C9, witness: with a bias that has a partial for both observables the
    two functions insert the same index ranges. *)
Lemma observables_in_lock_step_witness :
  linkPropertyConstructorAgrees (E:=world) completeLink
    (getVectorParameters withBiasOfBoth) = true
  ∧ ∃ partials1 scaling s1 partials2 s2,
      createMutualApproximationPartials (E:=world) completeLink bodies
        withBiasOfBoth false twoGroups None start
      = (Normal (partials1, scaling), s1)
      ∧ createMutualApproximationWithImpactParameterPartials (E:=world)
          completeLink bodies withBiasOfBoth twoGroups None start
        = (Normal (partials2, scaling), s2)
      ∧ dom partials1 = dom partials2.
Proof.
  assert (H : linkPropertyConstructorAgrees (E:=world) completeLink
                (getVectorParameters withBiasOfBoth) = true)
    by (vm_compute; reflexivity).
  split; [exact H|].
  assert (∃ partials1 scaling1 s1,
            createMutualApproximationPartials (E:=world) completeLink bodies
              withBiasOfBoth false twoGroups None start
            = (Normal (partials1, scaling1), s1))
    as (partials1 & scaling1 & s1 & Hrun1) by (eexists _, _, _; reflexivity).
  assert (∃ partials2 scaling2 s2,
            createMutualApproximationWithImpactParameterPartials (E:=world)
              completeLink bodies withBiasOfBoth twoGroups None start
            = (Normal (partials2, scaling2), s2))
    as (partials2 & scaling2 & s2 & Hrun2) by (eexists _, _, _; reflexivity).
  pose proof (observables_in_lock_step (E:=world) completeLink bodies
                withBiasOfBoth false twoGroups None start) as Hstep.
  rewrite Hrun1, Hrun2 in Hstep. destruct Hstep as [<- Hdom].
  exists partials1, scaling1, s1, partials2, s2.
  split_and!; [exact Hrun1|exact Hrun2|exact (Hdom H)].
Defined.

(** C9, counterexample: with a bias of the single-valued observable the
    single-valued function inserts a block at the bias' index range and the
    two-valued function does not. *)
Lemma observables_differ_on_link_property :
  ∃ partials1 scaling1 s1 partials2 scaling2 s2,
    createMutualApproximationPartials (E:=world) completeLink bodies
      withBiasOfSingle true [] None start
    = (Normal (partials1, scaling1), s1)
    ∧ createMutualApproximationWithImpactParameterPartials (E:=world)
        completeLink bodies withBiasOfSingle [] None start
      = (Normal (partials2, scaling2), s2)
    ∧ is_Some (partials1 !! (21, 3))
    ∧ partials2 !! (21, 3) = None
    ∧ dom partials1 ≠ dom partials2.
Proof.
  eexists _, _, _, _, _, _. split; [reflexivity|]. split; [reflexivity|].
  match goal with |- is_Some (?m1 !! ?k) ∧ ?m2 !! _ = None ∧ _ =>
    assert (H1 : is_Some (m1 !! k))
      by (refine (bool_decide_unpack _ _); vm_compute; exact I);
    assert (H2 : m2 !! k = None) by (vm_compute; reflexivity)
  end.
  split_and!; [exact H1|exact H2|].
  intros Hdom. apply elem_of_dom in H1. rewrite Hdom in H1.
  apply elem_of_dom in H1. rewrite H2 in H1. by destruct H1.
Qed.

(** C10, witness: no parameters, two correction groups. *)
Lemma single_link_no_parameters_witness :
  (length twoGroups = 0%nat ∨ length twoGroups = 2%nat)
  ∧ createMutualApproximationPartials (E:=world) completeLink bodies
      noParameters false twoGroups (Some tt) start
    = (Normal (∅, Some 0%nat),
       {| heap := [ScalingObject (E:=world) ModifiedMutualApproximationScaling (Some tt)];
          cerr := [] |}).
Proof.
  assert (H : length twoGroups = 0%nat ∨ length twoGroups = 2%nat)
    by (right; reflexivity).
  split; [exact H|].
  exact (proj1 (single_link_no_parameters (E:=world) completeLink bodies false
                  twoGroups (Some tt) start H)).
Defined.

(** C10, counterexample: no parameter to estimate and one correction group;
    the call throws the leg-count error and returns nothing. *)
Lemma single_link_no_parameters_one_group :
  getEstimatedInitialStateParameters noParameters = []
  ∧ getDoubleParameters noParameters = []
  ∧ getVectorParameters noParameters = []
  ∧ createMutualApproximationPartials (E:=world) completeLink bodies
      noParameters true oneGroup None start
    = (Thrown
         "Error when making mutual approximation partials, light time corrections for 1 links found, instead of 2.",
       start)
  ∧ ¬ ∃ partials scaling s',
        createMutualApproximationPartials (E:=world) completeLink bodies
          noParameters true oneGroup None start
        = (Normal (partials, scaling), s').
Proof.
  assert (Hthrown :
    createMutualApproximationPartials (E:=world) completeLink bodies
      noParameters true oneGroup None start
    = (Thrown
         "Error when making mutual approximation partials, light time corrections for 1 links found, instead of 2.",
       start)) by reflexivity.
  split_and!; [reflexivity..|exact Hthrown|].
  intros (partials & scaling & s' & Hreturns).
  rewrite Hthrown in Hreturns. discriminate Hreturns.
Qed.

(** ** Further properties: the all-link-ends functions *)

Section AllLinkEndsShapeFacts.
Context {E : Externals}.

(** One iteration: the role check, the diagnostic, the single-link call. *)
Lemma assembleLinkEnds_eq (missingRoles : string) (diagnostic : nat → string)
    (assembleLink :
       LinkEnds → list (list (LightTimeCorrection E)) →
       Exec E (BlockMap * option nat))
    (lightTimeCorrections : gmap LinkEnds (list (list (LightTimeCorrection E))))
    (linkEnds_i : LinkEnds) (assembled : gmap LinkEnds (BlockMap * option nat))
    (s : State E) :
  assembleLinkEnds missingRoles diagnostic assembleLink lightTimeCorrections
    linkEnds_i assembled s
  = if linkEndsComplete linkEnds_i
    then match assembleLink linkEnds_i
                 (correctionsOf lightTimeCorrections linkEnds_i)
                 (diagnosedState diagnostic lightTimeCorrections linkEnds_i s) with
         | (Normal partialsOfLink, s') =>
             (Normal (<[linkEnds_i := partialsOfLink]> assembled), s')
         | (Thrown e, s') => (Thrown e, s')
         end
    else (Thrown missingRoles, s).
Proof.
  unfold assembleLinkEnds, linkEndsComplete, correctionsOf, diagnosedState.
  destruct (_ || _ || _); cbn [negb]; [reflexivity|].
  unfold Exec_bind at 1 2. cbn [Exec_ret].
  destruct (lightTimeCorrections !! linkEnds_i) as [c|]; cbn [default].
  - unfold Exec_bind at 1 2.
    destruct (bool_decide (length c ≠ 2%nat)); unfold cerr_endl, Exec_ret;
      unfold Exec_bind;
      by destruct (assembleLink _ _ _) as [[r|e] s'].
  - unfold Exec_bind, Exec_ret.
    by destruct (assembleLink _ _ _) as [[r|e] s'].
Qed.

Lemma assembleLinkEnds_ext (missingRoles : string) (diagnostic : nat → string)
    (assembleLink1 assembleLink2 :
       LinkEnds → list (list (LightTimeCorrection E)) →
       Exec E (BlockMap * option nat))
    (lightTimeCorrections : gmap LinkEnds (list (list (LightTimeCorrection E))))
    (linkEnds_i : LinkEnds) (assembled : gmap LinkEnds (BlockMap * option nat))
    (s : State E) :
  (∀ l c t, assembleLink1 l c t = assembleLink2 l c t) →
  assembleLinkEnds missingRoles diagnostic assembleLink1 lightTimeCorrections
    linkEnds_i assembled s
  = assembleLinkEnds missingRoles diagnostic assembleLink2 lightTimeCorrections
      linkEnds_i assembled s.
Proof.
  intros Hext. by rewrite !assembleLinkEnds_eq, Hext.
Qed.

Lemma linkEndsIteration_shape (bodyMap : NamedBodyMap E)
    (parametersToEstimate : EstimatableParameterSet)
    (isCentralInstantUsedAsObservable : bool)
    (lightTimeCorrections : gmap LinkEnds (list (list (LightTimeCorrection E))))
    (dependentVariablesInterface : option (DependentVariablesInterface E))
    (linkEnds_i : LinkEnds) (assembled : gmap LinkEnds (BlockMap * option nat))
    (s : State E) :
  linkEndsIteration bodyMap parametersToEstimate
    isCentralInstantUsedAsObservable lightTimeCorrections
    dependentVariablesInterface linkEnds_i assembled s
  = assembleLinkEnds missingRolesMessage lightTimeCorrectionsMessage
      (λ l c, assemblePartials singleValued
                (if isCentralInstantUsedAsObservable
                 then MutualApproximationScaling
                 else ModifiedMutualApproximationScaling)
                l bodyMap parametersToEstimate c dependentVariablesInterface)
      lightTimeCorrections linkEnds_i assembled s.
Proof.
  change (linkEndsIteration bodyMap parametersToEstimate
            isCentralInstantUsedAsObservable lightTimeCorrections
            dependentVariablesInterface linkEnds_i assembled s)
    with (assembleLinkEnds missingRolesMessage lightTimeCorrectionsMessage
            (λ l c, createMutualApproximationPartials l bodyMap
                      parametersToEstimate isCentralInstantUsedAsObservable c
                      dependentVariablesInterface)
            lightTimeCorrections linkEnds_i assembled s).
  apply assembleLinkEnds_ext. intros l c t.
  apply createMutualApproximationPartials_shape.
Qed.

Lemma linkEndsIterationWithImpactParameter_shape (bodyMap : NamedBodyMap E)
    (parametersToEstimate : EstimatableParameterSet)
    (lightTimeCorrections : gmap LinkEnds (list (list (LightTimeCorrection E))))
    (dependentVariablesInterface : option (DependentVariablesInterface E))
    (linkEnds_i : LinkEnds) (assembled : gmap LinkEnds (BlockMap * option nat))
    (s : State E) :
  linkEndsIterationWithImpactParameter bodyMap parametersToEstimate
    lightTimeCorrections dependentVariablesInterface linkEnds_i assembled s
  = assembleLinkEnds missingRolesMessageWithImpactParameter
      diagnosticWithImpactParameter
      (λ l c, assemblePartials twoValued
                MutualApproximationWithImpactParameterScaling
                l bodyMap parametersToEstimate c dependentVariablesInterface)
      lightTimeCorrections linkEnds_i assembled s.
Proof.
  change (linkEndsIterationWithImpactParameter bodyMap parametersToEstimate
            lightTimeCorrections dependentVariablesInterface linkEnds_i
            assembled s)
    with (assembleLinkEnds missingRolesMessageWithImpactParameter
            diagnosticWithImpactParameter
            (λ l c, createMutualApproximationWithImpactParameterPartials l
                      bodyMap parametersToEstimate c
                      dependentVariablesInterface)
            lightTimeCorrections linkEnds_i assembled s).
  apply assembleLinkEnds_ext. intros l c t.
  apply createMutualApproximationWithImpactParameterPartials_shape.
Qed.

End AllLinkEndsShapeFacts.

Section AllLinkEndsFacts.
Context {E : Externals}.
Variable missingRoles : string.
Variable diagnostic : nat → string.
Variable V : ObservableVariant (E:=E).
Variable scalingClass : ScalingClass.
Variable bodyMap : NamedBodyMap E.
Variable parametersToEstimate : EstimatableParameterSet (E:=E).
Variable lightTimeCorrections : gmap LinkEnds (list (list (LightTimeCorrection E))).
Variable dependentVariablesInterface : option (DependentVariablesInterface E).
Hypothesis HV : keepsScaler V.

Local Abbreviation step :=
  (assembleLinkEnds missingRoles diagnostic
     (λ l c, assemblePartials V scalingClass l bodyMap parametersToEstimate c
               dependentVariablesInterface)
     lightTimeCorrections).
Local Abbreviation categoriesAccepted :=
  (forallb acceptedCategory
     (getEstimatedInitialStateParameters parametersToEstimate)).

Lemma legCountFits_true {A} (corrections : list A) :
  legCountFits corrections = true
  ↔ length corrections = 0%nat ∨ length corrections = 2%nat.
Proof. apply bool_decide_eq_true. Qed.

Lemma diagnosedState_heap linkEnds_i (s : State E) :
  heap (diagnosedState diagnostic lightTimeCorrections linkEnds_i s) = heap s.
Proof.
  unfold diagnosedState.
  destruct (lightTimeCorrections !! linkEnds_i) as [c|]; [|reflexivity].
  by destruct (bool_decide _).
Qed.

Lemma diagnosedState_cerr linkEnds_i (s : State E) :
  legCountFits (correctionsOf lightTimeCorrections linkEnds_i) = true →
  cerr (diagnosedState diagnostic lightTimeCorrections linkEnds_i s)
  = cerr s ++ match lightTimeCorrections !! linkEnds_i with
              | Some [] => [diagnostic 0%nat]
              | _ => []
              end.
Proof.
  unfold diagnosedState, correctionsOf. rewrite legCountFits_true.
  destruct (lightTimeCorrections !! linkEnds_i) as [c|]; cbn [default];
    [|by rewrite app_nil_r].
  destruct c as [|c0 [|c1 [|c2 c]]]; simpl; intros [?|?]; try done.
  by rewrite app_nil_r.
Qed.

(** What a single-link call that returns has done. *)
Lemma assemblePartials_returns linkEnds corrections (s : State E) :
  legCountFits corrections = true → categoriesAccepted = true →
  ∃ partials s' new,
    assemblePartials V scalingClass linkEnds bodyMap parametersToEstimate
      corrections dependentVariablesInterface s
    = (Normal (partials, Some (length (heap s))), s')
    ∧ cerr s' = cerr s
    ∧ heap s' = heap s
                ++ ScalingObject scalingClass dependentVariablesInterface :: new
    ∧ Forall (builtOn (Some (length (heap s)))) new
    ∧ ∀ k ptr, partials !! k = Some ptr →
        ∃ a o, ptr = Some a ∧ heap s' !! a = Some o
               ∧ builtOn (Some (length (heap s))) o.
Proof.
  intros Hlen Hacc. apply legCountFits_true in Hlen.
  destruct (assemblePartials_Normal V scalingClass linkEnds bodyMap
              parametersToEstimate corrections dependentVariablesInterface s
              Hlen Hacc) as (partials & s' & Hrun & _).
  pose proof (assemblePartials_heap V scalingClass linkEnds bodyMap
                parametersToEstimate corrections dependentVariablesInterface s
                HV) as Hheap.
  rewrite Hrun in Hheap. destruct Hheap as (_ & Hc & (new & Hh & Hnew) & Hb).
  by exists partials, s', new.
Qed.

(** The loop over the links, from any map and state. *)
Lemma assembleLinkEnds_loop (linkEnds : list LinkEnds) :
  ∀ (assembled : gmap LinkEnds (BlockMap * option nat)) (s : State E),
  match for_each step linkEnds assembled s with
  | (Normal partials, s') =>
      forallb (linkAccepted lightTimeCorrections) linkEnds = true
      ∧ (linkEnds = [] ∨ categoriesAccepted = true)
      ∧ dom partials = dom assembled ∪ list_to_set linkEnds
      ∧ cerr s' = cerr s
                  ++ emptyEntryDiagnostics diagnostic lightTimeCorrections linkEnds
  | (Thrown what, _) =>
      (forallb (linkAccepted lightTimeCorrections) linkEnds = false
       ∨ (linkEnds ≠ [] ∧ categoriesAccepted = false))
      ∧ (what = missingRoles
         ∨ (∃ n, what = lightTimeCorrectionsMessage n)
         ∨ what = couldNotIdentifyMessage)
  end.
Proof.
  induction linkEnds as [|l ls IH]; intros assembled s.
  - simpl. split_and!; [done|by left|set_solver|by rewrite app_nil_r].
  - cbn [for_each forallb]. unfold Exec_bind, linkAccepted at 1 3.
    rewrite assembleLinkEnds_eq.
    destruct (linkEndsComplete l); cbn [andb];
      [|split; [by left|by left]].
    destruct (legCountFits (correctionsOf lightTimeCorrections l)) eqn:Hlen;
      cbn [andb].
    + destruct categoriesAccepted eqn:Hacc.
      * destruct (assemblePartials_returns l
                    (correctionsOf lightTimeCorrections l)
                    (diagnosedState diagnostic lightTimeCorrections l s)
                    Hlen Hacc)
          as (partials & s' & new & -> & Hc & _).
        specialize (IH (<[l := (partials,
                                Some (length (heap (diagnosedState diagnostic
                                        lightTimeCorrections l s))))]> assembled)
                       s').
        destruct (for_each _ ls _ s') as [[m|e] s''].
        -- destruct IH as (Hls & _ & Hdom & Hcerr).
           split_and!; [done|by right| |].
           ++ rewrite Hdom, dom_insert_L. set_solver.
           ++ rewrite Hcerr, Hc, (diagnosedState_cerr l s Hlen).
              unfold emptyEntryDiagnostics. cbn [flat_map].
              by rewrite app_assoc.
        -- destruct IH as [[Hls|[_ Hno]] Hwhat]; [|congruence].
           split; [by left|done].
      * apply legCountFits_true in Hlen.
        destruct (assemblePartials_couldNotIdentify V scalingClass l bodyMap
                    parametersToEstimate (correctionsOf lightTimeCorrections l)
                    dependentVariablesInterface
                    (diagnosedState diagnostic lightTimeCorrections l s)
                    Hlen Hacc) as (s' & ->).
        split; [by right|]. by right; right.
    + rewrite assemblePartials_legCount.
      * split; [by left|]. right; left. by eexists.
      * intros Hfits. apply legCountFits_true in Hfits. congruence.
Qed.

Lemma assembleLinkEnds_separate (linkEnds : list LinkEnds)
    (assembled : gmap LinkEnds (BlockMap * option nat)) (s : State E) :
  linksSeparate scalingClass dependentVariablesInterface assembled s →
  match for_each step linkEnds assembled s with
  | (Normal partials, s') =>
      linksSeparate scalingClass dependentVariablesInterface partials s'
  | (Thrown _, _) => True
  end.
Proof.
  apply (for_each_invariant
           (linksSeparate scalingClass dependentVariablesInterface)
           (λ _ _, True)).
  clear assembled s. intros l assembled s _ [Hentries Hdistinct].
  rewrite assembleLinkEnds_eq.
  destruct (linkEndsComplete l); [|done].
  destruct (legCountFits (correctionsOf lightTimeCorrections l)) eqn:Hlen.
  - destruct categoriesAccepted eqn:Hacc.
    + destruct (assemblePartials_returns l
                  (correctionsOf lightTimeCorrections l)
                  (diagnosedState diagnostic lightTimeCorrections l s)
                  Hlen Hacc)
        as (partials & s' & new & -> & Hc & Hheap & Hnew & Hblocks).
      rewrite diagnosedState_heap in *.
      assert (Hkeep : ∀ a o, heap s !! a = Some o → heap s' !! a = Some o).
      { intros a o Ha. rewrite Hheap. rewrite lookup_app_l; [done|].
        by eapply lookup_lt_Some. }
      split.
      * intros l' partials' scaling' Hl'.
        destruct (decide (l = l')) as [<-|Hne].
        -- rewrite lookup_insert_eq in Hl'. injection Hl' as <- <-.
           split; [|exact Hblocks].
           exists (length (heap s)). split; [done|].
           rewrite Hheap, lookup_app_r by lia. by rewrite Nat.sub_diag.
        -- rewrite lookup_insert_ne in Hl' by done.
           destruct (Hentries _ _ _ Hl') as [(a & -> & Ha) Hb].
           split; [by eauto|].
           intros k ptr Hk. destruct (Hb k ptr Hk) as (a' & o & -> & Ha' & Ho).
           by eauto 6.
      * assert (Hfresh : ∀ l' entry, assembled !! l' = Some entry →
                  entry.2 ≠ Some (length (heap s))).
        { intros l' [partials' scaling'] Hl' Heq. simpl in Heq. subst.
          destruct (Hentries _ _ _ Hl') as [(a & Ha & Hlook) _].
          injection Ha as <-. apply lookup_lt_Some in Hlook. lia. }
        intros l1 l2 entry1 entry2 Hne H1 H2.
        destruct (decide (l = l1)) as [<-|Hne1].
        -- rewrite lookup_insert_eq in H1. injection H1 as <-.
           rewrite lookup_insert_ne in H2 by done.
           simpl. intros Heq. by apply (Hfresh _ _ H2).
        -- rewrite lookup_insert_ne in H1 by done.
           destruct (decide (l = l2)) as [<-|Hne2].
           ++ rewrite lookup_insert_eq in H2. injection H2 as <-.
              simpl. by apply (Hfresh _ _ H1).
           ++ rewrite lookup_insert_ne in H2 by done.
              exact (Hdistinct _ _ _ _ Hne H1 H2).
    + apply legCountFits_true in Hlen.
      by destruct (assemblePartials_couldNotIdentify V scalingClass l bodyMap
                     parametersToEstimate (correctionsOf lightTimeCorrections l)
                     dependentVariablesInterface
                     (diagnosedState diagnostic lightTimeCorrections l s)
                     Hlen Hacc) as (s' & ->).
  - rewrite assemblePartials_legCount; [done|].
    intros Hfits. apply legCountFits_true in Hfits. congruence.
Qed.

Lemma assembleLinkEnds_returns_iff (linkEnds : list LinkEnds) (s : State E) :
  (∃ partials s', for_each step linkEnds ∅ s = (Normal partials, s'))
  ↔ forallb (linkAccepted lightTimeCorrections) linkEnds = true
    ∧ (linkEnds = [] ∨ categoriesAccepted = true).
Proof.
  pose proof (assembleLinkEnds_loop linkEnds ∅ s) as Hloop.
  destruct (for_each _ linkEnds ∅ s) as [[m|e] s'].
  - destruct Hloop as (Hlinks & Hcat & _). split; [done|]. by eexists _, _.
  - destruct Hloop as [Hfail _]. split.
    + by intros (m & s'' & [=]).
    + intros [Hlinks Hcat]. exfalso.
      destruct Hfail as [Hfail|[Hne Hfail]]; [congruence|].
      destruct Hcat; [done|congruence].
Qed.

End AllLinkEndsFacts.

Section AllLinkEndsProperties.
Context {E : Externals}.

Lemma linkAccepted_true
    (lightTimeCorrections : gmap LinkEnds (list (list (LightTimeCorrection E))))
    (linkEnds : LinkEnds) :
  linkAccepted lightTimeCorrections linkEnds = true
  ↔ (linkEnds !! receiver ≠ None ∧ linkEnds !! transmitter ≠ None
     ∧ linkEnds !! transmitter2 ≠ None)
    ∧ ∀ corrections, lightTimeCorrections !! linkEnds = Some corrections →
        length corrections = 0%nat ∨ length corrections = 2%nat.
Proof.
  unfold linkAccepted, linkEndsComplete, correctionsOf.
  rewrite andb_true_iff, negb_true_iff, !orb_false_iff, !bool_decide_eq_false.
  rewrite legCountFits_true.
  destruct (lightTimeCorrections !! linkEnds) as [c|]; cbn [default].
  - split.
    + intros [[[? ?] ?] Hc]. split; [done|]. by intros c' [= <-].
    + intros [(? & ? & ?) Hc]. split; [done|]. by apply Hc.
  - split.
    + intros [[[? ?] ?] _]. split; [done|]. by intros c' [=].
    + intros [(? & ? & ?) _]. split; [done|]. by left.
Qed.

Lemma acceptedCategory_true (parameter : EstimatableParameter E) :
  acceptedCategory parameter = true
  ↔ (getParameterName E parameter).1 = initial_body_state
    ∨ (getParameterName E parameter).1 = arc_wise_initial_body_state.
Proof.
  unfold acceptedCategory. by rewrite orb_true_iff, !bool_decide_eq_true.
Qed.

Lemma allLinkEnds_shape (linkEnds : list LinkEnds) (bodyMap : NamedBodyMap E)
    (parametersToEstimate : EstimatableParameterSet)
    (isCentralInstantUsedAsObservable : bool)
    (lightTimeCorrections : gmap LinkEnds (list (list (LightTimeCorrection E))))
    (dependentVariablesInterface : option (DependentVariablesInterface E))
    (s : State E) :
  createMutualApproximationPartials_allLinkEnds linkEnds bodyMap
    parametersToEstimate isCentralInstantUsedAsObservable lightTimeCorrections
    dependentVariablesInterface s
  = for_each
      (assembleLinkEnds missingRolesMessage lightTimeCorrectionsMessage
         (λ l c, assemblePartials singleValued
                   (if isCentralInstantUsedAsObservable
                    then MutualApproximationScaling
                    else ModifiedMutualApproximationScaling)
                   l bodyMap parametersToEstimate c dependentVariablesInterface)
         lightTimeCorrections)
      linkEnds ∅ s.
Proof.
  apply for_each_ext. intros l assembled t _. apply linkEndsIteration_shape.
Qed.

Lemma allLinkEndsWithImpactParameter_shape (linkEnds : list LinkEnds)
    (bodyMap : NamedBodyMap E)
    (parametersToEstimate : EstimatableParameterSet)
    (lightTimeCorrections : gmap LinkEnds (list (list (LightTimeCorrection E))))
    (dependentVariablesInterface : option (DependentVariablesInterface E))
    (s : State E) :
  createMutualApproximationWithImpactParameterPartials_allLinkEnds linkEnds
    bodyMap parametersToEstimate lightTimeCorrections
    dependentVariablesInterface s
  = for_each
      (assembleLinkEnds missingRolesMessageWithImpactParameter
         diagnosticWithImpactParameter
         (λ l c, assemblePartials twoValued
                   MutualApproximationWithImpactParameterScaling
                   l bodyMap parametersToEstimate c dependentVariablesInterface)
         lightTimeCorrections)
      linkEnds ∅ s.
Proof.
  apply for_each_ext. intros l assembled t _.
  apply linkEndsIterationWithImpactParameter_shape.
Qed.

(** The condition under which an all-link-ends function returns. *)
Lemma allLinkEnds_condition
    (lightTimeCorrections : gmap LinkEnds (list (list (LightTimeCorrection E))))
    (parametersToEstimate : EstimatableParameterSet) (linkEnds : list LinkEnds) :
  forallb (linkAccepted lightTimeCorrections) linkEnds = true
  ∧ (linkEnds = []
     ∨ forallb acceptedCategory
         (getEstimatedInitialStateParameters parametersToEstimate) = true)
  ↔ (∀ l, l ∈ linkEnds →
       (l !! receiver ≠ None ∧ l !! transmitter ≠ None
        ∧ l !! transmitter2 ≠ None)
       ∧ ∀ corrections, lightTimeCorrections !! l = Some corrections →
           length corrections = 0%nat ∨ length corrections = 2%nat)
    ∧ (linkEnds = []
       ∨ ∀ parameter,
           parameter ∈ getEstimatedInitialStateParameters parametersToEstimate →
           (getParameterName E parameter).1 = initial_body_state
           ∨ (getParameterName E parameter).1 = arc_wise_initial_body_state).
Proof.
  rewrite !forallb_forall.
  setoid_rewrite <- list_elem_of_In.
  setoid_rewrite linkAccepted_true.
  setoid_rewrite acceptedCategory_true.
  reflexivity.
Qed.

(** X1.  The all-link-ends function of the single-valued observable returns
    a mapping exactly when every link has the three roles and, if it has an
    entry in the correction map, an entry of 0 or 2 groups, and (unless
    there is no link at all) every initial-state parameter has an accepted
    category. *)
Theorem allLinkEnds_returns_iff
    (linkEnds : list LinkEnds) (bodyMap : NamedBodyMap E)
    (parametersToEstimate : EstimatableParameterSet)
    (isCentralInstantUsedAsObservable : bool)
    (lightTimeCorrections : gmap LinkEnds (list (list (LightTimeCorrection E))))
    (dependentVariablesInterface : option (DependentVariablesInterface E))
    (s : State E) :
  (∃ partials s',
     createMutualApproximationPartials_allLinkEnds linkEnds bodyMap
       parametersToEstimate isCentralInstantUsedAsObservable
       lightTimeCorrections dependentVariablesInterface s
     = (Normal partials, s'))
  ↔ (∀ l, l ∈ linkEnds →
       (l !! receiver ≠ None ∧ l !! transmitter ≠ None
        ∧ l !! transmitter2 ≠ None)
       ∧ ∀ corrections, lightTimeCorrections !! l = Some corrections →
           length corrections = 0%nat ∨ length corrections = 2%nat)
    ∧ (linkEnds = []
       ∨ ∀ parameter,
           parameter ∈ getEstimatedInitialStateParameters parametersToEstimate →
           (getParameterName E parameter).1 = initial_body_state
           ∨ (getParameterName E parameter).1 = arc_wise_initial_body_state).
Proof.
  rewrite <- allLinkEnds_condition, allLinkEnds_shape.
  apply assembleLinkEnds_returns_iff, singleValued_keepsScaler.
Qed.

End AllLinkEndsProperties.

Section AllLinkEndsProperties2.
Context {E : Externals}.

(** X2.  A mapping returned by the all-link-ends function of the
    single-valued observable has exactly the links of the list as keys (a
    link given twice has one entry), and the call has written one diagnostic
    for each link, in order, whose entry in the correction map is the empty
    list, and nothing else. *)
Theorem allLinkEnds_keys_and_diagnostics
    (linkEnds : list LinkEnds) (bodyMap : NamedBodyMap E)
    (parametersToEstimate : EstimatableParameterSet)
    (isCentralInstantUsedAsObservable : bool)
    (lightTimeCorrections : gmap LinkEnds (list (list (LightTimeCorrection E))))
    (dependentVariablesInterface : option (DependentVariablesInterface E))
    (s : State E) partials s' :
  createMutualApproximationPartials_allLinkEnds linkEnds bodyMap
    parametersToEstimate isCentralInstantUsedAsObservable
    lightTimeCorrections dependentVariablesInterface s
  = (Normal partials, s') →
  (∀ l, is_Some (partials !! l) ↔ l ∈ linkEnds)
  ∧ cerr s'
    = cerr s
      ++ flat_map (λ l, match lightTimeCorrections !! l with
                        | Some [] =>
                            ["Error when making mutual approximation partials, light time corrections for 0 links found, instead of 2."]
                        | _ => []
                        end) linkEnds.
Proof.
  rewrite allLinkEnds_shape. intros Hrun.
  pose proof (assembleLinkEnds_loop missingRolesMessage
                lightTimeCorrectionsMessage singleValued
                (if isCentralInstantUsedAsObservable
                 then MutualApproximationScaling
                 else ModifiedMutualApproximationScaling)
                bodyMap parametersToEstimate lightTimeCorrections
                dependentVariablesInterface singleValued_keepsScaler
                linkEnds ∅ s) as Hloop.
  rewrite Hrun in Hloop. destruct Hloop as (_ & _ & Hdom & Hcerr).
  split; [|exact Hcerr].
  intros l. rewrite <- elem_of_dom, Hdom, dom_empty_L. set_solver.
Qed.

(** X3.  In a mapping returned by the all-link-ends function of the
    single-valued observable every link has a scaling object of its own:
    the pointer is not null, the object is a scaling object of the class
    selected by the flag, the blocks of the link are built on that object,
    and two different links never share it. *)
Theorem allLinkEnds_scaling_per_link
    (linkEnds : list LinkEnds) (bodyMap : NamedBodyMap E)
    (parametersToEstimate : EstimatableParameterSet)
    (isCentralInstantUsedAsObservable : bool)
    (lightTimeCorrections : gmap LinkEnds (list (list (LightTimeCorrection E))))
    (dependentVariablesInterface : option (DependentVariablesInterface E))
    (s : State E) partials s' :
  createMutualApproximationPartials_allLinkEnds linkEnds bodyMap
    parametersToEstimate isCentralInstantUsedAsObservable
    lightTimeCorrections dependentVariablesInterface s
  = (Normal partials, s') →
  (∀ l partialsOfLink scaling,
     partials !! l = Some (partialsOfLink, scaling) →
     (∃ a, scaling = Some a
           ∧ heap s' !! a
             = Some (ScalingObject
                       (if isCentralInstantUsedAsObservable
                        then MutualApproximationScaling
                        else ModifiedMutualApproximationScaling)
                       dependentVariablesInterface))
     ∧ ∀ range block, partialsOfLink !! range = Some block →
         ∃ a o, block = Some a ∧ heap s' !! a = Some o ∧ builtOn scaling o)
  ∧ ∀ l1 l2 entry1 entry2,
      l1 ≠ l2 → partials !! l1 = Some entry1 → partials !! l2 = Some entry2 →
      entry1.2 ≠ entry2.2.
Proof.
  rewrite allLinkEnds_shape. intros Hrun.
  pose proof (assembleLinkEnds_separate missingRolesMessage
                lightTimeCorrectionsMessage singleValued
                (if isCentralInstantUsedAsObservable
                 then MutualApproximationScaling
                 else ModifiedMutualApproximationScaling)
                bodyMap parametersToEstimate lightTimeCorrections
                dependentVariablesInterface singleValued_keepsScaler
                linkEnds ∅ s) as Hloop.
  rewrite Hrun in Hloop. apply Hloop.
  split.
  - intros l p sc Hl. by rewrite lookup_empty in Hl.
  - intros l1 l2 e1 e2 _ Hl. by rewrite lookup_empty in Hl.
Qed.

(** X4.  The all-link-ends function of the two-valued observable throws
    its own missing-role error at a link that misses one of the roles
    receiver, transmitter and transmitter2, in the state the links before it
    have left: nothing is constructed for the link. *)
Theorem allLinkEndsWithImpactParameter_missing_role
    (bodyMap : NamedBodyMap E)
    (parametersToEstimate : EstimatableParameterSet)
    (lightTimeCorrections : gmap LinkEnds (list (list (LightTimeCorrection E))))
    (dependentVariablesInterface : option (DependentVariablesInterface E))
    (before : list LinkEnds) (linkEnds_i : LinkEnds) (after : list LinkEnds)
    (assembled : gmap LinkEnds (BlockMap * option nat)) (s0 s1 : State E) :
  createMutualApproximationWithImpactParameterPartials_allLinkEnds before
    bodyMap parametersToEstimate lightTimeCorrections
    dependentVariablesInterface s0
  = (Normal assembled, s1) →
  linkEnds_i !! receiver = None ∨ linkEnds_i !! transmitter = None
  ∨ linkEnds_i !! transmitter2 = None →
  createMutualApproximationWithImpactParameterPartials_allLinkEnds
    (before ++ linkEnds_i :: after)
    bodyMap parametersToEstimate lightTimeCorrections
    dependentVariablesInterface s0
  = (Thrown
       "Error when making mutual approximation with impact parameter partials, did not find both transmitter, transmitter2 and receiver in link ends",
     s1).
Proof.
  unfold createMutualApproximationWithImpactParameterPartials_allLinkEnds.
  intros Hbefore Hrole.
  rewrite for_each_app, (Exec_bind_Normal _ _ _ _ _ Hbefore).
  cbn [for_each]. unfold Exec_bind at 1.
  rewrite linkEndsIterationWithImpactParameter_shape, assembleLinkEnds_eq.
  unfold linkEndsComplete.
  assert (bool_decide (linkEnds_i !! receiver = None)
          || bool_decide (linkEnds_i !! transmitter = None)
          || bool_decide (linkEnds_i !! transmitter2 = None) = true) as ->.
  { destruct Hrole as [H|[H|H]]; rewrite (bool_decide_true _ H);
      rewrite ?orb_true_r; reflexivity. }
  reflexivity.
Qed.

(** X5.  In the all-link-ends function of the two-valued observable a
    complete link whose entry in the correction map has a number of groups
    other than 0 and 2 gets the diagnostic of that function on [std::cerr],
    and the call then ends with the leg-count error of the single-link
    function, whose text names the mutual approximation partials: no mapping
    is returned. *)
Theorem allLinkEndsWithImpactParameter_leg_count_mismatch
    (bodyMap : NamedBodyMap E)
    (parametersToEstimate : EstimatableParameterSet)
    (lightTimeCorrections : gmap LinkEnds (list (list (LightTimeCorrection E))))
    (dependentVariablesInterface : option (DependentVariablesInterface E))
    (before : list LinkEnds) (linkEnds_i : LinkEnds) (after : list LinkEnds)
    (corrections : list (list (LightTimeCorrection E)))
    (assembled : gmap LinkEnds (BlockMap * option nat)) (s0 s1 : State E) :
  createMutualApproximationWithImpactParameterPartials_allLinkEnds before
    bodyMap parametersToEstimate lightTimeCorrections
    dependentVariablesInterface s0
  = (Normal assembled, s1) →
  linkEnds_i !! receiver ≠ None ∧ linkEnds_i !! transmitter ≠ None
  ∧ linkEnds_i !! transmitter2 ≠ None →
  lightTimeCorrections !! linkEnds_i = Some corrections →
  length corrections ≠ 0%nat ∧ length corrections ≠ 2%nat →
  createMutualApproximationWithImpactParameterPartials_allLinkEnds
    (before ++ linkEnds_i :: after)
    bodyMap parametersToEstimate lightTimeCorrections
    dependentVariablesInterface s0
  = (Thrown
       ("Error when making mutual approximation partials, light time corrections for "
        +:+ to_string (length corrections) +:+ " links found, instead of 2."),
     {| heap := heap s1;
        cerr := cerr s1
                ++ ["Error when making mutual approximation with impact parameter partials, light time corrections for "
                    +:+ to_string (length corrections)
                    +:+ " links found, instead of 2."] |}).
Proof.
  unfold createMutualApproximationWithImpactParameterPartials_allLinkEnds.
  intros Hbefore (Hr & Ht & Ht2) Hentry [Hzero Htwo].
  rewrite for_each_app, (Exec_bind_Normal _ _ _ _ _ Hbefore).
  cbn [for_each]. unfold Exec_bind at 1.
  rewrite linkEndsIterationWithImpactParameter_shape, assembleLinkEnds_eq.
  unfold linkEndsComplete, correctionsOf, diagnosedState.
  rewrite !bool_decide_false by done. cbn [orb negb].
  rewrite Hentry. cbn [default]. rewrite bool_decide_true by done.
  rewrite assemblePartials_legCount; [reflexivity|]. intros [?|?]; done.
Qed.

(** X6.  On the same links, parameters and correction map, the
    all-link-ends functions of the two observables return under the same
    conditions: one returns a mapping exactly when the other does. *)
Theorem allLinkEnds_return_together
    (linkEnds : list LinkEnds) (bodyMap : NamedBodyMap E)
    (parametersToEstimate : EstimatableParameterSet)
    (isCentralInstantUsedAsObservable : bool)
    (lightTimeCorrections : gmap LinkEnds (list (list (LightTimeCorrection E))))
    (dependentVariablesInterface : option (DependentVariablesInterface E))
    (s : State E) :
  (∃ partials s',
     createMutualApproximationPartials_allLinkEnds linkEnds bodyMap
       parametersToEstimate isCentralInstantUsedAsObservable
       lightTimeCorrections dependentVariablesInterface s
     = (Normal partials, s'))
  ↔ (∃ partials s',
       createMutualApproximationWithImpactParameterPartials_allLinkEnds
         linkEnds bodyMap parametersToEstimate lightTimeCorrections
         dependentVariablesInterface s
       = (Normal partials, s')).
Proof.
  rewrite allLinkEnds_shape, allLinkEndsWithImpactParameter_shape.
  rewrite !assembleLinkEnds_returns_iff;
    [done|apply twoValued_keepsScaler|apply singleValued_keepsScaler].
Qed.

End AllLinkEndsProperties2.

(** ** Further properties: the single-link functions *)

Section GrownFacts.
Context {E : Externals}.

Lemma grown_nil (s : State E) : grown s [] = s.
Proof. destruct s as [h c]. unfold grown. simpl. by rewrite app_nil_r. Qed.

Lemma grown_allocated (s : State E) (o : HeapObject E) new :
  grown (allocated s o) new = grown s (o :: new).
Proof. unfold grown, allocated. simpl. by rewrite <- app_assoc. Qed.

Lemma grown_grown (s : State E) new1 new2 :
  grown (grown s new1) new2 = grown s (new1 ++ new2).
Proof. unfold grown. simpl. by rewrite app_assoc. Qed.

Lemma grown_lookup_first (s : State E) (o : HeapObject E) new :
  heap (grown s (o :: new)) !! length (heap s) = Some o.
Proof.
  unfold grown. cbn [heap]. rewrite lookup_app_r by lia.
  by rewrite Nat.sub_diag.
Qed.

Lemma grown_cerr (s : State E) new : cerr (grown s new) = cerr s.
Proof. reflexivity. Qed.

End GrownFacts.

Section ConstructsFacts.
Context {E : Externals}.
Variable V : ObservableVariant (E:=E).
Variable linkEnds : LinkEnds.
Variable bodyMap : NamedBodyMap E.
Variable scaling : option nat.
Variable correctionPartials : list (list (LightTimeCorrectionPartial E)).

Lemma initialState_loop_constructs parameters :
  ∀ (partials : BlockMap) (currentIndex : Z) (s : State E),
  forallb acceptedCategory parameters = true →
  ∃ loopState,
    for_each (initialStateStep V linkEnds bodyMap scaling correctionPartials)
      parameters (partials, currentIndex) s
    = (Normal loopState,
       grown s (objectsOfInitialStates V linkEnds bodyMap scaling
                  correctionPartials parameters)).
Proof.
  induction parameters as [|p ps IH]; intros partials currentIndex s Hacc.
  - exists (partials, currentIndex). simpl. by rewrite grown_nil.
  - cbn [forallb] in Hacc. apply andb_true_iff in Hacc as [Hp Hps].
    cbn [for_each]. unfold Exec_bind. rewrite initialStateStep_eq, Hp.
    match goal with |- context [for_each _ ps (?m, ?i) ?t] =>
      destruct (IH m i t Hps) as (loopState & ->)
    end.
    exists loopState. unfold objectsOfInitialStates. rewrite fmap_cons.
    by rewrite grown_allocated.
Qed.

Lemma double_loop_constructs parameters :
  ∀ (partials : BlockMap) (s : State E),
  ∃ partials',
    for_each (doubleStep V linkEnds bodyMap scaling correctionPartials)
      parameters partials s
    = (Normal partials',
       grown s (objectsOfDoubles V linkEnds bodyMap scaling correctionPartials
                  parameters)).
Proof.
  induction parameters as [|it ps IH]; intros partials s.
  - exists partials. simpl. by rewrite grown_nil.
  - cbn [for_each]. unfold Exec_bind. rewrite doubleStep_eq.
    match goal with |- context [for_each _ ps ?m ?t] =>
      destruct (IH m t) as (partials' & ->)
    end.
    exists partials'. unfold objectsOfDoubles. rewrite fmap_cons.
    by rewrite grown_allocated.
Qed.

Lemma vector_loop_constructs parameters :
  ∀ (partials : BlockMap) (s : State E),
  ∃ partials',
    for_each (vectorStep V linkEnds bodyMap scaling correctionPartials)
      parameters partials s
    = (Normal partials',
       grown s (objectsOfVectors V linkEnds bodyMap scaling correctionPartials
                  parameters)).
Proof.
  induction parameters as [|it ps IH]; intros partials s.
  - exists partials. simpl. by rewrite grown_nil.
  - cbn [for_each]. unfold Exec_bind. rewrite vectorStep_eq.
    unfold objectsOfVectors. cbn [flat_map].
    fold (objectsOfVectors V linkEnds bodyMap scaling correctionPartials ps).
    destruct (isParameterObservationLinkProperty E _).
    + destruct (createObservationPartialWrtLinkProperty E _ _ _ _) as [lp|].
      * match goal with |- context [for_each _ ps ?m ?t] =>
          destruct (IH m t) as (partials' & ->)
        end.
        exists partials'. by rewrite grown_allocated.
      * destruct (IH partials s) as (partials' & ->). by exists partials'.
    + match goal with |- context [for_each _ ps ?m ?t] =>
        destruct (IH m t) as (partials' & ->)
      end.
      exists partials'. by rewrite grown_allocated.
Qed.

(** Whatever its outcome, the loop over the initial-state parameters only
    adds objects. *)
Lemma initialState_loop_extends parameters :
  ∀ (loopState : BlockMap * Z) (s : State E),
  ∃ new,
    heap (for_each (initialStateStep V linkEnds bodyMap scaling
                      correctionPartials) parameters loopState s).2
    = heap s ++ new.
Proof.
  induction parameters as [|p ps IH]; intros [partials currentIndex] s.
  - exists []. simpl. by rewrite app_nil_r.
  - cbn [for_each]. unfold Exec_bind. rewrite initialStateStep_eq.
    destruct (acceptedCategory p).
    + match goal with |- context [for_each _ ps ?a ?t] =>
        destruct (IH a t) as (new & Hnew);
        destruct (for_each _ ps a t) as [[r|e] s']
      end; simpl in *; rewrite Hnew, <- app_assoc; by eexists.
    + exists []. simpl. by rewrite app_nil_r.
Qed.

End ConstructsFacts.

Section UniformFacts.
Context {E : Externals}.

Lemma similar_refl (s : State E) : similar s s.
Proof. by split. Qed.

Lemma uniform_ret {A} (a : A) : uniform (Exec_ret (E:=E) a).
Proof.
  intros s1 s2 [Hlen Hc]. split_and!; [done..|].
  exists []. by rewrite !app_nil_r.
Qed.

Lemma uniform_bind {A B} (m : Exec E A) (f : A → Exec E B) :
  uniform m → (∀ a, uniform (f a)) → uniform (Exec_bind m f).
Proof.
  intros Hm Hf s1 s2 Hs. unfold Exec_bind.
  destruct (Hm s1 s2 Hs) as (Hr & Hc & new & H1 & H2).
  destruct (m s1) as [r1 t1], (m s2) as [r2 t2]. simpl in *. subst r2.
  destruct r1 as [a|e].
  - assert (Ht : similar t1 t2).
    { split; [|done]. rewrite H1, H2, !length_app. destruct Hs as [-> _]. done. }
    destruct (Hf a t1 t2 Ht) as (Hr' & Hc' & new' & H1' & H2').
    split_and!; [done..|].
    exists (new ++ new'). by rewrite H1', H2', H1, H2, !app_assoc.
  - split_and!; [done..|]. by exists new.
Qed.

Lemma uniform_for_each {A B} (body : B → A → Exec E A) (l : list B) :
  (∀ x a, uniform (body x a)) → ∀ a, uniform (for_each body l a).
Proof.
  intros Hbody. induction l as [|x l IH]; intros a; cbn [for_each].
  - apply uniform_ret.
  - apply uniform_bind; [apply Hbody|apply IH].
Qed.

Variable V : ObservableVariant (E:=E).
Variable linkEnds : LinkEnds.
Variable bodyMap : NamedBodyMap E.
Variable scaling : option nat.
Variable correctionPartials : list (list (LightTimeCorrectionPartial E)).

Lemma uniform_allocating {A} (m : Exec E A) (result : nat → Result A)
    (o : HeapObject E) :
  (∀ s, m s = (result (length (heap s)), allocated s o)) → uniform m.
Proof.
  intros Hm s1 s2 [Hlen Hc]. rewrite !Hm. simpl. rewrite Hlen.
  split_and!; [done..|]. by exists [o].
Qed.

Lemma uniform_initialStateStep parameter loopState :
  uniform (initialStateStep V linkEnds bodyMap scaling correctionPartials
             parameter loopState).
Proof.
  destruct loopState as [partials currentIndex].
  destruct (acceptedCategory parameter) eqn:Hacc.
  - apply (uniform_allocating _
             (λ n, Normal
                     (if bodyDependency linkEnds bodyMap correctionPartials
                           (getParameterName E parameter).2.1
                      then <[(currentIndex, 6) := Some n]> partials
                      else partials,
                      int_add currentIndex 6))
             (bodyPartialObject V linkEnds bodyMap scaling correctionPartials
                (getParameterName E parameter).2.1)).
    intros s. by rewrite initialStateStep_eq, Hacc.
  - intros s1 s2 [Hlen Hc]. rewrite !initialStateStep_eq, Hacc. simpl.
    split_and!; [done..|]. exists []. by rewrite !app_nil_r.
Qed.

Lemma uniform_doubleStep it partials :
  uniform (doubleStep V linkEnds bodyMap scaling correctionPartials it partials).
Proof.
  apply (uniform_allocating _
           (λ n, Normal
                   (if parameterDependency linkEnds bodyMap correctionPartials
                         it.2
                    then <[(it.1, 1) := Some n]> partials
                    else partials))
           (parameterPartialObject V linkEnds bodyMap scaling correctionPartials
              it.2)).
  intros s. by rewrite doubleStep_eq.
Qed.

Lemma uniform_vectorStep it partials :
  uniform (vectorStep V linkEnds bodyMap scaling correctionPartials it partials).
Proof.
  destruct (isParameterObservationLinkProperty E (getParameterName E it.2).1)
    eqn:Hlp.
  - destruct (createObservationPartialWrtLinkProperty E (observationSize V)
                linkEnds (observableType V) it.2) as [lp|] eqn:Hcreate.
    + apply (uniform_allocating _
               (λ n, Normal (<[(it.1, getParameterSize E it.2) := Some n]>
                               partials))
               (ObservationPartialWrtLinkProperty (observationSize V) lp)).
      intros s. by rewrite vectorStep_eq, Hlp, Hcreate.
    + intros s1 s2 [Hlen Hc]. rewrite !vectorStep_eq, Hlp, Hcreate. simpl.
      split_and!; [done..|]. exists []. by rewrite !app_nil_r.
  - apply (uniform_allocating _
             (λ n, Normal
                     (if parameterDependency linkEnds bodyMap correctionPartials
                           it.2
                      then <[(it.1, getParameterSize E it.2) := Some n]> partials
                      else partials))
             (parameterPartialObject V linkEnds bodyMap scaling
                correctionPartials it.2)).
    intros s. by rewrite vectorStep_eq, Hlp.
Qed.

Lemma uniform_parameterLoops parametersToEstimate :
  uniform (parameterLoops V linkEnds bodyMap scaling correctionPartials
             parametersToEstimate).
Proof.
  unfold parameterLoops.
  apply uniform_bind;
    [apply uniform_for_each; intros; apply uniform_initialStateStep|].
  intros afterInitialStates. apply uniform_bind;
    [apply uniform_for_each; intros; apply uniform_doubleStep|].
  intros afterDoubles. apply uniform_bind;
    [apply uniform_for_each; intros; apply uniform_vectorStep|].
  intros partials. apply uniform_ret.
Qed.

End UniformFacts.

Section AssembleMoreFacts.
Context {E : Externals}.
Variable V : ObservableVariant (E:=E).
Variable scalingClass : ScalingClass.
Variable linkEnds : LinkEnds.
Variable bodyMap : NamedBodyMap E.
Variable parametersToEstimate : EstimatableParameterSet (E:=E).
Variable lightTimeCorrections : list (list (LightTimeCorrection E)).
Variable dependentVariablesInterface : option (DependentVariablesInterface E).

(** Past the leg-count check the function constructs its scaling object
    and runs the three loops. *)
Lemma assemblePartials_loops (s : State E) :
  length lightTimeCorrections = 0%nat ∨ length lightTimeCorrections = 2%nat →
  assemblePartials V scalingClass linkEnds bodyMap parametersToEstimate
    lightTimeCorrections dependentVariablesInterface s
  = parameterLoops V linkEnds bodyMap (Some (length (heap s)))
      (correctionPartialObjects lightTimeCorrections) parametersToEstimate
      (allocated s (ScalingObject scalingClass dependentVariablesInterface)).
Proof.
  intros Hlen. unfold assemblePartials. unfold Exec_bind at 1 2.
  rewrite bool_decide_true by done. reflexivity.
Qed.

(** The objects a call that returns has constructed. *)
Lemma assemblePartials_constructs (s : State E) :
  length lightTimeCorrections = 0%nat ∨ length lightTimeCorrections = 2%nat →
  forallb acceptedCategory
    (getEstimatedInitialStateParameters parametersToEstimate) = true →
  ∃ partials,
    assemblePartials V scalingClass linkEnds bodyMap parametersToEstimate
      lightTimeCorrections dependentVariablesInterface s
    = (Normal (partials, Some (length (heap s))),
       grown s
         (ScalingObject scalingClass dependentVariablesInterface
          :: objectsOfInitialStates V linkEnds bodyMap (Some (length (heap s)))
               (correctionPartialObjects lightTimeCorrections)
               (getEstimatedInitialStateParameters parametersToEstimate)
          ++ objectsOfDoubles V linkEnds bodyMap (Some (length (heap s)))
               (correctionPartialObjects lightTimeCorrections)
               (getDoubleParameters parametersToEstimate)
          ++ objectsOfVectors V linkEnds bodyMap (Some (length (heap s)))
               (correctionPartialObjects lightTimeCorrections)
               (getVectorParameters parametersToEstimate))).
Proof.
  intros Hlen Hacc. rewrite (assemblePartials_loops s Hlen).
  unfold parameterLoops, Exec_bind.
  match goal with |- context [for_each ?f ?l (?m, ?i) ?t] =>
    destruct (initialState_loop_constructs V linkEnds bodyMap
                (Some (length (heap s)))
                (correctionPartialObjects lightTimeCorrections) l m i t Hacc)
      as (loopState & ->)
  end.
  match goal with |- context [for_each ?f ?l ?m ?t] =>
    destruct (double_loop_constructs V linkEnds bodyMap
                (Some (length (heap s)))
                (correctionPartialObjects lightTimeCorrections) l m t)
      as (afterDoubles & ->)
  end.
  match goal with |- context [for_each ?f ?l ?m ?t] =>
    destruct (vector_loop_constructs V linkEnds bodyMap
                (Some (length (heap s)))
                (correctionPartialObjects lightTimeCorrections) l m t)
      as (partials & ->)
  end.
  exists partials. unfold Exec_ret.
  by rewrite !grown_grown, grown_allocated.
Qed.

(** When the category check fails, the scaling object has been
    constructed. *)
Lemma assemblePartials_couldNotIdentify_scaling (s : State E) :
  length lightTimeCorrections = 0%nat ∨ length lightTimeCorrections = 2%nat →
  forallb acceptedCategory
    (getEstimatedInitialStateParameters parametersToEstimate) = false →
  ∃ s',
    assemblePartials V scalingClass linkEnds bodyMap parametersToEstimate
      lightTimeCorrections dependentVariablesInterface s
    = (Thrown couldNotIdentifyMessage, s')
    ∧ heap s' !! length (heap s)
      = Some (ScalingObject scalingClass dependentVariablesInterface).
Proof.
  intros Hlen Hacc. rewrite (assemblePartials_loops s Hlen).
  unfold parameterLoops, Exec_bind.
  match goal with |- context [for_each ?f ?l (?m, ?i) ?t] =>
    pose proof (initialState_loop V linkEnds bodyMap (Some (length (heap s)))
                  (correctionPartialObjects lightTimeCorrections) l m i t)
      as Hloop;
    destruct (initialState_loop_extends V linkEnds bodyMap
                (Some (length (heap s)))
                (correctionPartialObjects lightTimeCorrections) l (m, i) t)
      as (new & Hnew);
    destruct (for_each f l (m, i) t) as [[[m' i']|e] s']
  end.
  - destruct Hloop as (Hacc' & _). congruence.
  - destruct Hloop as (_ & ->). exists s'. split; [reflexivity|].
    simpl in Hnew. rewrite Hnew, <- app_assoc. simpl.
    rewrite lookup_app_r by lia. by rewrite Nat.sub_diag.
Qed.

End AssembleMoreFacts.

Lemma elem_of_initialStateBlocks {E : Externals} (linkEnds : LinkEnds)
    (bodyMap : NamedBodyMap E)
    (correctionPartials : list (list (LightTimeCorrectionPartial E)))
    (parameters : list (EstimatableParameter E)) :
  ∀ (currentIndex : Z) (range : Z * Z) (d : bool),
  (range, d) ∈ initialStateBlocks linkEnds bodyMap correctionPartials
                 parameters currentIndex →
  ∃ i : nat, (i < length parameters)%nat
             ∧ range = (indexAfter (take i parameters) currentIndex, 6).
Proof.
  induction parameters as [|p ps IH]; intros currentIndex range d Hin.
  - by apply elem_of_nil in Hin.
  - cbn [initialStateBlocks] in Hin. apply elem_of_cons in Hin as [Hhd|Htl].
    + exists 0%nat. split; [simpl; lia|]. by injection Hhd as -> _.
    + destruct (IH _ _ _ Htl) as (i & Hi & ->).
      exists (S i). split; [simpl; lia|]. reflexivity.
Qed.

Section SingleLinkProperties.
Context {E : Externals}.

(** X7.  The two-valued single-link function makes its checks in this
    order.  A list of correction groups of a size other than 0 and 2 makes
    it throw the leg-count error with nothing constructed, whatever the
    parameters.  Otherwise it constructs its scaling object, of class
    [MutualApproximationWithImpactParameterScaling], and throws "could not
    identify parameter" if some initial-state parameter has a category that
    is not accepted; if none has, it returns the pointer to that scaling
    object, and has written nothing to [std::cerr]. *)
Theorem withImpactParameter_checks_in_order
    (linkEnds : LinkEnds) (bodyMap : NamedBodyMap E)
    (parametersToEstimate : EstimatableParameterSet)
    (lightTimeCorrections : list (list (LightTimeCorrection E)))
    (dependentVariablesInterface : option (DependentVariablesInterface E))
    (s : State E) :
  let outcome :=
    createMutualApproximationWithImpactParameterPartials linkEnds bodyMap
      parametersToEstimate lightTimeCorrections dependentVariablesInterface s in
  let legCountPasses :=
    length lightTimeCorrections = 0%nat ∨ length lightTimeCorrections = 2%nat in
  let accepted parameter :=
    (getParameterName E parameter).1 = initial_body_state
    ∨ (getParameterName E parameter).1 = arc_wise_initial_body_state in
  (¬ legCountPasses
   ∧ outcome
     = (Thrown
          ("Error when making mutual approximation partials, light time corrections for "
           +:+ to_string (length lightTimeCorrections)
           +:+ " links found, instead of 2."),
        s))
  ∨ (legCountPasses
     ∧ Exists (λ parameter, ¬ accepted parameter)
         (getEstimatedInitialStateParameters parametersToEstimate)
     ∧ ∃ s',
         outcome
         = (Thrown
              "Error when making mutual approximation partials, could not identify parameter",
            s')
         ∧ heap s' !! length (heap s)
           = Some (ScalingObject MutualApproximationWithImpactParameterScaling
                     dependentVariablesInterface))
  ∨ (legCountPasses
     ∧ Forall accepted (getEstimatedInitialStateParameters parametersToEstimate)
     ∧ ∃ partials s',
         outcome = (Normal (partials, Some (length (heap s))), s')
         ∧ heap s' !! length (heap s)
           = Some (ScalingObject MutualApproximationWithImpactParameterScaling
                     dependentVariablesInterface)
         ∧ cerr s' = cerr s).
Proof.
  intros outcome legCountPasses accepted. unfold outcome.
  rewrite createMutualApproximationWithImpactParameterPartials_shape.
  destruct (decide legCountPasses) as [Hlen|Hlen].
  - right.
    destruct (forallb acceptedCategory
                (getEstimatedInitialStateParameters parametersToEstimate))
      eqn:Hacc.
    + right. split; [done|]. split.
      * apply Forall_forall. intros p Hp. apply acceptedCategory_true.
        rewrite forallb_forall in Hacc. apply Hacc. by apply list_elem_of_In.
      * destruct (assemblePartials_constructs twoValued
                    MutualApproximationWithImpactParameterScaling linkEnds
                    bodyMap parametersToEstimate lightTimeCorrections
                    dependentVariablesInterface s Hlen Hacc)
          as (partials & ->).
        eexists _, _. split; [reflexivity|]. split; [|reflexivity].
        apply grown_lookup_first.
    + left. split; [done|]. split.
      * eapply Exists_impl; [by apply forallb_false_Exists|].
        intros p Hp Hp'. apply acceptedCategory_true in Hp'. congruence.
      * by apply assemblePartials_couldNotIdentify_scaling.
  - left. split; [done|]. by apply assemblePartials_legCount.
Qed.

End SingleLinkProperties.

Section SingleLinkProperties2.
Context {E : Externals}.

(** X8.  A call of the two-valued single-link function that returns has
    constructed exactly one scaling object, before anything else, of class
    [MutualApproximationWithImpactParameterScaling], and returns the
    pointer to it.  Every object constructed after it, and so every block
    of the returned partial list, is a position-coupled partial whose
    scaler is that very pointer, or a link-property partial.  A call that
    throws has failed the leg-count check or met a category that is not
    accepted. *)
Theorem withImpactParameter_scaling_object_shared
    (linkEnds : LinkEnds) (bodyMap : NamedBodyMap E)
    (parametersToEstimate : EstimatableParameterSet)
    (lightTimeCorrections : list (list (LightTimeCorrection E)))
    (dependentVariablesInterface : option (DependentVariablesInterface E))
    (s : State E) :
  match createMutualApproximationWithImpactParameterPartials linkEnds bodyMap
          parametersToEstimate lightTimeCorrections
          dependentVariablesInterface s with
  | (Normal (partials, scaling), s') =>
      scaling = Some (length (heap s))
      ∧ (∃ new,
           heap s' =
             heap s
             ++ ScalingObject MutualApproximationWithImpactParameterScaling
                  dependentVariablesInterface
             :: new
           ∧ Forall (builtOn scaling) new)
      ∧ ∀ range block, partials !! range = Some block →
          ∃ a o, block = Some a ∧ heap s' !! a = Some o ∧ builtOn scaling o
  | (Thrown _, _) =>
      ¬ (length lightTimeCorrections = 0%nat
         ∨ length lightTimeCorrections = 2%nat)
      ∨ forallb acceptedCategory
          (getEstimatedInitialStateParameters parametersToEstimate) = false
  end.
Proof.
  rewrite createMutualApproximationWithImpactParameterPartials_shape.
  pose proof (assemblePartials_heap twoValued
                MutualApproximationWithImpactParameterScaling
                linkEnds bodyMap parametersToEstimate lightTimeCorrections
                dependentVariablesInterface s twoValued_keepsScaler) as Hheap.
  destruct (assemblePartials _ _ _ _ _ _ _ s) as [[[partials scaling]|e] s']
    eqn:Hrun.
  - destruct Hheap as (Hsc & _ & Hnew & Hblocks). done.
  - destruct (decide (length lightTimeCorrections = 0%nat
                      ∨ length lightTimeCorrections = 2%nat)) as [Hlen|Hlen];
      [|by left].
    right.
    destruct (forallb acceptedCategory _) eqn:Hacc; [|done].
    destruct (assemblePartials_Normal twoValued
                MutualApproximationWithImpactParameterScaling
                linkEnds bodyMap parametersToEstimate lightTimeCorrections
                dependentVariablesInterface s Hlen Hacc)
      as (partials & s'' & Hrun' & _).
    congruence.
Qed.

(** X9.  Take a call of the two-valued single-link function that passes its
    checks, on parameters whose index ranges are distinct.  For a scalar
    parameter (size 1) and a vector parameter that is no link property, the
    returned partial list has an entry at the parameter's index range
    exactly when some role-to-position partial was produced for it or some
    light-time-correction partial function contributes.  For a vector
    parameter that is a link property the entry is there exactly when the
    link-property constructor, called for observation size 2 and the
    observable with impact parameter, returns a partial. *)
Theorem withImpactParameter_block_present_iff_dependency
    (linkEnds : LinkEnds) (bodyMap : NamedBodyMap E)
    (parametersToEstimate : EstimatableParameterSet)
    (lightTimeCorrections : list (list (LightTimeCorrection E)))
    (dependentVariablesInterface : option (DependentVariablesInterface E))
    (s : State E) :
  length lightTimeCorrections = 0%nat ∨ length lightTimeCorrections = 2%nat →
  forallb acceptedCategory
    (getEstimatedInitialStateParameters parametersToEstimate) = true →
  NoDup (fst <$> parameterBlocks twoValued linkEnds bodyMap
                   (correctionPartialObjects lightTimeCorrections)
                   parametersToEstimate) →
  let dependency (parameter : EstimatableParameter E) : Prop :=
    (0 < size (createCartesianStatePartialsWrtParameter E linkEnds bodyMap
                 parameter))%nat
    ∨ getNumberOfLighTimeCorrectionPartialsFunctions E
        (getParameterName E parameter)
        (correctionPartialObjects lightTimeCorrections) ≠ 0%nat in
  ∃ partials scaling s',
    createMutualApproximationWithImpactParameterPartials linkEnds bodyMap
      parametersToEstimate lightTimeCorrections dependentVariablesInterface s
    = (Normal (partials, scaling), s')
    ∧ (∀ index parameter,
         (index, parameter) ∈ getDoubleParameters parametersToEstimate →
         is_Some (partials !! (index, 1)) ↔ dependency parameter)
    ∧ (∀ index parameter,
         (index, parameter) ∈ getVectorParameters parametersToEstimate →
         is_Some (partials !! (index, getParameterSize E parameter))
         ↔ if isParameterObservationLinkProperty E (getParameterName E parameter).1
           then is_Some (createObservationPartialWrtLinkProperty E 2 linkEnds
                           mutual_approximation_with_impact_parameter parameter)
           else dependency parameter).
Proof.
  intros Hlen Hacc Hnd dependency.
  destruct (assemblePartials_Normal twoValued
              MutualApproximationWithImpactParameterScaling
              linkEnds bodyMap parametersToEstimate lightTimeCorrections
              dependentVariablesInterface s Hlen Hacc)
    as (partials & s' & Hrun & Hdom).
  exists partials, (Some (length (heap s))), s'.
  split; [by rewrite createMutualApproximationWithImpactParameterPartials_shape|].
  assert (Hblock : ∀ range (d : bool),
            (range, d) ∈ parameterBlocks twoValued linkEnds bodyMap
                           (correctionPartialObjects lightTimeCorrections)
                           parametersToEstimate →
            is_Some (partials !! range) ↔ d = true).
  { intros range d Hin. rewrite <- elem_of_dom, Hdom.
    by apply dependentKeys_NoDup. }
  assert (Hdep : ∀ parameter,
            parameterDependency linkEnds bodyMap
              (correctionPartialObjects lightTimeCorrections) parameter = true
            ↔ dependency parameter)
    by (intros; apply dependencyExists_true).
  split.
  - intros index parameter Hin.
    rewrite (Hblock (index, 1)
               (parameterDependency linkEnds bodyMap
                  (correctionPartialObjects lightTimeCorrections) parameter)).
    + apply Hdep.
    + unfold parameterBlocks. rewrite !elem_of_app. right. left.
      apply list_elem_of_fmap. by exists (index, parameter).
  - intros index parameter Hin.
    rewrite (Hblock (index, getParameterSize E parameter)
               (if isParameterObservationLinkProperty E (getParameterName E parameter).1
                then linkPropertyDependency twoValued linkEnds parameter
                else parameterDependency linkEnds bodyMap
                       (correctionPartialObjects lightTimeCorrections) parameter)).
    + destruct (isParameterObservationLinkProperty E _); [|apply Hdep].
      unfold linkPropertyDependency. apply bool_decide_eq_true.
    + unfold parameterBlocks. rewrite !elem_of_app. right. right.
      apply list_elem_of_fmap. by exists (index, parameter).
Qed.

(** X10.  The single-valued single-link function inserts blocks at the
    index ranges of the parameters only: every key of the returned partial
    list is (6 i, 6) for the position i of an initial-state parameter, or
    (index, 1) for a scalar parameter, or (index, size) for a vector
    parameter and its size. *)
Theorem blocks_at_parameter_ranges_only
    (linkEnds : LinkEnds) (bodyMap : NamedBodyMap E)
    (parametersToEstimate : EstimatableParameterSet)
    (isCentralInstantUsedAsObservable : bool)
    (lightTimeCorrections : list (list (LightTimeCorrection E)))
    (dependentVariablesInterface : option (DependentVariablesInterface E))
    (s : State E) :
  length lightTimeCorrections = 0%nat ∨ length lightTimeCorrections = 2%nat →
  forallb acceptedCategory
    (getEstimatedInitialStateParameters parametersToEstimate) = true →
  (6 * Z.of_nat (length (getEstimatedInitialStateParameters parametersToEstimate))
   ≤ INT_MAX)%Z →
  ∃ partials scaling s',
    createMutualApproximationPartials linkEnds bodyMap parametersToEstimate
      isCentralInstantUsedAsObservable lightTimeCorrections
      dependentVariablesInterface s
    = (Normal (partials, scaling), s')
    ∧ ∀ start size, is_Some (partials !! (start, size)) →
        (size = 6
         ∧ ∃ i : nat,
             (i < length (getEstimatedInitialStateParameters
                            parametersToEstimate))%nat
             ∧ start = 6 * Z.of_nat i)
        ∨ (size = 1
           ∧ ∃ parameter,
               (start, parameter) ∈ getDoubleParameters parametersToEstimate)
        ∨ (∃ parameter,
             (start, parameter) ∈ getVectorParameters parametersToEstimate
             ∧ size = getParameterSize E parameter).
Proof.
  intros Hlen Hacc Hrange.
  destruct (assemblePartials_Normal singleValued
              (if isCentralInstantUsedAsObservable
               then MutualApproximationScaling
               else ModifiedMutualApproximationScaling)
              linkEnds bodyMap parametersToEstimate lightTimeCorrections
              dependentVariablesInterface s Hlen Hacc)
    as (partials & s' & Hrun & Hdom).
  exists partials, (Some (length (heap s))), s'.
  split; [by rewrite createMutualApproximationPartials_shape|].
  intros start size Hkey.
  apply elem_of_dom in Hkey. rewrite Hdom in Hkey.
  apply elem_of_dependentKeys in Hkey. unfold parameterBlocks in Hkey.
  rewrite !elem_of_app in Hkey. destruct Hkey as [Hkey|[Hkey|Hkey]].
  - left. apply elem_of_initialStateBlocks in Hkey as (i & Hi & Heq).
    rewrite indexAfter_in_range in Heq.
    + rewrite length_take_le in Heq by lia. injection Heq as -> ->.
      split; [done|]. exists i. split; [done|lia].
    + lia.
    + rewrite length_take. lia.
  - right. left. unfold doubleBlocks in Hkey.
    apply list_elem_of_fmap in Hkey as ([index parameter] & Heq & Hin).
    injection Heq as -> -> _. split; [done|]. by exists parameter.
  - right. right. unfold vectorBlocks in Hkey.
    apply list_elem_of_fmap in Hkey as ([index parameter] & Heq & Hin).
    injection Heq as -> -> _. by exists parameter.
Qed.

End SingleLinkProperties2.

Section ParameterObjectsFacts.
Context {E : Externals}.
Variable V : ObservableVariant (E:=E).
Variable scalingClass : ScalingClass.
Variable linkEnds : LinkEnds.
Variable bodyMap : NamedBodyMap E.
Variable parametersToEstimate : EstimatableParameterSet (E:=E).
Variable lightTimeCorrections : list (list (LightTimeCorrection E)).
Variable dependentVariablesInterface : option (DependentVariablesInterface E).
Lemma correctionPartialObjects_fmap :
  length lightTimeCorrections = 0%nat ∨ length lightTimeCorrections = 2%nat →
  correctionPartialObjects lightTimeCorrections
  = createLightTimeCorrectionPartials E <$> lightTimeCorrections.
Proof.
  intros Hlen.
  destruct lightTimeCorrections as [|g0 [|g1 [|g2 rest]]];
    simpl in Hlen; try reflexivity; lia.
Qed.

(** The objects constructed after the loop over the initial-state
    parameters. *)
Lemma assemblePartials_afterInitialStates (s : State E) :
  length lightTimeCorrections = 0%nat ∨ length lightTimeCorrections = 2%nat →
  forallb acceptedCategory
    (getEstimatedInitialStateParameters parametersToEstimate) = true →
  ∃ partials afterInitialStates s1,
    assemblePartials V scalingClass linkEnds bodyMap parametersToEstimate
      lightTimeCorrections dependentVariablesInterface s
    = (Normal (partials, Some (length (heap s))),
       grown s1
         (objectsOfDoubles V linkEnds bodyMap (Some (length (heap s)))
            (createLightTimeCorrectionPartials E <$> lightTimeCorrections)
            (getDoubleParameters parametersToEstimate)
          ++ objectsOfVectors V linkEnds bodyMap (Some (length (heap s)))
               (createLightTimeCorrectionPartials E <$> lightTimeCorrections)
               (getVectorParameters parametersToEstimate)))
    ∧ for_each
        (initialStateStep V linkEnds bodyMap (Some (length (heap s)))
           (createLightTimeCorrectionPartials E <$> lightTimeCorrections))
        (getEstimatedInitialStateParameters parametersToEstimate) (∅, 0)
        (allocated s (ScalingObject scalingClass dependentVariablesInterface))
      = (Normal afterInitialStates, s1)
    ∧ cerr s1 = cerr s.
Proof.
  intros Hlen Hacc. rewrite (assemblePartials_loops _ _ _ _ _ _ _ s Hlen).
  rewrite (correctionPartialObjects_fmap Hlen).
  unfold parameterLoops, Exec_bind.
  match goal with |- context [for_each ?f ?l (?m, ?i) ?t] =>
    destruct (initialState_loop_constructs V linkEnds bodyMap
                (Some (length (heap s)))
                (createLightTimeCorrectionPartials E <$> lightTimeCorrections)
                l m i t Hacc)
      as (loopState & Hloop)
  end.
  rewrite Hloop.
  match goal with |- context [for_each ?f ?l ?m ?t] =>
    destruct (double_loop_constructs V linkEnds bodyMap
                (Some (length (heap s)))
                (createLightTimeCorrectionPartials E <$> lightTimeCorrections)
                l m t)
      as (afterDoubles & ->)
  end.
  match goal with |- context [for_each ?f ?l ?m ?t] =>
    destruct (vector_loop_constructs V linkEnds bodyMap
                (Some (length (heap s)))
                (createLightTimeCorrectionPartials E <$> lightTimeCorrections)
                l m t)
      as (partials & ->)
  end.
  eexists partials, loopState, _. split_and!; [|reflexivity|reflexivity].
  unfold Exec_ret. by rewrite grown_grown.
Qed.

End ParameterObjectsFacts.

Section SingleLinkProperties3.
Context {E : Externals}.

(** X12.  The flag [isCentralInstantUsedAsObservable] of the single-valued
    single-link function selects the class of the scaling object and
    nothing else.  Called with the flag set and with the flag cleared on
    the same arguments in the same state, the function returns the same
    partial list and the same scaling pointer, or throws the same error,
    and writes the same diagnostics; either both calls leave the objects as
    they were, or both have constructed a scaling object, of class
    [MutualApproximationScaling] with the flag set and
    [ModifiedMutualApproximationScaling] with it cleared, followed by the
    same partial objects. *)
Theorem flag_selects_scaling_class_only
    (linkEnds : LinkEnds) (bodyMap : NamedBodyMap E)
    (parametersToEstimate : EstimatableParameterSet)
    (lightTimeCorrections : list (list (LightTimeCorrection E)))
    (dependentVariablesInterface : option (DependentVariablesInterface E))
    (s : State E) :
  let run (isCentralInstantUsedAsObservable : bool) :=
    createMutualApproximationPartials linkEnds bodyMap parametersToEstimate
      isCentralInstantUsedAsObservable lightTimeCorrections
      dependentVariablesInterface s in
  (run true).1 = (run false).1
  ∧ cerr (run true).2 = cerr (run false).2
  ∧ ((heap (run true).2 = heap s ∧ heap (run false).2 = heap s)
     ∨ ∃ new,
         heap (run true).2
         = heap s
           ++ ScalingObject MutualApproximationScaling
                dependentVariablesInterface :: new
         ∧ heap (run false).2
           = heap s
             ++ ScalingObject ModifiedMutualApproximationScaling
                  dependentVariablesInterface :: new).
Proof.
  intros run. subst run. cbv beta.
  rewrite !createMutualApproximationPartials_shape.
  destruct (decide (length lightTimeCorrections = 0%nat
                    ∨ length lightTimeCorrections = 2%nat)) as [Hlen|Hlen].
  - rewrite !assemblePartials_loops by done.
    destruct (uniform_parameterLoops singleValued linkEnds bodyMap
                (Some (length (heap s)))
                (correctionPartialObjects lightTimeCorrections)
                parametersToEstimate
                (allocated s (ScalingObject MutualApproximationScaling
                                dependentVariablesInterface))
                (allocated s (ScalingObject ModifiedMutualApproximationScaling
                                dependentVariablesInterface)))
      as (Hr & Hc & new & H1 & H2).
    { split; [|reflexivity]. unfold allocated. cbn [heap].
      by rewrite !length_app. }
    split_and!; [done..|]. right. exists new.
    rewrite H1, H2. unfold allocated. cbn [heap].
    by rewrite <- !app_assoc.
  - rewrite !assemblePartials_legCount by done. cbn [fst snd].
    split_and!; [done..|]. by left.
Qed.

(** X11.  A call of the single-valued single-link function that passes
    its checks constructs, after the scaling object and the loop over the
    initial-state parameters, exactly these objects, in this order: for
    every scalar parameter one [MutualApproximationPartial], whether or not
    it becomes a block, and then for every vector parameter one object, a
    link-property partial for a link property (none if the link-property
    constructor has no partial), a [MutualApproximationPartial] otherwise.
    Each [MutualApproximationPartial] holds the pointer to the scaling
    object of the call, the position partials and the name of its
    parameter, and the light-time-correction partials, one list per
    correction group in the order of the groups.  Nothing is written to
    [std::cerr]. *)
Theorem single_link_objects_constructed
    (linkEnds : LinkEnds) (bodyMap : NamedBodyMap E)
    (parametersToEstimate : EstimatableParameterSet)
    (isCentralInstantUsedAsObservable : bool)
    (lightTimeCorrections : list (list (LightTimeCorrection E)))
    (dependentVariablesInterface : option (DependentVariablesInterface E))
    (s : State E) :
  length lightTimeCorrections = 0%nat ∨ length lightTimeCorrections = 2%nat →
  forallb acceptedCategory
    (getEstimatedInitialStateParameters parametersToEstimate) = true →
  let scaling := Some (length (heap s)) in
  let corrections :=
    createLightTimeCorrectionPartials E <$> lightTimeCorrections in
  let partialWrt (parameter : EstimatableParameter E) :=
    MutualApproximationPartial
      {| positionPartialScaler := scaling;
         positionPartialList :=
           createCartesianStatePartialsWrtParameter E linkEnds bodyMap parameter;
         parameterIdentifier := getParameterName E parameter;
         lighTimeCorrectionPartials := corrections |} in
  ∃ partials s' afterInitialStates s1,
    createMutualApproximationPartials linkEnds bodyMap parametersToEstimate
      isCentralInstantUsedAsObservable lightTimeCorrections
      dependentVariablesInterface s
    = (Normal (partials, scaling), s')
    ∧ for_each
        (initialDynamicalParameterIteration linkEnds bodyMap scaling corrections)
        (getEstimatedInitialStateParameters parametersToEstimate) (∅, 0)
        (allocated s
           (ScalingObject (if isCentralInstantUsedAsObservable
                           then MutualApproximationScaling
                           else ModifiedMutualApproximationScaling)
              dependentVariablesInterface))
      = (Normal afterInitialStates, s1)
    ∧ heap s'
      = heap s1
        ++ ((λ it, partialWrt it.2) <$> getDoubleParameters parametersToEstimate)
        ++ flat_map
             (λ it,
                if isParameterObservationLinkProperty E
                     (getParameterName E it.2).1
                then match createObservationPartialWrtLinkProperty E 1
                             linkEnds mutual_approximation it.2 with
                     | Some p => [ObservationPartialWrtLinkProperty 1 p]
                     | None => []
                     end
                else [partialWrt it.2])
             (getVectorParameters parametersToEstimate)
    ∧ cerr s' = cerr s.
Proof.
  intros Hlen Hacc scaling corrections partialWrt.
  destruct (assemblePartials_afterInitialStates singleValued
              (if isCentralInstantUsedAsObservable
               then MutualApproximationScaling
               else ModifiedMutualApproximationScaling)
              linkEnds bodyMap parametersToEstimate lightTimeCorrections
              dependentVariablesInterface s Hlen Hacc)
    as (partials & afterInitialStates & s1 & Hrun & Hloop & Hcerr).
  eexists partials, _, afterInitialStates, s1.
  split; [rewrite createMutualApproximationPartials_shape; exact Hrun|].
  split; [exact Hloop|]. split; [reflexivity|exact Hcerr].
Qed.

(** X13.  A call of the two-valued single-link function that passes its
    checks constructs, after the scaling object and the loop over the
    initial-state parameters, exactly these objects, in this order: for
    every scalar parameter one
    [MutualApproximationWithImpactParameterPartial], whether or not it
    becomes a block, and then for every vector parameter one object, a
    link-property partial of size 2 for a link property (none if the
    link-property constructor has no partial for the observable with
    impact parameter), a [MutualApproximationWithImpactParameterPartial]
    otherwise.  Each of these partials holds the pointer to the scaling
    object of the call, the position partials and the name of its
    parameter, and the light-time-correction partials, one list per
    correction group in the order of the groups.  Nothing is written to
    [std::cerr]. *)
Theorem withImpactParameter_objects_constructed
    (linkEnds : LinkEnds) (bodyMap : NamedBodyMap E)
    (parametersToEstimate : EstimatableParameterSet)
    (lightTimeCorrections : list (list (LightTimeCorrection E)))
    (dependentVariablesInterface : option (DependentVariablesInterface E))
    (s : State E) :
  length lightTimeCorrections = 0%nat ∨ length lightTimeCorrections = 2%nat →
  forallb acceptedCategory
    (getEstimatedInitialStateParameters parametersToEstimate) = true →
  let scaling := Some (length (heap s)) in
  let corrections :=
    createLightTimeCorrectionPartials E <$> lightTimeCorrections in
  let partialWrt (parameter : EstimatableParameter E) :=
    MutualApproximationWithImpactParameterPartial
      {| positionPartialScaler := scaling;
         positionPartialList :=
           createCartesianStatePartialsWrtParameter E linkEnds bodyMap parameter;
         parameterIdentifier := getParameterName E parameter;
         lighTimeCorrectionPartials := corrections |} in
  ∃ partials s' afterInitialStates s1,
    createMutualApproximationWithImpactParameterPartials linkEnds bodyMap
      parametersToEstimate lightTimeCorrections dependentVariablesInterface s
    = (Normal (partials, scaling), s')
    ∧ for_each
        (initialDynamicalParameterIterationWithImpactParameter linkEnds bodyMap
           scaling corrections)
        (getEstimatedInitialStateParameters parametersToEstimate) (∅, 0)
        (allocated s
           (ScalingObject MutualApproximationWithImpactParameterScaling
              dependentVariablesInterface))
      = (Normal afterInitialStates, s1)
    ∧ heap s'
      = heap s1
        ++ ((λ it, partialWrt it.2) <$> getDoubleParameters parametersToEstimate)
        ++ flat_map
             (λ it,
                if isParameterObservationLinkProperty E
                     (getParameterName E it.2).1
                then match createObservationPartialWrtLinkProperty E 2
                             linkEnds mutual_approximation_with_impact_parameter
                             it.2 with
                     | Some p => [ObservationPartialWrtLinkProperty 2 p]
                     | None => []
                     end
                else [partialWrt it.2])
             (getVectorParameters parametersToEstimate)
    ∧ cerr s' = cerr s.
Proof.
  intros Hlen Hacc scaling corrections partialWrt.
  destruct (assemblePartials_afterInitialStates twoValued
              MutualApproximationWithImpactParameterScaling
              linkEnds bodyMap parametersToEstimate lightTimeCorrections
              dependentVariablesInterface s Hlen Hacc)
    as (partials & afterInitialStates & s1 & Hrun & Hloop & Hcerr).
  eexists partials, _, afterInitialStates, s1.
  split;
    [rewrite createMutualApproximationWithImpactParameterPartials_shape;
     exact Hrun|].
  split; [exact Hloop|]. split; [reflexivity|exact Hcerr].
Qed.

End SingleLinkProperties3.

Section LastCallFacts.
Context {E : Externals}.
Variable missingRoles : string.
Variable diagnostic : nat → string.
Variable assembleLink :
  LinkEnds → list (list (LightTimeCorrection E)) →
  Exec E (BlockMap * option nat).
Variable lightTimeCorrections : gmap LinkEnds (list (list (LightTimeCorrection E))).

Local Abbreviation step :=
  (assembleLinkEnds missingRoles diagnostic assembleLink lightTimeCorrections).

(** The links assembled later leave the entry of another link as it is. *)
Lemma assembleLinkEnds_keeps (l : LinkEnds) (after : list LinkEnds) :
  ∀ (assembled partials : gmap LinkEnds (BlockMap * option nat))
    (s s' : State E),
  for_each step after assembled s = (Normal partials, s') →
  l ∉ after →
  partials !! l = assembled !! l.
Proof.
  induction after as [|l' after IH]; intros assembled partials s s' Hrun Hnot.
  - simpl in Hrun. by injection Hrun as <- _.
  - apply not_elem_of_cons in Hnot as [Hne Hnot].
    cbn [for_each] in Hrun. unfold Exec_bind in Hrun.
    rewrite assembleLinkEnds_eq in Hrun.
    destruct (linkEndsComplete l'); [|discriminate].
    destruct (assembleLink l' _ _) as [[r|e] t]; [|discriminate].
    rewrite (IH _ _ _ _ Hrun Hnot). by apply lookup_insert_ne.
Qed.

(** The entry of a link comes from the last call made for it. *)
Lemma assembleLinkEnds_last_call (before : list LinkEnds) (l : LinkEnds)
    (after : list LinkEnds)
    (acc partials : gmap LinkEnds (BlockMap * option nat)) (s0 s' : State E) :
  for_each step (before ++ l :: after) acc s0 = (Normal partials, s') →
  l ∉ after →
  ∃ assembled s1 entry s2,
    for_each step before acc s0 = (Normal assembled, s1)
    ∧ assembleLink l (correctionsOf lightTimeCorrections l)
        (diagnosedState diagnostic lightTimeCorrections l s1)
      = (Normal entry, s2)
    ∧ partials !! l = Some entry.
Proof.
  intros Hrun Hnot. rewrite for_each_app in Hrun. unfold Exec_bind in Hrun.
  destruct (for_each step before acc s0) as [[assembled|e] s1]; [|discriminate].
  cbn [for_each] in Hrun. unfold Exec_bind in Hrun.
  rewrite assembleLinkEnds_eq in Hrun.
  destruct (linkEndsComplete l); [|discriminate].
  destruct (assembleLink l _ _) as [[entry|e] s2] eqn:Hlink; [|discriminate].
  exists assembled, s1, entry, s2. split_and!; [done..|].
  rewrite (assembleLinkEnds_keeps _ _ _ _ _ _ Hrun Hnot).
  apply lookup_insert_eq.
Qed.

End LastCallFacts.

Section AllLinkEndsProperties3.
Context {E : Externals}.

(** X14.  The all-link-ends function of the two-valued observable, when it
    returns, has exactly the links of the list as keys of the mapping and
    has written its own diagnostic once for every link, in order, whose
    entry in the correction map is the empty list, and nothing else.  When
    it throws, the error is its own missing-role error, or one of the two
    errors of the single-link function, whose texts name the mutual
    approximation partials: the leg-count error for some count, or the
    error that a parameter could not be identified. *)
Theorem allLinkEndsWithImpactParameter_outcomes
    (linkEnds : list LinkEnds) (bodyMap : NamedBodyMap E)
    (parametersToEstimate : EstimatableParameterSet)
    (lightTimeCorrections : gmap LinkEnds (list (list (LightTimeCorrection E))))
    (dependentVariablesInterface : option (DependentVariablesInterface E))
    (s : State E) :
  match createMutualApproximationWithImpactParameterPartials_allLinkEnds
          linkEnds bodyMap parametersToEstimate lightTimeCorrections
          dependentVariablesInterface s with
  | (Normal partials, s') =>
      (∀ l, is_Some (partials !! l) ↔ l ∈ linkEnds)
      ∧ cerr s'
        = cerr s
          ++ flat_map (λ l, match lightTimeCorrections !! l with
                            | Some [] =>
                                ["Error when making mutual approximation with impact parameter partials, light time corrections for 0 links found, instead of 2."]
                            | _ => []
                            end) linkEnds
  | (Thrown what, _) =>
      what = "Error when making mutual approximation with impact parameter partials, did not find both transmitter, transmitter2 and receiver in link ends"
      ∨ (∃ n : nat,
           what = "Error when making mutual approximation partials, light time corrections for "
                  +:+ to_string n +:+ " links found, instead of 2.")
      ∨ what = "Error when making mutual approximation partials, could not identify parameter"
  end.
Proof.
  rewrite allLinkEndsWithImpactParameter_shape.
  pose proof (assembleLinkEnds_loop missingRolesMessageWithImpactParameter
                diagnosticWithImpactParameter twoValued
                MutualApproximationWithImpactParameterScaling
                bodyMap parametersToEstimate lightTimeCorrections
                dependentVariablesInterface twoValued_keepsScaler
                linkEnds ∅ s) as Hloop.
  destruct (for_each _ linkEnds ∅ s) as [[partials|what] s'].
  - destruct Hloop as (_ & _ & Hdom & Hcerr).
    split; [|exact Hcerr].
    intros l. rewrite <- elem_of_dom, Hdom, dom_empty_L. set_solver.
  - destruct Hloop as [_ Hwhat]. exact Hwhat.
Qed.

(** X15.  In a mapping returned by the all-link-ends function of the
    two-valued observable every link has a scaling object of its own: the
    pointer is not null, the object is of class
    [MutualApproximationWithImpactParameterScaling], the blocks of the link
    are built on that object, and two different links never share it. *)
Theorem allLinkEndsWithImpactParameter_scaling_per_link
    (linkEnds : list LinkEnds) (bodyMap : NamedBodyMap E)
    (parametersToEstimate : EstimatableParameterSet)
    (lightTimeCorrections : gmap LinkEnds (list (list (LightTimeCorrection E))))
    (dependentVariablesInterface : option (DependentVariablesInterface E))
    (s : State E) (partials : gmap LinkEnds (BlockMap * option nat))
    (s' : State E) :
  createMutualApproximationWithImpactParameterPartials_allLinkEnds linkEnds
    bodyMap parametersToEstimate lightTimeCorrections
    dependentVariablesInterface s
  = (Normal partials, s') →
  (∀ l partialsOfLink scaling,
     partials !! l = Some (partialsOfLink, scaling) →
     (∃ a, scaling = Some a
           ∧ heap s' !! a
             = Some (ScalingObject MutualApproximationWithImpactParameterScaling
                       dependentVariablesInterface))
     ∧ ∀ range block, partialsOfLink !! range = Some block →
         ∃ a o, block = Some a ∧ heap s' !! a = Some o ∧ builtOn scaling o)
  ∧ ∀ l1 l2 entry1 entry2,
      l1 ≠ l2 → partials !! l1 = Some entry1 → partials !! l2 = Some entry2 →
      entry1.2 ≠ entry2.2.
Proof.
  rewrite allLinkEndsWithImpactParameter_shape. intros Hrun.
  pose proof (assembleLinkEnds_separate missingRolesMessageWithImpactParameter
                diagnosticWithImpactParameter twoValued
                MutualApproximationWithImpactParameterScaling
                bodyMap parametersToEstimate lightTimeCorrections
                dependentVariablesInterface twoValued_keepsScaler
                linkEnds ∅ s) as Hloop.
  rewrite Hrun in Hloop. apply Hloop.
  split.
  - intros l p sc Hl. by rewrite lookup_empty in Hl.
  - intros l1 l2 e1 e2 _ Hl. by rewrite lookup_empty in Hl.
Qed.

(** X16.  The all-link-ends function of the single-valued observable is
    the single-link function called link by link.  When the call returns,
    the entry of a link is what the single-link function has returned at
    the last place of the link in the list, where it was called with the
    link's entry in the correction map (no correction groups if it has no
    entry), in the state the links before that place had left, after the
    diagnostic for the link, if any, had been written.  A link given twice
    is assembled twice, and the second result replaces the first. *)
Theorem allLinkEnds_entry_of_last_call
    (bodyMap : NamedBodyMap E)
    (parametersToEstimate : EstimatableParameterSet)
    (isCentralInstantUsedAsObservable : bool)
    (lightTimeCorrections : gmap LinkEnds (list (list (LightTimeCorrection E))))
    (dependentVariablesInterface : option (DependentVariablesInterface E))
    (before : list LinkEnds) (linkEnds_i : LinkEnds) (after : list LinkEnds)
    (partials : gmap LinkEnds (BlockMap * option nat)) (s0 s' : State E) :
  createMutualApproximationPartials_allLinkEnds
    (before ++ linkEnds_i :: after) bodyMap parametersToEstimate
    isCentralInstantUsedAsObservable lightTimeCorrections
    dependentVariablesInterface s0
  = (Normal partials, s') →
  linkEnds_i ∉ after →
  ∃ assembled s1 entry s2,
    createMutualApproximationPartials_allLinkEnds before bodyMap
      parametersToEstimate isCentralInstantUsedAsObservable
      lightTimeCorrections dependentVariablesInterface s0
    = (Normal assembled, s1)
    ∧ createMutualApproximationPartials linkEnds_i bodyMap parametersToEstimate
        isCentralInstantUsedAsObservable
        (default [] (lightTimeCorrections !! linkEnds_i))
        dependentVariablesInterface
        (diagnosedState lightTimeCorrectionsMessage lightTimeCorrections
           linkEnds_i s1)
      = (Normal entry, s2)
    ∧ partials !! linkEnds_i = Some entry.
Proof.
  rewrite !allLinkEnds_shape. intros Hrun Hnot.
  destruct (assembleLinkEnds_last_call _ _ _ _ _ _ _ _ _ _ _ Hrun Hnot)
    as (assembled & s1 & entry & s2 & Hbefore & Hlink & Hentry).
  exists assembled, s1, entry, s2. split_and!; [done| |done].
  by rewrite createMutualApproximationPartials_shape.
Qed.

End AllLinkEndsProperties3.

(** X2, witness: three links, the first and the third the same, with an
    entry without correction groups; the mapping has the two different
    links as keys, and the diagnostic has been written twice. *)
Lemma allLinkEnds_keys_and_diagnostics_witness :
  ∃ partials s',
    createMutualApproximationPartials_allLinkEnds (E:=world)
      [completeLink; otherCompleteLink; completeLink] bodies
      scenarioParameters true emptyEntryForCompleteLink None start
    = (Normal partials, s')
    ∧ (∀ l, is_Some (partials !! l)
            ↔ l ∈ [completeLink; otherCompleteLink; completeLink])
    ∧ cerr s'
      = ["Error when making mutual approximation partials, light time corrections for 0 links found, instead of 2.";
         "Error when making mutual approximation partials, light time corrections for 0 links found, instead of 2."].
Proof.
  assert (∃ partials s',
            createMutualApproximationPartials_allLinkEnds (E:=world)
              [completeLink; otherCompleteLink; completeLink] bodies
              scenarioParameters true emptyEntryForCompleteLink None start
            = (Normal partials, s'))
    as (partials & s' & Hrun) by (eexists _, _; reflexivity).
  exists partials, s'. split; [exact Hrun|].
  exact (allLinkEnds_keys_and_diagnostics (E:=world)
           [completeLink; otherCompleteLink; completeLink] bodies
           scenarioParameters true emptyEntryForCompleteLink None start
           partials s' Hrun).
Defined.

(** X3, witness: two links; each has a scaling object of its own. *)
Lemma allLinkEnds_scaling_per_link_witness :
  ∃ partials s',
    createMutualApproximationPartials_allLinkEnds (E:=world)
      [completeLink; otherCompleteLink] bodies scenarioParameters false ∅ None
      start
    = (Normal partials, s')
    ∧ (∀ l partialsOfLink scaling,
         partials !! l = Some (partialsOfLink, scaling) →
         (∃ a, scaling = Some a
               ∧ heap s' !! a
                 = Some (ScalingObject (E:=world)
                           ModifiedMutualApproximationScaling None))
         ∧ ∀ range block, partialsOfLink !! range = Some block →
             ∃ a o, block = Some a ∧ heap s' !! a = Some o ∧ builtOn scaling o)
    ∧ ∀ l1 l2 entry1 entry2,
        l1 ≠ l2 → partials !! l1 = Some entry1 → partials !! l2 = Some entry2 →
        entry1.2 ≠ entry2.2.
Proof.
  assert (∃ partials s',
            createMutualApproximationPartials_allLinkEnds (E:=world)
              [completeLink; otherCompleteLink] bodies scenarioParameters false
              ∅ None start
            = (Normal partials, s'))
    as (partials & s' & Hrun) by (eexists _, _; reflexivity).
  exists partials, s'. split; [exact Hrun|].
  exact (allLinkEnds_scaling_per_link (E:=world)
           [completeLink; otherCompleteLink] bodies scenarioParameters false
           ∅ None start partials s' Hrun).
Defined.

(** X4, witness: the second link has no [transmitter2]; the call throws in
    the state the first link has left. *)
Lemma allLinkEndsWithImpactParameter_missing_role_witness :
  ∃ assembled s1,
    createMutualApproximationWithImpactParameterPartials_allLinkEnds (E:=world)
      [completeLink] bodies scenarioParameters ∅ None start
    = (Normal assembled, s1)
    ∧ (incompleteLink !! receiver = None ∨ incompleteLink !! transmitter = None
       ∨ incompleteLink !! transmitter2 = None)
    ∧ createMutualApproximationWithImpactParameterPartials_allLinkEnds
        (E:=world) ([completeLink] ++ incompleteLink :: [otherCompleteLink])
        bodies scenarioParameters ∅ None start
      = (Thrown
           "Error when making mutual approximation with impact parameter partials, did not find both transmitter, transmitter2 and receiver in link ends",
         s1).
Proof.
  assert (∃ assembled s1,
            createMutualApproximationWithImpactParameterPartials_allLinkEnds
              (E:=world) [completeLink] bodies scenarioParameters ∅ None start
            = (Normal assembled, s1))
    as (assembled & s1 & H1) by (eexists _, _; reflexivity).
  assert (H2 : incompleteLink !! receiver = None
               ∨ incompleteLink !! transmitter = None
               ∨ incompleteLink !! transmitter2 = None)
    by (right; right; vm_compute; reflexivity).
  exists assembled, s1. split; [exact H1|]. split; [exact H2|].
  exact (allLinkEndsWithImpactParameter_missing_role (E:=world) bodies
           scenarioParameters ∅ None [completeLink] incompleteLink
           [otherCompleteLink] assembled start s1 H1 H2).
Defined.

(** X5, witness: the first of two links has an entry of one correction
    group. *)
Lemma allLinkEndsWithImpactParameter_leg_count_mismatch_witness :
  (createMutualApproximationWithImpactParameterPartials_allLinkEnds (E:=world)
     [] bodies scenarioParameters oneGroupForCompleteLink None start
   = (Normal ∅, start)
   ∧ (completeLink !! receiver ≠ None ∧ completeLink !! transmitter ≠ None
      ∧ completeLink !! transmitter2 ≠ None)
   ∧ oneGroupForCompleteLink !! completeLink = Some oneGroup
   ∧ (length oneGroup ≠ 0%nat ∧ length oneGroup ≠ 2%nat))
  ∧ createMutualApproximationWithImpactParameterPartials_allLinkEnds (E:=world)
      ([] ++ completeLink :: [otherCompleteLink])
      bodies scenarioParameters oneGroupForCompleteLink None start
    = (Thrown
         "Error when making mutual approximation partials, light time corrections for 1 links found, instead of 2.",
       {| heap := [];
          cerr := ["Error when making mutual approximation with impact parameter partials, light time corrections for 1 links found, instead of 2."] |}).
Proof.
  assert (H1 : createMutualApproximationWithImpactParameterPartials_allLinkEnds
                 (E:=world) [] bodies scenarioParameters oneGroupForCompleteLink
                 None start
               = (Normal ∅, start)) by reflexivity.
  assert (H2 : completeLink !! receiver ≠ None
               ∧ completeLink !! transmitter ≠ None
               ∧ completeLink !! transmitter2 ≠ None)
    by (vm_compute; repeat split; discriminate).
  assert (H3 : oneGroupForCompleteLink !! completeLink = Some oneGroup)
    by (vm_compute; reflexivity).
  assert (H4 : length oneGroup ≠ 0%nat ∧ length oneGroup ≠ 2%nat)
    by (simpl; lia).
  split; [by split_and!|].
  exact (allLinkEndsWithImpactParameter_leg_count_mismatch (E:=world) bodies
           scenarioParameters oneGroupForCompleteLink None [] completeLink
           [otherCompleteLink] oneGroup ∅ start start H1 H2 H3 H4).
Defined.

(** X9, witness: the scenario with a bias of the single-valued observable.
    The range of the scalar parameter has no entry, and neither has the
    range of the bias, for which the link-property constructor has no
    partial of size 2. *)
Lemma withImpactParameter_block_present_iff_dependency_witness :
  ((length twoGroups = 0%nat ∨ length twoGroups = 2%nat)
   ∧ forallb (acceptedCategory (E:=world))
       (getEstimatedInitialStateParameters withBiasOfSingle) = true
   ∧ NoDup (fst <$> parameterBlocks (E:=world) twoValued completeLink bodies
                      (correctionPartialObjects twoGroups) withBiasOfSingle))
  ∧ ∃ partials scaling s',
      createMutualApproximationWithImpactParameterPartials (E:=world)
        completeLink bodies withBiasOfSingle twoGroups None start
      = (Normal (partials, scaling), s')
      ∧ ¬ is_Some (partials !! (20, 1))
      ∧ ¬ is_Some (partials !! (21, 3)).
Proof.
  assert (H1 : length twoGroups = 0%nat ∨ length twoGroups = 2%nat)
    by (right; reflexivity).
  assert (H2 : forallb (acceptedCategory (E:=world))
                 (getEstimatedInitialStateParameters withBiasOfSingle) = true)
    by reflexivity.
  assert (H3 : NoDup (fst <$> parameterBlocks (E:=world) twoValued completeLink
                                bodies (correctionPartialObjects twoGroups)
                                withBiasOfSingle)).
  { refine (bool_decide_unpack _ _). vm_compute. exact I. }
  split; [by split_and!|].
  destruct (withImpactParameter_block_present_iff_dependency (E:=world)
              completeLink bodies withBiasOfSingle twoGroups None start
              H1 H2 H3)
    as (partials & scaling & s' & Hrun & Hdoubles & Hvectors).
  exists partials, scaling, s'. split; [exact Hrun|]. split.
  - intros Hblock.
    apply (Hdoubles 20 scalarP) in Hblock as [Hposition|Hcorrection].
    + vm_compute in Hposition. lia.
    + by apply Hcorrection.
    + by left.
  - intros Hblock.
    apply (Hvectors 21 biasOfSingle) in Hblock; [|by left].
    vm_compute in Hblock. by destruct Hblock.
Defined.

(** X10, witness: the scenario of the spec. *)
Lemma blocks_at_parameter_ranges_only_witness :
  ((length (@nil (list (LightTimeCorrection world))) = 0%nat
    ∨ length (@nil (list (LightTimeCorrection world))) = 2%nat)
   ∧ forallb (acceptedCategory (E:=world))
       (getEstimatedInitialStateParameters scenarioParameters) = true
   ∧ (6 * Z.of_nat (length (getEstimatedInitialStateParameters scenarioParameters))
      ≤ INT_MAX)%Z)
  ∧ ∃ partials scaling s',
      createMutualApproximationPartials (E:=world) completeLink bodies
        scenarioParameters true [] None start
      = (Normal (partials, scaling), s')
      ∧ ∀ start size, is_Some (partials !! (start, size)) →
          (size = 6
           ∧ ∃ i : nat,
               (i < length (getEstimatedInitialStateParameters
                              scenarioParameters))%nat
               ∧ start = 6 * Z.of_nat i)
          ∨ (size = 1
             ∧ ∃ parameter,
                 (start, parameter) ∈ getDoubleParameters scenarioParameters)
          ∨ (∃ parameter,
               (start, parameter) ∈ getVectorParameters scenarioParameters
               ∧ size = getParameterSize world parameter).
Proof.
  assert (H1 : length (@nil (list (LightTimeCorrection world))) = 0%nat
               ∨ length (@nil (list (LightTimeCorrection world))) = 2%nat)
    by (left; reflexivity).
  assert (H2 : forallb (acceptedCategory (E:=world))
                 (getEstimatedInitialStateParameters scenarioParameters) = true)
    by reflexivity.
  assert (H3 : (6 * Z.of_nat (length (getEstimatedInitialStateParameters
                                         scenarioParameters))
                ≤ INT_MAX)%Z)
    by (vm_compute; discriminate).
  split; [by split_and!|].
  exact (blocks_at_parameter_ranges_only (E:=world) completeLink bodies
           scenarioParameters true [] None start H1 H2 H3).
Defined.

(** X11, witness: two initial states, a scalar parameter and a bias of
    the single-valued observable.  After the loop over the initial states
    the call constructs the partial of the scalar parameter and the
    link-property partial of the bias. *)
Lemma single_link_objects_constructed_witness :
  ((length twoGroups = 0%nat ∨ length twoGroups = 2%nat)
   ∧ forallb (acceptedCategory (E:=world))
       (getEstimatedInitialStateParameters withBiasOfSingle) = true)
  ∧ ∃ partials s' afterInitialStates s1,
      createMutualApproximationPartials (E:=world) completeLink bodies
        withBiasOfSingle true twoGroups None start
      = (Normal (partials, Some 0%nat), s')
      ∧ for_each
          (initialDynamicalParameterIteration (E:=world) completeLink bodies
             (Some 0%nat) [[1%nat]; [2%nat]])
          [stateOfA; stateOfB] (∅, 0)
          (allocated start (ScalingObject (E:=world) MutualApproximationScaling None))
        = (Normal afterInitialStates, s1)
      ∧ heap s'
        = heap s1
          ++ [MutualApproximationPartial (E:=world)
                {| positionPartialScaler := Some 0%nat;
                   positionPartialList := ∅;
                   parameterIdentifier := (other_parameter 0, ("A", ""));
                   lighTimeCorrectionPartials :=
                     ([[1%nat]; [2%nat]]
                      : list (list (LightTimeCorrectionPartial world))) |};
              ObservationPartialWrtLinkProperty (E:=world) 1 mutual_approximation]
      ∧ cerr s' = [].
Proof.
  assert (H1 : length twoGroups = 0%nat ∨ length twoGroups = 2%nat)
    by (right; reflexivity).
  assert (H2 : forallb (acceptedCategory (E:=world))
                 (getEstimatedInitialStateParameters withBiasOfSingle) = true)
    by reflexivity.
  split; [by split|].
  exact (single_link_objects_constructed (E:=world) completeLink bodies
           withBiasOfSingle true twoGroups None start H1 H2).
Defined.

(** X13, witness: two initial states, a scalar parameter and a bias of
    both observables.  After the loop over the initial states the call
    constructs the partial of the scalar parameter and the link-property
    partial of size 2 of the bias. *)
Lemma withImpactParameter_objects_constructed_witness :
  ((length twoGroups = 0%nat ∨ length twoGroups = 2%nat)
   ∧ forallb (acceptedCategory (E:=world))
       (getEstimatedInitialStateParameters withBiasOfBoth) = true)
  ∧ ∃ partials s' afterInitialStates s1,
      createMutualApproximationWithImpactParameterPartials (E:=world)
        completeLink bodies withBiasOfBoth twoGroups None start
      = (Normal (partials, Some 0%nat), s')
      ∧ for_each
          (initialDynamicalParameterIterationWithImpactParameter (E:=world)
             completeLink bodies (Some 0%nat) [[1%nat]; [2%nat]])
          [stateOfA; stateOfB] (∅, 0)
          (allocated start
             (ScalingObject (E:=world)
                MutualApproximationWithImpactParameterScaling None))
        = (Normal afterInitialStates, s1)
      ∧ heap s'
        = heap s1
          ++ [MutualApproximationWithImpactParameterPartial (E:=world)
                {| positionPartialScaler := Some 0%nat;
                   positionPartialList := ∅;
                   parameterIdentifier := (other_parameter 0, ("A", ""));
                   lighTimeCorrectionPartials :=
                     ([[1%nat]; [2%nat]]
                      : list (list (LightTimeCorrectionPartial world))) |};
              ObservationPartialWrtLinkProperty (E:=world) 2
                mutual_approximation_with_impact_parameter]
      ∧ cerr s' = [].
Proof.
  assert (H1 : length twoGroups = 0%nat ∨ length twoGroups = 2%nat)
    by (right; reflexivity).
  assert (H2 : forallb (acceptedCategory (E:=world))
                 (getEstimatedInitialStateParameters withBiasOfBoth) = true)
    by reflexivity.
  split; [by split|].
  exact (withImpactParameter_objects_constructed (E:=world) completeLink bodies
           withBiasOfBoth twoGroups None start H1 H2).
Defined.

(** X15, witness: two links; each has a scaling object of its own. *)
Lemma allLinkEndsWithImpactParameter_scaling_per_link_witness :
  ∃ partials s',
    createMutualApproximationWithImpactParameterPartials_allLinkEnds (E:=world)
      [completeLink; otherCompleteLink] bodies scenarioParameters ∅ None start
    = (Normal partials, s')
    ∧ (∀ l partialsOfLink scaling,
         partials !! l = Some (partialsOfLink, scaling) →
         (∃ a, scaling = Some a
               ∧ heap s' !! a
                 = Some (ScalingObject (E:=world)
                           MutualApproximationWithImpactParameterScaling None))
         ∧ ∀ range block, partialsOfLink !! range = Some block →
             ∃ a o, block = Some a ∧ heap s' !! a = Some o ∧ builtOn scaling o)
    ∧ ∀ l1 l2 entry1 entry2,
        l1 ≠ l2 → partials !! l1 = Some entry1 → partials !! l2 = Some entry2 →
        entry1.2 ≠ entry2.2.
Proof.
  assert (∃ partials s',
            createMutualApproximationWithImpactParameterPartials_allLinkEnds
              (E:=world) [completeLink; otherCompleteLink] bodies
              scenarioParameters ∅ None start
            = (Normal partials, s'))
    as (partials & s' & Hrun) by (eexists _, _; reflexivity).
  exists partials, s'. split; [exact Hrun|].
  exact (allLinkEndsWithImpactParameter_scaling_per_link (E:=world)
           [completeLink; otherCompleteLink] bodies scenarioParameters ∅ None
           start partials s' Hrun).
Defined.

(** X16, witness: the first link is given again at the end of the list;
    its entry is the result of the third call, whose scaling object is the
    seventh object constructed. *)
Lemma allLinkEnds_entry_of_last_call_witness :
  ∃ partials s',
    createMutualApproximationPartials_allLinkEnds (E:=world)
      ([completeLink; otherCompleteLink] ++ completeLink :: [])
      bodies scenarioParameters true emptyEntryForCompleteLink None start
    = (Normal partials, s')
    ∧ (completeLink ∉ ([] : list LinkEnds))
    ∧ ∃ assembled s1 entry s2,
        createMutualApproximationPartials_allLinkEnds (E:=world)
          [completeLink; otherCompleteLink] bodies scenarioParameters true
          emptyEntryForCompleteLink None start
        = (Normal assembled, s1)
        ∧ createMutualApproximationPartials (E:=world) completeLink bodies
            scenarioParameters true
            (default [] (emptyEntryForCompleteLink !! completeLink)) None
            (diagnosedState lightTimeCorrectionsMessage
               emptyEntryForCompleteLink completeLink s1)
          = (Normal entry, s2)
        ∧ partials !! completeLink = Some entry.
Proof.
  assert (∃ partials s',
            createMutualApproximationPartials_allLinkEnds (E:=world)
              ([completeLink; otherCompleteLink] ++ completeLink :: [])
              bodies scenarioParameters true emptyEntryForCompleteLink None
              start
            = (Normal partials, s'))
    as (partials & s' & H1) by (eexists _, _; reflexivity).
  assert (H2 : completeLink ∉ ([] : list LinkEnds)) by apply not_elem_of_nil.
  exists partials, s'. split; [exact H1|]. split; [exact H2|].
  exact (allLinkEnds_entry_of_last_call (E:=world) bodies scenarioParameters
           true emptyEntryForCompleteLink None
           [completeLink; otherCompleteLink] completeLink [] partials start s'
           H1 H2).
Defined.
